(** * The LibreOffice conversion routes (pkg/modules/libreoffice/routes.go)

    A shallow embedding of the two HTTP handlers [convertRoute] (documents to
    PDF) and [convertRouteDocx] (documents to DOCX), and the properties of the
    pipeline they coordinate.

    The handlers are sequential imperative code that talks to three
    collaborators: the LibreOffice bridge ([libreofficeapi.Uno]), the PDF
    engine ([gotenberg.PdfEngine]) and the request context ([api.Context]).
    The embedding threads an explicit state through the handler: the number of
    paths allocated so far, the chronological trace of every fallible call made
    to a collaborator together with its answer, and the output paths registered
    on the context.  A collaborator is a function of the trace so far and of
    the arguments of the call, so every deterministic environment is covered
    and the theorems quantify over all of them. *)

From Stdlib Require Import Lia.
From stdpp Require Import base list sorting strings gmap.

Local Open Scope string_scope.
Local Open Scope list_scope.
Local Open Scope nat_scope.

(** ** Errors *)

(** The two sentinel errors of the LibreOffice API the handler tests for with
    [errors.Is]. *)
Inductive sentinel :=
| ErrInvalidPdfFormats
| ErrMalformedPageRanges.

Global Instance sentinel_eq_dec : EqDecision sentinel.
Proof. solve_decision. Defined.

(** A Go error value, as far as the handlers build and inspect one. *)
Inductive error :=
| Sentinel (s : sentinel)
    (* one of the sentinels above *)
| Opaque (msg : string)
    (* any other leaf error of a collaborator *)
| Errorf (prefix : string) (cause : error)
    (* fmt.Errorf("<prefix>: %w", cause) *)
| WrapError (cause : error) (status : nat) (message : string)
    (* api.WrapError(cause, api.NewSentinelHttpError(status, message)) *)
| Join (first second : error).
    (* an error that wraps two errors: errors.Join(first, second), or
       fmt.Errorf with two %w verbs *)

(** [errors.Is err target] for a sentinel target: walk the tree of wrapped
    errors.  An error that wraps several errors matches when one of them
    does, so an error can match both sentinels.  The HTTP sentinel attached
    by [api.WrapError] is of another type and never equals a LibreOffice
    sentinel. *)
Fixpoint errors_Is (err : error) (target : sentinel) : bool :=
  match err with
  | Sentinel s => bool_decide (s = target)
  | Opaque _ => false
  | Errorf _ cause => errors_Is cause target
  | WrapError cause _ _ => errors_Is cause target
  | Join first second => errors_Is first target || errors_Is second target
  end.

(** The HTTP errors carried by an error: those attached by [api.WrapError]
    anywhere in the tree of wrapped errors. *)
Fixpoint http_errors (err : error) : list (nat * string) :=
  match err with
  | Sentinel _ | Opaque _ => []
  | Errorf _ cause => http_errors cause
  | WrapError cause status message => http_errors cause ++ [(status, message)]
  | Join first second => http_errors first ++ http_errors second
  end.

Definition StatusBadRequest : nat := 400.
Definition StatusInternalServerError : nat := 500.

(** ** Values of the gotenberg and libreofficeapi packages *)

Module gotenberg.

Record PdfFormats := { PdfA : string; PdfUa : bool }.

Global Instance PdfFormats_eq_dec : EqDecision PdfFormats.
Proof. solve_decision. Defined.

(** [fmt.Sprintf("%+v", formats)] *)
Definition Sprintf_v (formats : PdfFormats) : string :=
  "{PdfA:" +:+ PdfA formats +:+ " PdfUa:"
    +:+ (if PdfUa formats then "true" else "false") +:+ "}".

End gotenberg.

Module libreofficeapi.

Record Options := {
  Landscape : bool;
  PageRanges : string;
  ExportFormFields : bool;
  SinglePageSheets : bool;
  PdfFormats : gotenberg.PdfFormats;
}.

End libreofficeapi.

(** The zero value of [gotenberg.PdfFormats]. *)
Definition zeroValued : gotenberg.PdfFormats :=
  {| gotenberg.PdfA := ""; gotenberg.PdfUa := false |}.

(** A decoded JSON value ([interface{}] after [json.Unmarshal]). *)
#[local] Unset Elimination Schemes.
Inductive json :=
| JNull
| JBool (b : bool)
| JNumber (literal : string)
| JString (s : string)
| JArray (items : list json)
| JObject (fields : list (string * json)).
#[local] Set Elimination Schemes.

(** ** Calls to the collaborators *)

(** One fallible call to a collaborator, with its arguments and its answer
    ([None] is Go's nil error). *)
Inductive Event :=
| EPdf (inputPath outputPath : string) (options : libreofficeapi.Options)
       (res : option error)
| EDocx (inputPath outputPath : string) (res : option error)
| EMerge (inputPaths : list string) (outputPath : string) (res : option error)
| EConvert (formats : gotenberg.PdfFormats) (inputPath outputPath : string)
           (res : option error)
| EWriteMetadata (metadata : gmap string json) (path : string)
                 (res : option error)
| ERename (oldpath newpath : string) (res : option error)
| EAddOutputPaths (paths : list string) (res : option error).

Definition answer (ev : Event) : option error :=
  match ev with
  | EPdf _ _ _ res | EDocx _ _ res | EMerge _ _ res | EConvert _ _ _ res
  | EWriteMetadata _ _ res | ERename _ _ res | EAddOutputPaths _ res => res
  end.

(** The stage of the pipeline a call belongs to, in pipeline order. *)
Inductive Stage :=
| StageConversion | StageMerge | StageNormalization | StageMetadata
| StageNaming | StageResponse.

Global Instance Stage_eq_dec : EqDecision Stage.
Proof. solve_decision. Defined.

Definition stage_of (ev : Event) : Stage :=
  match ev with
  | EPdf _ _ _ _ | EDocx _ _ _ => StageConversion
  | EMerge _ _ _ => StageMerge
  | EConvert _ _ _ _ => StageNormalization
  | EWriteMetadata _ _ _ => StageMetadata
  | ERename _ _ _ => StageNaming
  | EAddOutputPaths _ _ => StageResponse
  end.

Definition stage_rank (s : Stage) : nat :=
  match s with
  | StageConversion => 1 | StageMerge => 2 | StageNormalization => 3
  | StageMetadata => 4 | StageNaming => 5 | StageResponse => 6
  end.

(** [libreofficeapi.Uno] *)
Record Uno := {
  Pdf : list Event → string → string → libreofficeapi.Options → option error;
  Docx : list Event → string → string → option error;
}.

(** [gotenberg.PdfEngine] *)
Record PdfEngine := {
  Merge : list Event → list string → string → option error;
  Convert : list Event → gotenberg.PdfFormats → string → string → option error;
  WriteMetadata : list Event → gmap string json → string → option error;
}.

(** The part of [api.Context] the handlers use.  [GeneratePath n ext] is the
    path returned by the [n]-th call (counting from 0) of [ctx.GeneratePath]
    in the request.  [formAppend] and [formValidate] stand for the error
    accumulation of [api.FormData], which is not part of this file: the
    result of appending an error to the errors collected so far, and the
    error [Validate] returns when some were collected ([Validate] returns nil
    when none was). *)
Record Context := {
  GeneratePath : nat → string → string;
  Rename : list Event → string → string → option error;
  AddOutputPaths : list Event → list string → option error;
  formAppend : option error → error → error;
  formValidate : error → error;
}.

(** The form of a request as the typed binders of [ctx.FormData()] leave it:
    the bound variables of the handler, the raw value of the "metadata" field
    (empty when the field is absent) and the errors the typed binders
    appended. *)
Module Form.
Record t := {
  inputPaths : list string;
  landscape : bool;
  nativePageRanges : string;
  exportFormFields : bool;
  singlePageSheets : bool;
  pdfa : string;
  pdfua : bool;
  nativePdfFormats : bool;
  merge : bool;
  metadata : string;
  errors : option error;
}.
End Form.

(** ** The handler monad *)

Record State := {
  allocated : nat;
  trace : list Event;
  ctx_outputPaths : list string;
}.

Definition initial : State :=
  {| allocated := 0; trace := []; ctx_outputPaths := [] |}.

(** A computation returns a value, returns a non-nil Go error, or panics (an
    index out of range). *)
Inductive outcome (A : Type) :=
| Return (a : A)
| Fail (err : error)
| Panic.
Arguments Return {A} a.
Arguments Fail {A} err.
Arguments Panic {A}.

Definition M (A : Type) : Type := State → outcome A * State.

Global Instance M_ret : MRet M := λ A a st, (Return a, st).

Global Instance M_bind : MBind M := λ A B k m st,
  match m st with
  | (Return a, st') => k a st'
  | (Fail err, st') => (Fail err, st')
  | (Panic, st') => (Panic, st')
  end.

Definition throw {A} (err : error) : M A := λ st, (Fail err, st).
Definition panic {A} : M A := λ st, (Panic, st).

(** A fallible call to a collaborator: ask for the answer given the trace so
    far and record the call. *)
Definition call (mk : option error → Event)
    (ask : list Event → option error) : M (option error) := λ st,
  let res := ask (trace st) in
  (Return res,
   {| allocated := allocated st;
      trace := trace st ++ [mk res];
      ctx_outputPaths := ctx_outputPaths st |}).

(** [make([]string, n)] *)
Definition make (n : nat) : list string := replicate n "".

(** [s[i] = v], which panics out of range. *)
Definition slice_set (s : list string) (i : nat) (v : string) : M (list string) :=
  if decide (i < length s) then mret (<[i:=v]> s) else panic.

(** [s[i]], which panics out of range. *)
Definition slice_get (s : list string) (i : nat) : M string :=
  match s !! i with
  | Some v => mret v
  | None => panic
  end.

(** ** The handlers *)

Section Routes.

Variable libreOffice : Uno.
Variable engine : PdfEngine.
Variable ctx : Context.

(** [json.Unmarshal([]byte(value), &metadata)] on the nil map [metadata]:
    an error, or the decoded map. *)
Variable json_Unmarshal : string → error + gmap string json.

(** [ctx.GeneratePath(extension)] never fails. *)
Definition ctx_GeneratePath (extension : string) : M string := λ st,
  (Return (GeneratePath ctx (allocated st) extension),
   {| allocated := S (allocated st);
      trace := trace st;
      ctx_outputPaths := ctx_outputPaths st |}).

Definition libreOffice_Pdf (inputPath outputPath : string)
    (options : libreofficeapi.Options) : M (option error) :=
  call (EPdf inputPath outputPath options)
       (λ tr, Pdf libreOffice tr inputPath outputPath options).

Definition libreOffice_Docx (inputPath outputPath : string) : M (option error) :=
  call (EDocx inputPath outputPath)
       (λ tr, Docx libreOffice tr inputPath outputPath).

Definition engine_Merge (inputPaths : list string) (outputPath : string)
    : M (option error) :=
  call (EMerge inputPaths outputPath)
       (λ tr, Merge engine tr inputPaths outputPath).

Definition engine_Convert (formats : gotenberg.PdfFormats)
    (inputPath outputPath : string) : M (option error) :=
  call (EConvert formats inputPath outputPath)
       (λ tr, Convert engine tr formats inputPath outputPath).

Definition engine_WriteMetadata (metadata : gmap string json) (path : string)
    : M (option error) :=
  call (EWriteMetadata metadata path)
       (λ tr, WriteMetadata engine tr metadata path).

Definition ctx_Rename (oldpath newpath : string) : M (option error) :=
  call (ERename oldpath newpath) (λ tr, Rename ctx tr oldpath newpath).

(** [ctx.AddOutputPaths(paths...)]: on success the paths are appended to the
    output paths of the context. *)
Definition ctx_AddOutputPaths (paths : list string) : M (option error) := λ st,
  let res := AddOutputPaths ctx (trace st) paths in
  (Return res,
   {| allocated := allocated st;
      trace := trace st ++ [EAddOutputPaths paths res];
      ctx_outputPaths :=
        match res with
        | None => ctx_outputPaths st ++ paths
        | Some _ => ctx_outputPaths st
        end |}).

(** *** Form validation (lines 40-62) *)

(** The callback given to [Custom("metadata", ...)] (lines 50-58): the error
    it returns and the value of the variable [metadata] afterwards. *)
Definition metadataCallback (value : string)
    : option error * gmap string json :=
  if decide (0 < String.length value) then
    match json_Unmarshal value with
    | inl err => (Some (Errorf "unmarshal metadata" err), ∅)
    | inr decoded => (None, decoded)
    end
  else (None, ∅).

(** [ctx.FormData(). ... .Custom("metadata", ...).Validate()]: the error
    [Validate] returns and the variable [metadata].  An error returned by the
    callback is appended to the errors of the form, like the errors of the
    typed binders. *)
Definition Validate (form : Form.t) : option error * gmap string json :=
  let '(cbErr, metadata) := metadataCallback (Form.metadata form) in
  let errors :=
    match cbErr with
    | Some err => Some (formAppend ctx (Form.errors form) err)
    | None => Form.errors form
    end in
  (formValidate ctx <$> errors, metadata).

(** *** convertRoute *)

Definition pdfFormatsOf (form : Form.t) : gotenberg.PdfFormats :=
  {| gotenberg.PdfA := Form.pdfa form; gotenberg.PdfUa := Form.pdfua form |}.

(** The options built for every document (lines 73-82). *)
Definition optionsOf (form : Form.t) : libreofficeapi.Options :=
  {| libreofficeapi.Landscape := Form.landscape form;
     libreofficeapi.PageRanges := Form.nativePageRanges form;
     libreofficeapi.ExportFormFields := Form.exportFormFields form;
     libreofficeapi.SinglePageSheets := Form.singlePageSheets form;
     libreofficeapi.PdfFormats :=
       if Form.nativePdfFormats form then pdfFormatsOf form else zeroValued |}.

(** The error returned when [libreOffice.Pdf] fails (lines 85-104). *)
Definition pdfFailure (form : Form.t) (err : error) : error :=
  if errors_Is err ErrInvalidPdfFormats then
    WrapError (Errorf "convert to PDF" err) StatusBadRequest
      ("A PDF format in '" +:+ gotenberg.Sprintf_v (pdfFormatsOf form)
         +:+ "' is not supported")
  else if errors_Is err ErrMalformedPageRanges then
    WrapError (Errorf "convert to PDF" err) StatusBadRequest
      ("Malformed page ranges '"
         +:+ libreofficeapi.PageRanges (optionsOf form)
         +:+ "' (nativePageRanges)")
  else Errorf "convert to PDF" err.

(** The loop of lines 71-105, from index [i] over the remaining inputs. *)
Fixpoint convertLoop (form : Form.t) (i : nat) (inputPaths : list string)
    (outputPaths : list string) : M (list string) :=
  match inputPaths with
  | [] => mret outputPaths
  | inputPath :: inputPaths' =>
      path ← ctx_GeneratePath ".pdf";
      outputPaths ← slice_set outputPaths i path;
      let options := optionsOf form in
      outputPath ← slice_get outputPaths i;
      err ← libreOffice_Pdf inputPath outputPath options;
      match err with
      | Some err => throw (pdfFailure form err)
      | None => convertLoop form (S i) inputPaths' outputPaths
      end
  end.

(** Lines 108-118. *)
Definition mergeStage (form : Form.t) (outputPaths : list string)
    : M (list string) :=
  if bool_decide (1 < length outputPaths) && Form.merge form then
    outputPath ← ctx_GeneratePath ".pdf";
    err ← engine_Merge outputPaths outputPath;
    match err with
    | Some err => throw (Errorf "merge PDFs" err)
    | None => mret [outputPath]
    end
  else mret outputPaths.

(** The loop of lines 126-134. *)
Fixpoint pdfConvertLoop (pdfFormats : gotenberg.PdfFormats) (i : nat)
    (outputPaths : list string) (convertOutputPaths : list string)
    : M (list string) :=
  match outputPaths with
  | [] => mret convertOutputPaths
  | outputPath :: outputPaths' =>
      let convertInputPath := outputPath in
      path ← ctx_GeneratePath ".pdf";
      convertOutputPaths ← slice_set convertOutputPaths i path;
      convertOutputPath ← slice_get convertOutputPaths i;
      err ← engine_Convert pdfFormats convertInputPath convertOutputPath;
      match err with
      | Some err => throw (Errorf "convert PDF" err)
      | None => pdfConvertLoop pdfFormats (S i) outputPaths' convertOutputPaths
      end
  end.

(** Lines 122-138. *)
Definition normalizeStage (form : Form.t) (outputPaths : list string)
    : M (list string) :=
  if negb (Form.nativePdfFormats form)
     && bool_decide (pdfFormatsOf form ≠ zeroValued) then
    pdfConvertLoop (pdfFormatsOf form) 0 outputPaths
      (make (length outputPaths))
  else mret outputPaths.

(** The loop of lines 142-147. *)
Fixpoint metadataLoop (metadata : gmap string json)
    (outputPaths : list string) : M unit :=
  match outputPaths with
  | [] => mret tt
  | outputPath :: outputPaths' =>
      err ← engine_WriteMetadata metadata outputPath;
      match err with
      | Some err => throw (Errorf "write metadata" err)
      | None => metadataLoop metadata outputPaths'
      end
  end.

(** Lines 141-148. *)
Definition metadataStage (metadata : gmap string json)
    (outputPaths : list string) : M unit :=
  if decide (0 < size metadata) then metadataLoop metadata outputPaths
  else mret tt.

(** The loops of lines 152-161 and 217-226, with the suffix of the route. *)
Fixpoint renameLoop (suffix : string) (i : nat) (inputPaths : list string)
    (outputPaths : list string) : M (list string) :=
  match inputPaths with
  | [] => mret outputPaths
  | inputPath :: inputPaths' =>
      let outputPath := inputPath +:+ suffix in
      oldPath ← slice_get outputPaths i;
      err ← ctx_Rename oldPath outputPath;
      match err with
      | Some err => throw (Errorf "rename output path" err)
      | None =>
          outputPaths ← slice_set outputPaths i outputPath;
          renameLoop suffix (S i) inputPaths' outputPaths
      end
  end.

(** Lines 150-162 and 215-227. *)
Definition namingStage (suffix : string) (inputPaths outputPaths : list string)
    : M (list string) :=
  if decide (1 < length outputPaths) then
    renameLoop suffix 0 inputPaths outputPaths
  else mret outputPaths.

(** Lines 166-171 and 231-236. *)
Definition responseStage (outputPaths : list string) : M unit :=
  err ← ctx_AddOutputPaths outputPaths;
  match err with
  | Some err => throw (Errorf "add output paths" err)
  | None => mret tt
  end.

(** The handler of [convertRoute] on a request with the given form. *)
Definition convertRoute (form : Form.t) : M unit :=
  let '(err, metadata) := Validate form in
  match err with
  | Some err => throw (Errorf "validate form data" err)
  | None =>
      let inputPaths := Form.inputPaths form in
      outputPaths ← convertLoop form 0 inputPaths (make (length inputPaths));
      outputPaths ← mergeStage form outputPaths;
      outputPaths ← normalizeStage form outputPaths;
      _ ← metadataStage metadata outputPaths;
      outputPaths ← namingStage ".pdf" inputPaths outputPaths;
      responseStage outputPaths
  end.

(** *** convertRouteDocx *)

(** The loop of lines 200-213. *)
Fixpoint docxLoop (i : nat) (inputPaths : list string)
    (outputPaths : list string) : M (list string) :=
  match inputPaths with
  | [] => mret outputPaths
  | inputPath :: inputPaths' =>
      path ← ctx_GeneratePath ".docx";
      outputPaths ← slice_set outputPaths i path;
      outputPath ← slice_get outputPaths i;
      err ← libreOffice_Docx inputPath outputPath;
      match err with
      | Some err =>
          throw (WrapError (Errorf "convert to DOCX" err)
                   StatusInternalServerError "Error")
      | None => docxLoop (S i) inputPaths' outputPaths
      end
  end.

(** The handler of [convertRouteDocx]: the form binds the input paths only
    (lines 191-196). *)
Definition convertRouteDocx (form : Form.t) : M unit :=
  match formValidate ctx <$> Form.errors form with
  | Some err => throw (Errorf "validate form data" err)
  | None =>
      let inputPaths := Form.inputPaths form in
      outputPaths ← docxLoop 0 inputPaths (make (length inputPaths));
      outputPaths ← namingStage ".docx" inputPaths outputPaths;
      responseStage outputPaths
  end.

End Routes.

(** ** Running the monad *)

Lemma bind_run {A B} (m : M A) (k : A → M B) st :
  (m ≫= k) st =
  match m st with
  | (Return a, st') => k a st'
  | (Fail err, st') => (Fail err, st')
  | (Panic, st') => (Panic, st')
  end.
Proof. reflexivity. Qed.

Lemma ret_run {A} (a : A) st : (mret a : M A) st = (Return a, st).
Proof. reflexivity. Qed.

Lemma slice_set_run (s : list string) i v st :
  i < length s → slice_set s i v st = (Return (<[i:=v]> s), st).
Proof. intros Hi. unfold slice_set. by rewrite decide_True. Qed.

Lemma slice_get_run (s : list string) i v st :
  s !! i = Some v → slice_get s i st = (Return v, st).
Proof. intros Hi. unfold slice_get. by rewrite Hi. Qed.

Lemma slice_set_get_run {B} (s : list string) i v
    (k : list string → string → M B) st :
  i < length s →
  (s' ← slice_set s i v; x ← slice_get s' i; k s' x) st = k (<[i:=v]> s) v st.
Proof.
  intros Hi. rewrite bind_run, slice_set_run by done.
  rewrite bind_run, (slice_get_run _ _ v); [done|].
  by apply list_lookup_insert_eq.
Qed.

Lemma state_eta st :
  {| allocated := allocated st; trace := trace st;
     ctx_outputPaths := ctx_outputPaths st |} = st.
Proof. by destruct st. Qed.

(** Lists indexed from an offset. *)
Lemma imap_offset_cons {A B} (f : nat → A → B) a x l :
  imap (λ j, f (a + j)) (x :: l) = f a x :: imap (λ j, f (S a + j)) l.
Proof.
  simpl. rewrite Nat.add_0_r. f_equal. apply imap_ext. intros j y _. simpl.
  f_equal. lia.
Qed.

(** ** The calls of each stage *)

Section Stages.

Variable libreOffice : Uno.
Variable engine : PdfEngine.
Variable ctx : Context.

(** The paths [ctx.GeneratePath] returns from its [a]-th call on, [n] of
    them. *)
Definition genPaths (a n : nat) (ext : string) : list string :=
  (λ j, GeneratePath ctx j ext) <$> seq a n.

Lemma length_genPaths a n ext : length (genPaths a n ext) = n.
Proof. unfold genPaths. by rewrite length_fmap, length_seq. Qed.

Lemma genPaths_S a n ext :
  genPaths a (S n) ext = GeneratePath ctx a ext :: genPaths (S a) n ext.
Proof. reflexivity. Qed.

Lemma lookup_genPaths a n ext k :
  k < n → genPaths a n ext !! k = Some (GeneratePath ctx (a + k) ext).
Proof.
  intros Hk. unfold genPaths. rewrite list_lookup_fmap, lookup_seq_lt by done.
  done.
Qed.

(** The successful conversion of the inputs [ins], the first one into the
    [a]-th path. *)
Definition pdfCall (form : Form.t) (k : nat) (inp : string) : Event :=
  EPdf inp (GeneratePath ctx k ".pdf") (optionsOf form) None.

Definition pdfCalls (form : Form.t) (a : nat) (ins : list string)
    : list Event :=
  imap (λ j, pdfCall form (a + j)) ins.

Lemma pdfCalls_cons form a inp ins :
  pdfCalls form a (inp :: ins) = pdfCall form a inp :: pdfCalls form (S a) ins.
Proof. apply (imap_offset_cons (pdfCall form)). Qed.

Lemma convertLoop_run form ins : ∀ i outs st,
  length outs = i + length ins →
  match convertLoop libreOffice ctx form i ins outs st with
  | (Return outs', st') =>
      outs' = take i outs ++ genPaths (allocated st) (length ins) ".pdf" ∧
      st' = {| allocated := allocated st + length ins;
               trace := trace st ++ pdfCalls form (allocated st) ins;
               ctx_outputPaths := ctx_outputPaths st |}
  | (Fail err, st') =>
      ∃ k inp e, ins !! k = Some inp ∧ err = pdfFailure form e ∧
        st' = {| allocated := allocated st + S k;
                 trace := trace st ++ pdfCalls form (allocated st) (take k ins)
                   ++ [EPdf inp (GeneratePath ctx (allocated st + k) ".pdf")
                         (optionsOf form) (Some e)];
                 ctx_outputPaths := ctx_outputPaths st |}
  | (Panic, _) => False
  end.
Proof.
  induction ins as [|inp ins IH]; intros i outs st Hlen;
    cbn [convertLoop length] in *.
  - rewrite ret_run. split.
    + rewrite take_ge by lia. unfold genPaths. simpl. by rewrite app_nil_r.
    + rewrite Nat.add_0_r. unfold pdfCalls. simpl. rewrite app_nil_r.
      by rewrite state_eta.
  - rewrite bind_run. unfold ctx_GeneratePath at 1.
    rewrite slice_set_get_run by lia.
    rewrite bind_run. unfold libreOffice_Pdf, call at 1. cbn [allocated trace ctx_outputPaths].
    destruct (Pdf libreOffice (trace st) inp _ _) as [e|].
    + exists 0, inp, e. simpl. rewrite Nat.add_0_r. repeat split.
      f_equal. lia.
    + match goal with |- context [convertLoop _ _ _ _ _ ?o ?s] =>
        specialize (IH (S i) o s) end.
      rewrite length_insert in IH. specialize (IH ltac:(lia)).
      destruct (convertLoop _ _ _ _ _ _ _) as [[outs'|err|] st'];
        cbn [allocated trace ctx_outputPaths] in *; [| |done].
      * destruct IH as [-> ->]. split.
        -- rewrite genPaths_S.
           erewrite take_S_r by (apply list_lookup_insert_eq; lia).
           rewrite take_insert_ge by lia. by rewrite <- app_assoc.
        -- rewrite pdfCalls_cons, <- app_assoc. f_equal. lia.
      * destruct IH as (k & inp' & e & Hk & -> & ->).
        exists (S k), inp', e. repeat split; [done|].
        cbn [take]. rewrite pdfCalls_cons.
        replace (allocated st + S k) with (S (allocated st) + k) by lia.
        f_equal; [lia|]. rewrite <- !app_assoc. reflexivity.
Qed.

Definition docxCall (k : nat) (inp : string) : Event :=
  EDocx inp (GeneratePath ctx k ".docx") None.

Definition docxCalls (a : nat) (ins : list string) : list Event :=
  imap (λ j, docxCall (a + j)) ins.

Lemma docxCalls_cons a inp ins :
  docxCalls a (inp :: ins) = docxCall a inp :: docxCalls (S a) ins.
Proof. apply (imap_offset_cons docxCall). Qed.

Lemma docxLoop_run ins : ∀ i outs st,
  length outs = i + length ins →
  match docxLoop libreOffice ctx i ins outs st with
  | (Return outs', st') =>
      outs' = take i outs ++ genPaths (allocated st) (length ins) ".docx" ∧
      st' = {| allocated := allocated st + length ins;
               trace := trace st ++ docxCalls (allocated st) ins;
               ctx_outputPaths := ctx_outputPaths st |}
  | (Fail err, st') =>
      ∃ k inp e, ins !! k = Some inp ∧
        err = WrapError (Errorf "convert to DOCX" e)
                StatusInternalServerError "Error" ∧
        st' = {| allocated := allocated st + S k;
                 trace := trace st ++ docxCalls (allocated st) (take k ins)
                   ++ [EDocx inp (GeneratePath ctx (allocated st + k) ".docx")
                         (Some e)];
                 ctx_outputPaths := ctx_outputPaths st |}
  | (Panic, _) => False
  end.
Proof.
  induction ins as [|inp ins IH]; intros i outs st Hlen;
    cbn [docxLoop length] in *.
  - rewrite ret_run. split.
    + rewrite take_ge by lia. unfold genPaths. simpl. by rewrite app_nil_r.
    + rewrite Nat.add_0_r. unfold docxCalls. simpl. rewrite app_nil_r.
      by rewrite state_eta.
  - rewrite bind_run. unfold ctx_GeneratePath at 1.
    rewrite slice_set_get_run by lia.
    rewrite bind_run. unfold libreOffice_Docx, call at 1.
    cbn [allocated trace ctx_outputPaths].
    destruct (Docx libreOffice (trace st) inp _) as [e|].
    + exists 0, inp, e. simpl. rewrite Nat.add_0_r. repeat split.
      f_equal. lia.
    + match goal with |- context [docxLoop _ _ _ _ ?o ?s] =>
        specialize (IH (S i) o s) end.
      rewrite length_insert in IH. specialize (IH ltac:(lia)).
      destruct (docxLoop _ _ _ _ _ _) as [[outs'|err|] st'];
        cbn [allocated trace ctx_outputPaths] in *; [| |done].
      * destruct IH as [-> ->]. split.
        -- rewrite genPaths_S.
           erewrite take_S_r by (apply list_lookup_insert_eq; lia).
           rewrite take_insert_ge by lia. by rewrite <- app_assoc.
        -- rewrite docxCalls_cons, <- app_assoc. f_equal. lia.
      * destruct IH as (k & inp' & e & Hk & -> & ->).
        exists (S k), inp', e. repeat split; [done|].
        cbn [take]. rewrite docxCalls_cons.
        replace (allocated st + S k) with (S (allocated st) + k) by lia.
        f_equal; [lia|]. rewrite <- !app_assoc. reflexivity.
Qed.

(** The successful normalization of the files [outs], the first one into
    the [a]-th path. *)
Definition convertCall (formats : gotenberg.PdfFormats) (k : nat)
    (p : string) : Event :=
  EConvert formats p (GeneratePath ctx k ".pdf") None.

Definition convertCalls (formats : gotenberg.PdfFormats) (a : nat)
    (outs : list string) : list Event :=
  imap (λ j, convertCall formats (a + j)) outs.

Lemma convertCalls_cons formats a p outs :
  convertCalls formats a (p :: outs) =
  convertCall formats a p :: convertCalls formats (S a) outs.
Proof. apply (imap_offset_cons (convertCall formats)). Qed.

Lemma pdfConvertLoop_run formats outs : ∀ i couts st,
  length couts = i + length outs →
  match pdfConvertLoop engine ctx formats i outs couts st with
  | (Return couts', st') =>
      couts' = take i couts ++ genPaths (allocated st) (length outs) ".pdf" ∧
      st' = {| allocated := allocated st + length outs;
               trace := trace st ++ convertCalls formats (allocated st) outs;
               ctx_outputPaths := ctx_outputPaths st |}
  | (Fail err, st') =>
      ∃ k p e, outs !! k = Some p ∧ err = Errorf "convert PDF" e ∧
        st' = {| allocated := allocated st + S k;
                 trace := trace st
                   ++ convertCalls formats (allocated st) (take k outs)
                   ++ [EConvert formats p
                         (GeneratePath ctx (allocated st + k) ".pdf")
                         (Some e)];
                 ctx_outputPaths := ctx_outputPaths st |}
  | (Panic, _) => False
  end.
Proof.
  induction outs as [|p outs IH]; intros i couts st Hlen;
    cbn [pdfConvertLoop length] in *.
  - rewrite ret_run. split.
    + rewrite take_ge by lia. unfold genPaths. simpl. by rewrite app_nil_r.
    + rewrite Nat.add_0_r. unfold convertCalls. simpl. rewrite app_nil_r.
      by rewrite state_eta.
  - rewrite bind_run. unfold ctx_GeneratePath at 1.
    rewrite slice_set_get_run by lia.
    rewrite bind_run. unfold engine_Convert, call at 1.
    cbn [allocated trace ctx_outputPaths].
    destruct (Convert engine (trace st) formats p _) as [e|].
    + exists 0, p, e. simpl. rewrite Nat.add_0_r. repeat split.
      f_equal. lia.
    + match goal with |- context [pdfConvertLoop _ _ _ _ _ ?o ?s] =>
        specialize (IH (S i) o s) end.
      rewrite length_insert in IH. specialize (IH ltac:(lia)).
      destruct (pdfConvertLoop _ _ _ _ _ _ _) as [[couts'|err|] st'];
        cbn [allocated trace ctx_outputPaths] in *; [| |done].
      * destruct IH as [-> ->]. split.
        -- rewrite genPaths_S.
           erewrite take_S_r by (apply list_lookup_insert_eq; lia).
           rewrite take_insert_ge by lia. by rewrite <- app_assoc.
        -- rewrite convertCalls_cons, <- app_assoc. f_equal. lia.
      * destruct IH as (k & p' & e & Hk & -> & ->).
        exists (S k), p', e. repeat split; [done|].
        cbn [take]. rewrite convertCalls_cons.
        replace (allocated st + S k) with (S (allocated st) + k) by lia.
        f_equal; [lia|]. rewrite <- !app_assoc. reflexivity.
Qed.

(** The successful stamping of the files [outs]. *)
Definition metadataCalls (metadata : gmap string json) (outs : list string)
    : list Event :=
  (λ p, EWriteMetadata metadata p None) <$> outs.

Lemma metadataLoop_run metadata outs : ∀ st,
  match metadataLoop engine metadata outs st with
  | (Return _, st') =>
      st' = {| allocated := allocated st;
               trace := trace st ++ metadataCalls metadata outs;
               ctx_outputPaths := ctx_outputPaths st |}
  | (Fail err, st') =>
      ∃ k p e, outs !! k = Some p ∧ err = Errorf "write metadata" e ∧
        st' = {| allocated := allocated st;
                 trace := trace st ++ metadataCalls metadata (take k outs)
                   ++ [EWriteMetadata metadata p (Some e)];
                 ctx_outputPaths := ctx_outputPaths st |}
  | (Panic, _) => False
  end.
Proof.
  induction outs as [|p outs IH]; intros st; cbn [metadataLoop].
  - rewrite ret_run. unfold metadataCalls. simpl. rewrite app_nil_r.
    by rewrite state_eta.
  - rewrite bind_run. unfold engine_WriteMetadata, call at 1.
    destruct (WriteMetadata engine (trace st) metadata p) as [e|].
    + by exists 0, p, e.
    + match goal with |- context [metadataLoop _ _ _ ?s] =>
        specialize (IH s) end.
      destruct (metadataLoop _ _ _ _) as [[?|err|] st'];
        cbn [allocated trace ctx_outputPaths] in *; [| |done].
      * subst st'. f_equal. by rewrite <- app_assoc.
      * destruct IH as (k & p' & e & Hk & -> & ->).
        exists (S k), p', e. repeat split; [done|].
        f_equal. by rewrite <- !app_assoc.
Qed.

(** The successful renaming of the files [olds] after the inputs [ins]. *)
Definition renameCalls (suffix : string) (olds ins : list string)
    : list Event :=
  zip_with (λ old inp, ERename old (inp +:+ suffix) None) olds ins.

Definition renamed (suffix : string) (ins : list string) : list string :=
  (λ inp, inp +:+ suffix) <$> ins.

Lemma renameLoop_run suffix ins : ∀ i outs st,
  i + length ins ≤ length outs →
  match renameLoop ctx suffix i ins outs st with
  | (Return outs', st') =>
      outs' = take i outs ++ renamed suffix ins
                ++ drop (i + length ins) outs ∧
      st' = {| allocated := allocated st;
               trace := trace st ++ renameCalls suffix (drop i outs) ins;
               ctx_outputPaths := ctx_outputPaths st |}
  | (Fail err, st') =>
      ∃ k old inp e, ins !! k = Some inp ∧ outs !! (i + k) = Some old ∧
        err = Errorf "rename output path" e ∧
        st' = {| allocated := allocated st;
                 trace := trace st
                   ++ renameCalls suffix (drop i outs) (take k ins)
                   ++ [ERename old (inp +:+ suffix) (Some e)];
                 ctx_outputPaths := ctx_outputPaths st |}
  | (Panic, _) => False
  end.
Proof.
  induction ins as [|inp ins IH]; intros i outs st Hlen;
    cbn [renameLoop length] in *.
  - rewrite ret_run. split.
    + rewrite Nat.add_0_r. simpl. by rewrite take_drop.
    + unfold renameCalls. rewrite zip_with_nil_r, app_nil_r.
      by rewrite state_eta.
  - destruct (lookup_lt_is_Some_2 outs i ltac:(lia)) as [old Hold].
    rewrite bind_run, (slice_get_run _ _ old) by done.
    rewrite bind_run. unfold ctx_Rename, call at 1.
    rewrite (drop_S _ _ _ Hold).
    destruct (Rename ctx (trace st) old _) as [e|].
    + exists 0, old, inp, e. rewrite Nat.add_0_r. by repeat split.
    + rewrite bind_run, slice_set_run by (cbn; lia).
      match goal with |- context [renameLoop _ _ _ _ ?o ?s] =>
        specialize (IH (S i) o s) end.
      rewrite length_insert in IH. specialize (IH ltac:(lia)).
      destruct (renameLoop _ _ _ _ _ _) as [[outs'|err|] st'];
        cbn [allocated trace ctx_outputPaths] in *; [| |done].
      * destruct IH as [-> ->]. split.
        -- erewrite take_S_r by (apply list_lookup_insert_eq; lia).
           rewrite take_insert_ge, drop_insert_lt by lia.
           rewrite <- app_assoc. simpl.
           by replace (i + S (length ins)) with (S (i + length ins)) by lia.
        -- rewrite drop_insert_lt by lia. f_equal.
           by rewrite <- app_assoc.
      * destruct IH as (k & old' & inp' & e & Hk & Hold' & -> & ->).
        exists (S k), old', inp', e. repeat split; [done| |].
        -- rewrite list_lookup_insert_ne in Hold' by lia.
           by replace (i + S k) with (S i + k) by lia.
        -- rewrite drop_insert_lt by lia. f_equal.
           by rewrite <- !app_assoc.
Qed.

End Stages.

(** ** Summary of a run of convertRoute *)

(** How a run of a handler ends once the form is valid: with the failure of a
    call to a collaborator, or with the registration of the output paths. *)
Inductive Ending :=
| ConversionFailed (k : nat) (inp : string) (e : error)
| MergeFailed (e : error)
| NormalizationFailed (k : nat) (p : string) (e : error)
| MetadataFailed (k : nat) (p : string) (e : error)
| NamingFailed (k : nat) (old inp : string) (e : error)
| ResponseFailed (e : error)
| Completed.

Section PdfSummary.

Variable ctx : Context.
Variable form : Form.t.
Variable metadata : gmap string json.

(** The number of paths allocated before the run. *)
Variable a : nat.

(** The output paths after each stage that completes. *)
Definition converted : list string :=
  genPaths ctx a (length (Form.inputPaths form)) ".pdf".

Definition merging : bool :=
  bool_decide (1 < length (Form.inputPaths form)) && Form.merge form.

Definition mergedPath : string :=
  GeneratePath ctx (a + length (Form.inputPaths form)) ".pdf".

Definition merged : list string :=
  if merging then [mergedPath] else converted.

Definition allocatedAfterMerge : nat :=
  if merging then S (a + length (Form.inputPaths form))
  else a + length (Form.inputPaths form).

Definition normalizing : bool :=
  negb (Form.nativePdfFormats form)
  && bool_decide (pdfFormatsOf form ≠ zeroValued).

Definition normalized : list string :=
  if normalizing then genPaths ctx allocatedAfterMerge (length merged) ".pdf"
  else merged.

Definition allocatedAfterNormalization : nat :=
  if normalizing then allocatedAfterMerge + length merged
  else allocatedAfterMerge.

Definition stamping : bool := bool_decide (0 < size metadata).

Definition naming : bool := bool_decide (1 < length normalized).

Definition named : list string :=
  if naming then renamed ".pdf" (Form.inputPaths form) else normalized.

(** The calls of each stage that completes. *)
Definition conversionCalls : list Event :=
  pdfCalls ctx form a (Form.inputPaths form).

Definition mergeCalls : list Event :=
  if merging then [EMerge converted mergedPath None] else [].

Definition normalizationCalls : list Event :=
  if normalizing
  then convertCalls ctx (pdfFormatsOf form) allocatedAfterMerge merged
  else [].

Definition stampingCalls : list Event :=
  if stamping then metadataCalls metadata normalized else [].

Definition namingCalls : list Event :=
  if naming then renameCalls ".pdf" normalized (Form.inputPaths form)
  else [].

(** The calls before the last one: all of them succeed. *)
Definition before (ending : Ending) : list Event :=
  match ending with
  | ConversionFailed k _ _ =>
      pdfCalls ctx form a (take k (Form.inputPaths form))
  | MergeFailed _ => conversionCalls
  | NormalizationFailed k _ _ =>
      conversionCalls ++ mergeCalls
        ++ convertCalls ctx (pdfFormatsOf form) allocatedAfterMerge
             (take k merged)
  | MetadataFailed k _ _ =>
      conversionCalls ++ mergeCalls ++ normalizationCalls
        ++ metadataCalls metadata (take k normalized)
  | NamingFailed k _ _ _ =>
      conversionCalls ++ mergeCalls ++ normalizationCalls ++ stampingCalls
        ++ renameCalls ".pdf" normalized (take k (Form.inputPaths form))
  | ResponseFailed _ | Completed =>
      conversionCalls ++ mergeCalls ++ normalizationCalls ++ stampingCalls
        ++ namingCalls
  end.

(** The last call. *)
Definition final (ending : Ending) : Event :=
  match ending with
  | ConversionFailed k inp e =>
      EPdf inp (GeneratePath ctx (a + k) ".pdf") (optionsOf form) (Some e)
  | MergeFailed e => EMerge converted mergedPath (Some e)
  | NormalizationFailed k p e =>
      EConvert (pdfFormatsOf form) p
        (GeneratePath ctx (allocatedAfterMerge + k) ".pdf") (Some e)
  | MetadataFailed _ p e => EWriteMetadata metadata p (Some e)
  | NamingFailed _ old inp e => ERename old (inp +:+ ".pdf") (Some e)
  | ResponseFailed e => EAddOutputPaths named (Some e)
  | Completed => EAddOutputPaths named None
  end.

(** What the handler returns. *)
Definition result (ending : Ending) : outcome unit :=
  match ending with
  | ConversionFailed _ _ e => Fail (pdfFailure form e)
  | MergeFailed e => Fail (Errorf "merge PDFs" e)
  | NormalizationFailed _ _ e => Fail (Errorf "convert PDF" e)
  | MetadataFailed _ _ e => Fail (Errorf "write metadata" e)
  | NamingFailed _ _ _ e => Fail (Errorf "rename output path" e)
  | ResponseFailed e => Fail (Errorf "add output paths" e)
  | Completed => Return tt
  end.

(** The output paths registered on the context. *)
Definition registered (ending : Ending) : list string :=
  match ending with
  | Completed => named
  | _ => []
  end.

(** The number of paths allocated by the end of the run. *)
Definition allocations (ending : Ending) : nat :=
  match ending with
  | ConversionFailed k _ _ => a + S k
  | MergeFailed _ => S (a + length (Form.inputPaths form))
  | NormalizationFailed k _ _ => allocatedAfterMerge + S k
  | _ => allocatedAfterNormalization
  end.

(** The endings the handler can reach. *)
Definition possible (ending : Ending) : Prop :=
  match ending with
  | ConversionFailed k inp _ => Form.inputPaths form !! k = Some inp
  | MergeFailed _ => merging = true
  | NormalizationFailed k p _ => normalizing = true ∧ merged !! k = Some p
  | MetadataFailed k p _ => stamping = true ∧ normalized !! k = Some p
  | NamingFailed k old inp _ =>
      naming = true ∧ Form.inputPaths form !! k = Some inp
      ∧ normalized !! k = Some old
  | ResponseFailed _ | Completed => True
  end.

Lemma length_converted : length converted = length (Form.inputPaths form).
Proof. apply length_genPaths. Qed.

Lemma length_merged :
  length merged = if merging then 1 else length (Form.inputPaths form).
Proof. unfold merged. destruct merging; [done|apply length_converted]. Qed.

Lemma length_normalized : length normalized = length merged.
Proof.
  unfold normalized. destruct normalizing; [|done]. apply length_genPaths.
Qed.

(** Renaming happens only when nothing was merged, so that every input has
    its own output. *)
Lemma naming_lengths :
  naming = true → length normalized = length (Form.inputPaths form).
Proof.
  unfold naming. rewrite bool_decide_eq_true, length_normalized, length_merged.
  destruct merging; [lia|done].
Qed.

End PdfSummary.

Lemma length_make n : length (make n) = n.
Proof. apply length_replicate. Qed.

(** The stage wrappers, one case at a time. *)
Lemma mergeStage_run engine ctx form outs st :
  mergeStage engine ctx form outs st =
  if bool_decide (1 < length outs) && Form.merge form then
    let path := GeneratePath ctx (allocated st) ".pdf" in
    let res := Merge engine (trace st) outs path in
    (match res with
     | Some e => Fail (Errorf "merge PDFs" e)
     | None => Return [path]
     end,
     {| allocated := S (allocated st);
        trace := trace st ++ [EMerge outs path res];
        ctx_outputPaths := ctx_outputPaths st |})
  else (Return outs, st).
Proof.
  unfold mergeStage. destruct (_ && _); [|done].
  rewrite bind_run. unfold ctx_GeneratePath at 1.
  rewrite bind_run. unfold engine_Merge, call at 1.
  cbn [allocated trace ctx_outputPaths].
  by destruct (Merge engine _ _ _).
Qed.

Lemma responseStage_run ctx outs st :
  responseStage ctx outs st =
  let res := AddOutputPaths ctx (trace st) outs in
  match res with
  | Some e =>
      (Fail (Errorf "add output paths" e),
       {| allocated := allocated st;
          trace := trace st ++ [EAddOutputPaths outs (Some e)];
          ctx_outputPaths := ctx_outputPaths st |})
  | None =>
      (Return tt,
       {| allocated := allocated st;
          trace := trace st ++ [EAddOutputPaths outs None];
          ctx_outputPaths := ctx_outputPaths st ++ outs |})
  end.
Proof.
  unfold responseStage. rewrite bind_run. unfold ctx_AddOutputPaths at 1.
  by destruct (AddOutputPaths ctx _ _).
Qed.

Section PdfRun.

Variable libreOffice : Uno.
Variable engine : PdfEngine.
Variable ctx : Context.
Variable form : Form.t.
Variable metadata : gmap string json.

(** The state before the run: paths allocated, trace and registered output
    paths. *)
Variable a : nat.
Variable tr0 : list Event.
Variable reg0 : list string.

(** A run that ends as one of the summaries. *)
Definition Summarised (r : outcome unit * State) : Prop :=
  ∃ ending,
    possible ctx form metadata a ending ∧
    r = (result form ending,
         {| allocated := allocations ctx form a ending;
            trace := tr0 ++ before ctx form metadata a ending
                       ++ [final ctx form metadata a ending];
            ctx_outputPaths := reg0 ++ registered ctx form a ending |}).

Lemma response_Summarised :
  Summarised
    (responseStage ctx (named ctx form a)
       {| allocated := allocatedAfterNormalization ctx form a;
          trace := tr0 ++ conversionCalls ctx form a ++ mergeCalls ctx form a
                     ++ normalizationCalls ctx form a
                     ++ stampingCalls ctx form metadata a
                     ++ namingCalls ctx form a;
          ctx_outputPaths := reg0 |}).
Proof.
  rewrite responseStage_run. cbn [allocated trace ctx_outputPaths].
  destruct (AddOutputPaths ctx _ _) as [e|].
  - exists (ResponseFailed e). split; [done|].
    cbn [result before final registered]. f_equal. f_equal.
    + by rewrite <- !app_assoc.
    + by rewrite app_nil_r.
  - exists Completed. split; [done|].
    cbn [result before final registered]. f_equal. f_equal.
    by rewrite <- !app_assoc.
Qed.

Lemma naming_Summarised :
  Summarised
    ((outputPaths ← namingStage ctx ".pdf" (Form.inputPaths form)
                      (normalized ctx form a);
      responseStage ctx outputPaths)
       {| allocated := allocatedAfterNormalization ctx form a;
          trace := tr0 ++ conversionCalls ctx form a ++ mergeCalls ctx form a
                     ++ normalizationCalls ctx form a
                     ++ stampingCalls ctx form metadata a;
          ctx_outputPaths := reg0 |}).
Proof.
  rewrite bind_run. unfold namingStage.
  pose proof (naming_lengths ctx form a) as Hlen.
  unfold named, namingCalls in *.
  pose proof response_Summarised as Hnext.
  unfold named, namingCalls in Hnext.
  unfold naming in *.
  destruct (decide (1 < length (normalized ctx form a))) as [Hn|Hn].
  - rewrite bool_decide_eq_true_2 in Hlen, Hnext by done.
    specialize (Hlen eq_refl).
    match goal with |- context [renameLoop _ _ _ _ _ ?s] =>
      pose proof (renameLoop_run ctx ".pdf" (Form.inputPaths form) 0
                    (normalized ctx form a) s ltac:(simpl; lia)) as H5 end.
    destruct (renameLoop _ _ _ _ _ _) as [[outs5|err|] st5]; [| |done].
    + destruct H5 as [-> ->]. cbn [allocated trace ctx_outputPaths].
      rewrite take_0, drop_0. cbn [app].
      rewrite drop_ge, app_nil_r by (simpl; lia).
      by rewrite <- !app_assoc.
    + destruct H5 as (k & old & inp & e & Hk & Hold & -> & ->).
      exists (NamingFailed k old inp e). split.
      * cbn [possible]. unfold naming.
        by rewrite bool_decide_eq_true_2.
      * cbn [result before final registered allocated trace ctx_outputPaths].
        rewrite drop_0, app_nil_r. by rewrite <- !app_assoc.
  - rewrite bool_decide_eq_false_2 in Hnext by done.
    rewrite ret_run. by rewrite app_nil_r in Hnext.
Qed.

Lemma stamping_Summarised :
  Summarised
    ((_ ← metadataStage engine metadata (normalized ctx form a);
      outputPaths ← namingStage ctx ".pdf" (Form.inputPaths form)
                      (normalized ctx form a);
      responseStage ctx outputPaths)
       {| allocated := allocatedAfterNormalization ctx form a;
          trace := tr0 ++ conversionCalls ctx form a ++ mergeCalls ctx form a
                     ++ normalizationCalls ctx form a;
          ctx_outputPaths := reg0 |}).
Proof.
  rewrite bind_run. unfold metadataStage.
  pose proof naming_Summarised as Hnext.
  unfold stampingCalls, stamping in Hnext.
  destruct (decide (0 < size metadata)) as [Hm|Hm].
  - rewrite bool_decide_eq_true_2 in Hnext by done.
    match goal with |- context [metadataLoop _ _ _ ?s] =>
      pose proof (metadataLoop_run engine metadata (normalized ctx form a) s)
        as H4 end.
    destruct (metadataLoop _ _ _ _) as [[[]|err|] st4]; [| |done].
    + subst st4. cbn [allocated trace ctx_outputPaths].
      by rewrite <- !app_assoc.
    + destruct H4 as (k & p & e & Hk & -> & ->).
      exists (MetadataFailed k p e). split.
      * cbn [possible]. unfold stamping. by rewrite bool_decide_eq_true_2.
      * cbn [result before final registered allocated trace ctx_outputPaths].
        rewrite app_nil_r. by rewrite <- !app_assoc.
  - rewrite bool_decide_eq_false_2 in Hnext by done.
    rewrite ret_run. by rewrite app_nil_r in Hnext.
Qed.

Lemma normalization_Summarised :
  Summarised
    ((outputPaths ← normalizeStage engine ctx form (merged ctx form a);
      _ ← metadataStage engine metadata outputPaths;
      outputPaths ← namingStage ctx ".pdf" (Form.inputPaths form) outputPaths;
      responseStage ctx outputPaths)
       {| allocated := allocatedAfterMerge form a;
          trace := tr0 ++ conversionCalls ctx form a ++ mergeCalls ctx form a;
          ctx_outputPaths := reg0 |}).
Proof.
  rewrite bind_run. unfold normalizeStage.
  change (negb (Form.nativePdfFormats form)
          && bool_decide (pdfFormatsOf form ≠ zeroValued))
    with (normalizing form).
  pose proof stamping_Summarised as Hnext.
  unfold normalizationCalls, normalized, allocatedAfterNormalization in Hnext.
  destruct (normalizing form) eqn:Hn.
  - match goal with |- context [pdfConvertLoop _ _ ?f _ ?o ?c ?s] =>
      pose proof (pdfConvertLoop_run engine ctx f o 0 c s
                    ltac:(by rewrite length_make)) as H3 end.
    destruct (pdfConvertLoop _ _ _ _ _ _ _) as [[outs3|err|] st3]; [| |done].
    + destruct H3 as [-> ->]. cbn [allocated trace ctx_outputPaths].
      rewrite take_0. cbn [app]. by rewrite <- !app_assoc.
    + destruct H3 as (k & p & e & Hk & -> & ->).
      exists (NormalizationFailed k p e). split; [done|].
      cbn [result before final registered allocated trace ctx_outputPaths].
      rewrite app_nil_r. by rewrite <- !app_assoc.
  - rewrite ret_run. by rewrite app_nil_r in Hnext.
Qed.

Lemma merge_Summarised :
  Summarised
    ((outputPaths ← mergeStage engine ctx form (converted ctx form a);
      outputPaths ← normalizeStage engine ctx form outputPaths;
      _ ← metadataStage engine metadata outputPaths;
      outputPaths ← namingStage ctx ".pdf" (Form.inputPaths form) outputPaths;
      responseStage ctx outputPaths)
       {| allocated := a + length (Form.inputPaths form);
          trace := tr0 ++ conversionCalls ctx form a;
          ctx_outputPaths := reg0 |}).
Proof.
  rewrite bind_run, mergeStage_run, length_converted.
  change (bool_decide (1 < length (Form.inputPaths form)) && Form.merge form)
    with (merging form).
  pose proof normalization_Summarised as Hnext.
  unfold mergeCalls, merged, allocatedAfterMerge, mergedPath in Hnext.
  cbn [allocated trace ctx_outputPaths].
  destruct (merging form) eqn:Hm.
  - cbv zeta. destruct (Merge engine _ _ _) as [e|].
    + exists (MergeFailed e). split; [done|].
      cbn [result before final registered]. rewrite app_nil_r.
      by rewrite <- !app_assoc.
    + by rewrite <- !app_assoc.
  - by rewrite app_nil_r in Hnext.
Qed.

Lemma conversion_Summarised :
  Summarised
    ((outputPaths ← convertLoop libreOffice ctx form 0 (Form.inputPaths form)
                      (make (length (Form.inputPaths form)));
      outputPaths ← mergeStage engine ctx form outputPaths;
      outputPaths ← normalizeStage engine ctx form outputPaths;
      _ ← metadataStage engine metadata outputPaths;
      outputPaths ← namingStage ctx ".pdf" (Form.inputPaths form) outputPaths;
      responseStage ctx outputPaths)
       {| allocated := a; trace := tr0; ctx_outputPaths := reg0 |}).
Proof.
  rewrite bind_run.
  match goal with |- context [convertLoop _ _ _ _ ?i ?o ?s] =>
    pose proof (convertLoop_run libreOffice ctx form i 0 o s
                  ltac:(by rewrite length_make)) as H1 end.
  destruct (convertLoop _ _ _ _ _ _ _) as [[outs1|err|] st1]; [| |done].
  - destruct H1 as [-> ->]. cbn [allocated trace ctx_outputPaths].
    rewrite take_0. cbn [app]. apply merge_Summarised.
  - destruct H1 as (k & inp & e & Hk & -> & ->).
    exists (ConversionFailed k inp e). split; [done|].
    cbn [result before final registered allocated trace ctx_outputPaths].
    by rewrite app_nil_r.
Qed.

End PdfRun.

(** Every run of convertRoute on a valid form is one of the summaries. *)
Lemma convertRoute_run libreOffice engine ctx json_Unmarshal form metadata st :
  Validate ctx json_Unmarshal form = (None, metadata) →
  Summarised ctx form metadata (allocated st) (trace st) (ctx_outputPaths st)
    (convertRoute libreOffice engine ctx json_Unmarshal form st).
Proof.
  intros Hvalid. unfold convertRoute. rewrite Hvalid.
  destruct st as [a tr0 reg0]. apply conversion_Summarised.
Qed.

(** ** Summary of a run of convertRouteDocx *)

Section DocxSummary.

Variable ctx : Context.
Variable form : Form.t.
Variable a : nat.

Definition docxConverted : list string :=
  genPaths ctx a (length (Form.inputPaths form)) ".docx".

Definition docxNaming : bool := bool_decide (1 < length docxConverted).

Definition docxNamed : list string :=
  if docxNaming then renamed ".docx" (Form.inputPaths form)
  else docxConverted.

Definition docxNamingCalls : list Event :=
  if docxNaming
  then renameCalls ".docx" docxConverted (Form.inputPaths form)
  else [].

Definition docxBefore (ending : Ending) : list Event :=
  match ending with
  | ConversionFailed k _ _ => docxCalls ctx a (take k (Form.inputPaths form))
  | NamingFailed k _ _ _ =>
      docxCalls ctx a (Form.inputPaths form)
        ++ renameCalls ".docx" docxConverted (take k (Form.inputPaths form))
  | _ => docxCalls ctx a (Form.inputPaths form) ++ docxNamingCalls
  end.

Definition docxFinal (ending : Ending) : Event :=
  match ending with
  | ConversionFailed k inp e =>
      EDocx inp (GeneratePath ctx (a + k) ".docx") (Some e)
  | NamingFailed _ old inp e => ERename old (inp +:+ ".docx") (Some e)
  | ResponseFailed e => EAddOutputPaths docxNamed (Some e)
  | _ => EAddOutputPaths docxNamed None
  end.

Definition docxResult (ending : Ending) : outcome unit :=
  match ending with
  | ConversionFailed _ _ e =>
      Fail (WrapError (Errorf "convert to DOCX" e)
              StatusInternalServerError "Error")
  | NamingFailed _ _ _ e => Fail (Errorf "rename output path" e)
  | ResponseFailed e => Fail (Errorf "add output paths" e)
  | _ => Return tt
  end.

Definition docxRegistered (ending : Ending) : list string :=
  match ending with
  | Completed => docxNamed
  | _ => []
  end.

Definition docxPossible (ending : Ending) : Prop :=
  match ending with
  | ConversionFailed k inp _ => Form.inputPaths form !! k = Some inp
  | NamingFailed k old inp _ =>
      docxNaming = true ∧ Form.inputPaths form !! k = Some inp
      ∧ docxConverted !! k = Some old
  | ResponseFailed _ | Completed => True
  | _ => False
  end.

Lemma length_docxConverted :
  length docxConverted = length (Form.inputPaths form).
Proof. apply length_genPaths. Qed.

End DocxSummary.

(** Every run of convertRouteDocx on a valid form is one of the summaries. *)
Lemma convertRouteDocx_run libreOffice ctx form st :
  Form.errors form = None →
  ∃ ending al,
    docxPossible ctx form (allocated st) ending ∧
    convertRouteDocx libreOffice ctx form st =
      (docxResult ending,
       {| allocated := al;
          trace := trace st ++ docxBefore ctx form (allocated st) ending
                     ++ [docxFinal ctx form (allocated st) ending];
          ctx_outputPaths :=
            ctx_outputPaths st
              ++ docxRegistered ctx form (allocated st) ending |}).
Proof.
  intros Hvalid. unfold convertRouteDocx. rewrite Hvalid. cbn [fmap option_fmap option_map].
  destruct st as [a tr0 reg0]. cbn [allocated trace ctx_outputPaths].
  rewrite bind_run.
  match goal with |- context [docxLoop _ _ ?i ?ins ?o ?s] =>
    pose proof (docxLoop_run libreOffice ctx ins i o s
                  ltac:(by rewrite length_make)) as H1 end.
  destruct (docxLoop _ _ _ _ _ _) as [[outs1|err|] st1]; [| |done].
  2:{ destruct H1 as (k & inp & e & Hk & -> & ->).
      exists (ConversionFailed k inp e), (a + S k). split; [done|].
      cbn [docxResult docxBefore docxFinal docxRegistered allocated trace
           ctx_outputPaths].
      by rewrite app_nil_r. }
  destruct H1 as [-> ->]. cbn [allocated trace ctx_outputPaths].
  rewrite take_0. cbn [app].
  change (genPaths ctx a (length (Form.inputPaths form)) ".docx")
    with (docxConverted ctx form a).
  rewrite bind_run. unfold namingStage.
  pose proof (length_docxConverted ctx form a) as Hlen.
  destruct (decide (1 < length (docxConverted ctx form a))) as [Hn|Hn].
  - match goal with |- context [renameLoop _ _ _ _ _ ?s] =>
      pose proof (renameLoop_run ctx ".docx" (Form.inputPaths form) 0
                    (docxConverted ctx form a) s ltac:(simpl; lia)) as H5 end.
    destruct (renameLoop _ _ _ _ _ _) as [[outs5|err|] st5]; [| |done].
    + destruct H5 as [-> ->]. cbn [allocated trace ctx_outputPaths].
      rewrite take_0, drop_0. cbn [app].
      rewrite drop_ge, app_nil_r by (simpl; lia).
      rewrite responseStage_run. cbn [allocated trace ctx_outputPaths].
      destruct (AddOutputPaths ctx _ _) as [e|].
      * exists (ResponseFailed e), (a + length (Form.inputPaths form)).
        split; [done|].
        cbn [docxResult docxBefore docxFinal docxRegistered].
        unfold docxNamingCalls, docxNamed, docxNaming.
        rewrite bool_decide_eq_true_2 by done.
        rewrite app_nil_r. by rewrite <- !app_assoc.
      * exists Completed, (a + length (Form.inputPaths form)).
        split; [done|].
        cbn [docxResult docxBefore docxFinal docxRegistered].
        unfold docxNamingCalls, docxNamed, docxNaming.
        rewrite bool_decide_eq_true_2 by done.
        by rewrite <- !app_assoc.
    + destruct H5 as (k & old & inp & e & Hk & Hold & -> & ->).
      exists (NamingFailed k old inp e), (a + length (Form.inputPaths form)).
      split.
      * cbn [docxPossible]. unfold docxNaming.
        by rewrite bool_decide_eq_true_2.
      * cbn [docxResult docxBefore docxFinal docxRegistered allocated trace
             ctx_outputPaths].
        rewrite drop_0, app_nil_r. by rewrite <- !app_assoc.
  - rewrite ret_run, responseStage_run. cbn [allocated trace ctx_outputPaths].
    destruct (AddOutputPaths ctx _ _) as [e|].
    + exists (ResponseFailed e), (a + length (Form.inputPaths form)).
      split; [done|].
      cbn [docxResult docxBefore docxFinal docxRegistered].
      unfold docxNamingCalls, docxNamed, docxNaming.
      rewrite bool_decide_eq_false_2 by done.
      rewrite !app_nil_r. by rewrite <- !app_assoc.
    + exists Completed, (a + length (Form.inputPaths form)).
      split; [done|].
      cbn [docxResult docxBefore docxFinal docxRegistered].
      unfold docxNamingCalls, docxNamed, docxNaming.
      rewrite bool_decide_eq_false_2 by done.
      rewrite !app_nil_r. by rewrite <- !app_assoc.
Qed.

(** ** Reading a trace *)

(** The calls of one stage, in order. *)
Definition calls_of (s : Stage) (tr : list Event) : list Event :=
  filter (λ ev, stage_of ev = s) tr.

(** Pipeline order on calls. *)
Definition stage_le (x y : Event) : Prop :=
  stage_rank (stage_of x) ≤ stage_rank (stage_of y).

Lemma Forall_imap_intro {A B} (P : B → Prop) (f : nat → A → B) (l : list A) :
  (∀ i x, P (f i x)) → Forall P (imap f l).
Proof.
  intros HP. apply Forall_lookup. intros i y.
  rewrite list_lookup_imap. destruct (l !! i); naive_solver.
Qed.

Lemma Forall_zip_with_intro {A B C} (P : C → Prop) (f : A → B → C)
    (l : list A) (k : list B) :
  (∀ x y, P (f x y)) → Forall P (zip_with f l k).
Proof.
  intros HP. apply Forall_lookup. intros i z.
  rewrite lookup_zip_with. destruct (l !! i); simpl; [|done].
  destruct (k !! i); naive_solver.
Qed.

Lemma calls_of_same s (l : list Event) :
  Forall (λ ev, stage_of ev = s) l → calls_of s l = l.
Proof.
  unfold calls_of. induction 1 as [|x l Hx _ IH]; [done|].
  by rewrite filter_cons_True, IH.
Qed.

Lemma calls_of_other s s' (l : list Event) :
  Forall (λ ev, stage_of ev = s) l → s ≠ s' → calls_of s' l = [].
Proof.
  unfold calls_of. intros Hl Hs. induction Hl as [|x l Hx _ IH]; [done|].
  rewrite filter_cons_False; [done|congruence].
Qed.

Lemma same_stage_sorted s (l : list Event) :
  Forall (λ ev, stage_of ev = s) l → StronglySorted stage_le l.
Proof.
  induction 1 as [|x l Hx Hl IH]; constructor; [done|].
  eapply Forall_impl; [exact Hl|]. intros y Hy. unfold stage_le.
  by rewrite Hx, Hy.
Qed.

Lemma sorted_lookup (l : list Event) i j x y :
  StronglySorted stage_le l → i < j → l !! i = Some x → l !! j = Some y →
  stage_le x y.
Proof.
  intros Hl Hij Hi Hj. rewrite <- (take_drop j l) in Hl.
  eapply StronglySorted_app_1_elem_of; [exact Hl| |].
  - eapply list_elem_of_lookup_2. by rewrite lookup_take_lt.
  - eapply list_elem_of_lookup_2. rewrite lookup_drop, Nat.add_0_r. exact Hj.
Qed.

(** In a list of successful calls followed by one more call, a failed call
    is the last one. *)
Lemma failed_is_last (oks : list Event) (last ev : Event) i :
  Forall (λ ev, answer ev = None) oks →
  (oks ++ [last]) !! i = Some ev → answer ev ≠ None →
  i = length oks ∧ ev = last.
Proof.
  intros Hoks Hi Hev. apply lookup_app_Some in Hi as [Hi|[Hlen Hi]].
  - rewrite Forall_lookup in Hoks. by specialize (Hoks i ev Hi).
  - apply list_lookup_singleton_Some in Hi as [Hi <-]. split; [lia|done].
Qed.

Section Calls.

Variable ctx : Context.

Lemma pdfCalls_stage form a ins :
  Forall (λ ev, stage_of ev = StageConversion) (pdfCalls ctx form a ins).
Proof. by apply Forall_imap_intro. Qed.

Lemma pdfCalls_ok form a ins :
  Forall (λ ev, answer ev = None) (pdfCalls ctx form a ins).
Proof. by apply Forall_imap_intro. Qed.

Lemma docxCalls_stage a ins :
  Forall (λ ev, stage_of ev = StageConversion) (docxCalls ctx a ins).
Proof. by apply Forall_imap_intro. Qed.

Lemma docxCalls_ok a ins :
  Forall (λ ev, answer ev = None) (docxCalls ctx a ins).
Proof. by apply Forall_imap_intro. Qed.

Lemma convertCalls_stage formats a outs :
  Forall (λ ev, stage_of ev = StageNormalization)
    (convertCalls ctx formats a outs).
Proof. by apply Forall_imap_intro. Qed.

Lemma convertCalls_ok formats a outs :
  Forall (λ ev, answer ev = None) (convertCalls ctx formats a outs).
Proof. by apply Forall_imap_intro. Qed.

Lemma metadataCalls_stage metadata outs :
  Forall (λ ev, stage_of ev = StageMetadata) (metadataCalls metadata outs).
Proof. unfold metadataCalls. rewrite Forall_fmap. by apply Forall_true. Qed.

Lemma metadataCalls_ok metadata outs :
  Forall (λ ev, answer ev = None) (metadataCalls metadata outs).
Proof. unfold metadataCalls. rewrite Forall_fmap. by apply Forall_true. Qed.

Lemma renameCalls_stage suffix olds ins :
  Forall (λ ev, stage_of ev = StageNaming) (renameCalls suffix olds ins).
Proof. by apply Forall_zip_with_intro. Qed.

Lemma renameCalls_ok suffix olds ins :
  Forall (λ ev, answer ev = None) (renameCalls suffix olds ins).
Proof. by apply Forall_zip_with_intro. Qed.

Lemma length_pdfCalls form a ins : length (pdfCalls ctx form a ins) = length ins.
Proof. apply length_imap. Qed.

Lemma length_docxCalls a ins : length (docxCalls ctx a ins) = length ins.
Proof. apply length_imap. Qed.

Lemma length_convertCalls formats a outs :
  length (convertCalls ctx formats a outs) = length outs.
Proof. apply length_imap. Qed.

Lemma length_metadataCalls metadata outs :
  length (metadataCalls metadata outs) = length outs.
Proof. apply length_fmap. Qed.

End Calls.

(** ** The trace of convertRoute, stage by stage *)

Section PdfSegments.

Variable ctx : Context.
Variable form : Form.t.
Variable metadata : gmap string json.
Variable a : nat.

(** The calls of stage [s] in a run with the given ending. *)
Definition segment (s : Stage) (ending : Ending) : list Event :=
  match s with
  | StageConversion =>
      match ending with
      | ConversionFailed k _ _ =>
          pdfCalls ctx form a (take k (Form.inputPaths form))
            ++ [final ctx form metadata a ending]
      | _ => conversionCalls ctx form a
      end
  | StageMerge =>
      match ending with
      | ConversionFailed _ _ _ => []
      | MergeFailed _ => [final ctx form metadata a ending]
      | _ => mergeCalls ctx form a
      end
  | StageNormalization =>
      match ending with
      | ConversionFailed _ _ _ | MergeFailed _ => []
      | NormalizationFailed k _ _ =>
          convertCalls ctx (pdfFormatsOf form) (allocatedAfterMerge form a)
            (take k (merged ctx form a))
            ++ [final ctx form metadata a ending]
      | _ => normalizationCalls ctx form a
      end
  | StageMetadata =>
      match ending with
      | ConversionFailed _ _ _ | MergeFailed _
      | NormalizationFailed _ _ _ => []
      | MetadataFailed k _ _ =>
          metadataCalls metadata (take k (normalized ctx form a))
            ++ [final ctx form metadata a ending]
      | _ => stampingCalls ctx form metadata a
      end
  | StageNaming =>
      match ending with
      | NamingFailed k _ _ _ =>
          renameCalls ".pdf" (normalized ctx form a)
            (take k (Form.inputPaths form))
            ++ [final ctx form metadata a ending]
      | ResponseFailed _ | Completed => namingCalls ctx form a
      | _ => []
      end
  | StageResponse =>
      match ending with
      | ResponseFailed _ | Completed => [final ctx form metadata a ending]
      | _ => []
      end
  end.

Lemma conversionCalls_stage :
  Forall (λ ev, stage_of ev = StageConversion) (conversionCalls ctx form a).
Proof. apply pdfCalls_stage. Qed.

Lemma mergeCalls_stage :
  Forall (λ ev, stage_of ev = StageMerge) (mergeCalls ctx form a).
Proof. unfold mergeCalls. destruct merging; by repeat constructor. Qed.

Lemma normalizationCalls_stage :
  Forall (λ ev, stage_of ev = StageNormalization)
    (normalizationCalls ctx form a).
Proof.
  unfold normalizationCalls.
  destruct normalizing; [apply convertCalls_stage|constructor].
Qed.

Lemma stampingCalls_stage :
  Forall (λ ev, stage_of ev = StageMetadata)
    (stampingCalls ctx form metadata a).
Proof.
  unfold stampingCalls.
  destruct stamping; [apply metadataCalls_stage|constructor].
Qed.

Lemma namingCalls_stage :
  Forall (λ ev, stage_of ev = StageNaming) (namingCalls ctx form a).
Proof.
  unfold namingCalls. destruct naming; [apply renameCalls_stage|constructor].
Qed.

Lemma conversionCalls_ok :
  Forall (λ ev, answer ev = None) (conversionCalls ctx form a).
Proof. apply pdfCalls_ok. Qed.

Lemma mergeCalls_ok :
  Forall (λ ev, answer ev = None) (mergeCalls ctx form a).
Proof. unfold mergeCalls. destruct merging; by repeat constructor. Qed.

Lemma normalizationCalls_ok :
  Forall (λ ev, answer ev = None) (normalizationCalls ctx form a).
Proof.
  unfold normalizationCalls.
  destruct normalizing; [apply convertCalls_ok|constructor].
Qed.

Lemma stampingCalls_ok :
  Forall (λ ev, answer ev = None) (stampingCalls ctx form metadata a).
Proof.
  unfold stampingCalls. destruct stamping; [apply metadataCalls_ok|constructor].
Qed.

Lemma namingCalls_ok :
  Forall (λ ev, answer ev = None) (namingCalls ctx form a).
Proof.
  unfold namingCalls. destruct naming; [apply renameCalls_ok|constructor].
Qed.

Lemma segment_stage s ending :
  Forall (λ ev, stage_of ev = s) (segment s ending).
Proof.
  destruct s, ending; cbn [segment final];
    rewrite ?Forall_app, ?Forall_singleton;
    repeat split;
    first [ done | constructor | apply pdfCalls_stage
          | apply conversionCalls_stage | apply mergeCalls_stage
          | apply convertCalls_stage | apply normalizationCalls_stage
          | apply metadataCalls_stage | apply stampingCalls_stage
          | apply renameCalls_stage | apply namingCalls_stage ].
Qed.

(** The trace of a run is the concatenation of its stages, in pipeline
    order. *)
Lemma trace_segments ending :
  before ctx form metadata a ending ++ [final ctx form metadata a ending] =
  segment StageConversion ending ++ segment StageMerge ending
    ++ segment StageNormalization ending ++ segment StageMetadata ending
    ++ segment StageNaming ending ++ segment StageResponse ending.
Proof.
  destruct ending; cbn [before segment];
    rewrite ?app_nil_r, <- ?app_assoc; reflexivity.
Qed.

Lemma before_ok ending :
  Forall (λ ev, answer ev = None) (before ctx form metadata a ending).
Proof.
  destruct ending; cbn [before]; rewrite ?Forall_app; repeat split;
    first [ apply pdfCalls_ok | apply conversionCalls_ok
          | apply mergeCalls_ok | apply convertCalls_ok
          | apply normalizationCalls_ok | apply metadataCalls_ok
          | apply stampingCalls_ok | apply renameCalls_ok
          | apply namingCalls_ok ].
Qed.

Lemma calls_of_trace s ending :
  calls_of s
    (before ctx form metadata a ending ++ [final ctx form metadata a ending])
  = segment s ending.
Proof.
  rewrite trace_segments. unfold calls_of. rewrite !filter_app.
  fold (calls_of s (segment StageConversion ending)).
  fold (calls_of s (segment StageMerge ending)).
  fold (calls_of s (segment StageNormalization ending)).
  fold (calls_of s (segment StageMetadata ending)).
  fold (calls_of s (segment StageNaming ending)).
  fold (calls_of s (segment StageResponse ending)).
  destruct s;
    repeat first
      [ rewrite (calls_of_same _ _ (segment_stage _ ending))
      | rewrite (calls_of_other _ _ _ (segment_stage _ ending)) by done ];
    by rewrite ?app_nil_r.
Qed.

Lemma trace_sorted ending :
  StronglySorted stage_le
    (before ctx form metadata a ending ++ [final ctx form metadata a ending]).
Proof.
  rewrite trace_segments.
  repeat (apply StronglySorted_app_2;
          [|eapply same_stage_sorted, segment_stage|]).
  6: eapply same_stage_sorted, segment_stage.
  all: intros x y Hx Hy; unfold stage_le;
    rewrite ?elem_of_app in Hy;
    pose proof (segment_stage StageConversion ending) as H1;
    pose proof (segment_stage StageMerge ending) as H2;
    pose proof (segment_stage StageNormalization ending) as H3;
    pose proof (segment_stage StageMetadata ending) as H4;
    pose proof (segment_stage StageNaming ending) as H5;
    pose proof (segment_stage StageResponse ending) as H6;
    rewrite Forall_forall in H1, H2, H3, H4, H5, H6;
    repeat match goal with
           | H : _ ∨ _ |- _ => destruct H
           | H : ∀ x, x ∈ ?l → _, Hx : ?x ∈ ?l |- _ =>
               rewrite (H x Hx); clear Hx
           end; simpl; lia.
Qed.

(** The stage of a failed call consists of successful calls followed by
    this call. *)
Lemma segment_of_failure ending :
  answer (final ctx form metadata a ending) ≠ None →
  ∃ oks,
    segment (stage_of (final ctx form metadata a ending)) ending
      = oks ++ [final ctx form metadata a ending] ∧
    Forall (λ ev, answer ev = None) oks.
Proof.
  intros Hfail. destruct ending; cbn [final stage_of segment] in *.
  - eexists. split; [done|apply pdfCalls_ok].
  - by exists [].
  - eexists. split; [done|apply convertCalls_ok].
  - eexists. split; [done|apply metadataCalls_ok].
  - eexists. split; [done|apply renameCalls_ok].
  - by exists [].
  - done.
Qed.

End PdfSegments.

(** The file a call works on, for the calls made once per file. *)
Definition subject (ev : Event) : option string :=
  match ev with
  | EPdf inputPath _ _ _ | EDocx inputPath _ _
  | EConvert _ inputPath _ _ => Some inputPath
  | EWriteMetadata _ path _ => Some path
  | ERename oldpath _ _ => Some oldpath
  | EMerge _ _ _ | EAddOutputPaths _ _ => None
  end.

(** The file a call writes, for the calls that produce one. *)
Definition product (ev : Event) : option string :=
  match ev with
  | EPdf _ outputPath _ _ | EDocx _ outputPath _ | EMerge _ outputPath _
  | EConvert _ _ outputPath _ => Some outputPath
  | ERename _ newpath _ => Some newpath
  | EWriteMetadata _ _ _ | EAddOutputPaths _ _ => None
  end.

Lemma fmap_imap_const {A B C} (g : B → C) (f : nat → A → B) (h : A → C)
    (l : list A) :
  (∀ i x, g (f i x) = h x) → g <$> imap f l = h <$> l.
Proof.
  intros Hgf. apply list_eq. intros i.
  rewrite !list_lookup_fmap, list_lookup_imap.
  destruct (l !! i); simpl; [|done]. by rewrite Hgf.
Qed.

Lemma subject_pdfCalls ctx form a ins :
  subject <$> pdfCalls ctx form a ins = Some <$> ins.
Proof. by apply fmap_imap_const. Qed.

Lemma subject_docxCalls ctx a ins :
  subject <$> docxCalls ctx a ins = Some <$> ins.
Proof. by apply fmap_imap_const. Qed.

Lemma subject_convertCalls ctx formats a outs :
  subject <$> convertCalls ctx formats a outs = Some <$> outs.
Proof. by apply fmap_imap_const. Qed.

Lemma subject_metadataCalls metadata outs :
  subject <$> metadataCalls metadata outs = Some <$> outs.
Proof. unfold metadataCalls. by rewrite <- list_fmap_compose. Qed.

Lemma product_pdfCalls ctx form a ins :
  product <$> pdfCalls ctx form a ins =
  Some <$> genPaths ctx a (length ins) ".pdf".
Proof.
  unfold pdfCalls, genPaths. apply list_eq. intros i.
  rewrite !list_lookup_fmap, list_lookup_imap.
  destruct (ins !! i) as [inp|] eqn:Hi; simpl.
  - apply lookup_lt_Some in Hi. by rewrite lookup_seq_lt.
  - apply lookup_ge_None in Hi. by rewrite lookup_seq_ge.
Qed.

(** ** The pipelines on a fresh request *)

Section Pipelines.

Variable libreOffice : Uno.
Variable engine : PdfEngine.
Variable ctx : Context.
Variable json_Unmarshal : string → error + gmap string json.

(** A request starts with a fresh context: nothing allocated, nothing
    called, nothing registered. *)
Definition RunPdfPipeline (form : Form.t) : outcome unit * State :=
  convertRoute libreOffice engine ctx json_Unmarshal form initial.

Definition RunDocxPipeline (form : Form.t) : outcome unit * State :=
  convertRouteDocx libreOffice ctx form initial.

(** What the handler returns, the calls it made and the output paths it
    handed to the response. *)
Definition pdfOutcome (form : Form.t) : outcome unit :=
  (RunPdfPipeline form).1.
Definition pdfTrace (form : Form.t) : list Event :=
  trace (RunPdfPipeline form).2.
Definition pdfOutputs (form : Form.t) : list string :=
  ctx_outputPaths (RunPdfPipeline form).2.
Definition pdfAllocated (form : Form.t) : nat :=
  allocated (RunPdfPipeline form).2.

Definition docxOutcome (form : Form.t) : outcome unit :=
  (RunDocxPipeline form).1.
Definition docxTrace (form : Form.t) : list Event :=
  trace (RunDocxPipeline form).2.
Definition docxOutputs (form : Form.t) : list string :=
  ctx_outputPaths (RunDocxPipeline form).2.

(** The variable [metadata] after validation. *)
Definition metadataOf (form : Form.t) : gmap string json :=
  (Validate ctx json_Unmarshal form).2.

Lemma RunPdfPipeline_cases form :
  match (Validate ctx json_Unmarshal form).1 with
  | Some err =>
      RunPdfPipeline form = (Fail (Errorf "validate form data" err), initial)
  | None =>
      ∃ ending,
        possible ctx form (metadataOf form) 0 ending ∧
        pdfOutcome form = result form ending ∧
        pdfTrace form =
          before ctx form (metadataOf form) 0 ending
            ++ [final ctx form (metadataOf form) 0 ending] ∧
        pdfOutputs form = registered ctx form 0 ending ∧
        pdfAllocated form = allocations ctx form 0 ending
  end.
Proof.
  unfold pdfOutcome, pdfTrace, pdfOutputs, pdfAllocated, metadataOf,
    RunPdfPipeline.
  destruct (Validate ctx json_Unmarshal form) as [[err|] metadata] eqn:Hv;
    cbn [fst snd].
  - unfold convertRoute. by rewrite Hv.
  - destruct (convertRoute_run libreOffice engine ctx json_Unmarshal form
                metadata initial Hv) as (ending & Hp & ->).
    by exists ending.
Qed.

Lemma RunDocxPipeline_cases form :
  match Form.errors form with
  | Some err =>
      RunDocxPipeline form =
        (Fail (Errorf "validate form data" (formValidate ctx err)), initial)
  | None =>
      ∃ ending,
        docxPossible ctx form 0 ending ∧
        docxOutcome form = docxResult ending ∧
        docxTrace form =
          docxBefore ctx form 0 ending ++ [docxFinal ctx form 0 ending] ∧
        docxOutputs form = docxRegistered ctx form 0 ending
  end.
Proof.
  unfold docxOutcome, docxTrace, docxOutputs, RunDocxPipeline.
  destruct (Form.errors form) as [err|] eqn:Hv.
  - unfold convertRouteDocx. by rewrite Hv.
  - destruct (convertRouteDocx_run libreOffice ctx form initial Hv)
      as (ending & al & Hp & ->).
    by exists ending.
Qed.

(** A call that failed is the last call of the run, and the run ended the
    way this call failed. *)
Lemma pdf_failed_call form i ev :
  pdfTrace form !! i = Some ev → answer ev ≠ None →
  ∃ ending,
    possible ctx form (metadataOf form) 0 ending ∧
    pdfOutcome form = result form ending ∧
    pdfTrace form =
      before ctx form (metadataOf form) 0 ending ++ [ev] ∧
    pdfOutputs form = registered ctx form 0 ending ∧
    ev = final ctx form (metadataOf form) 0 ending ∧
    i = length (before ctx form (metadataOf form) 0 ending).
Proof.
  intros Hi Hev. pose proof (RunPdfPipeline_cases form) as Hrun.
  destruct (Validate ctx json_Unmarshal form).1 as [err|].
  - unfold pdfTrace in Hi. by rewrite Hrun in Hi.
  - destruct Hrun as (ending & Hp & Ho & Ht & Hr & _). exists ending.
    rewrite Ht in Hi.
    apply failed_is_last in Hi as [-> ->]; [done|apply before_ok|done].
Qed.

Lemma docx_before_ok form ending :
  Forall (λ ev, answer ev = None) (docxBefore ctx form 0 ending).
Proof.
  destruct ending; cbn [docxBefore]; unfold docxNamingCalls;
    try destruct (docxNaming ctx form 0);
    rewrite ?Forall_app; repeat split;
    first [ apply docxCalls_ok | apply renameCalls_ok | constructor ].
Qed.

Lemma docx_failed_call form i ev :
  docxTrace form !! i = Some ev → answer ev ≠ None →
  ∃ ending,
    docxPossible ctx form 0 ending ∧
    docxOutcome form = docxResult ending ∧
    docxTrace form = docxBefore ctx form 0 ending ++ [ev] ∧
    docxOutputs form = docxRegistered ctx form 0 ending ∧
    ev = docxFinal ctx form 0 ending.
Proof.
  intros Hi Hev. pose proof (RunDocxPipeline_cases form) as Hrun.
  destruct (Form.errors form) as [err|].
  - unfold docxTrace in Hi. by rewrite Hrun in Hi.
  - destruct Hrun as (ending & Hp & Ho & Ht & Hr). exists ending.
    rewrite Ht in Hi.
    apply failed_is_last in Hi as [-> ->]; [done|apply docx_before_ok|done].
Qed.

(** The index expressions of the handlers are always in range: the rename
    loops read [outputPaths[i]] for every input, and run only when nothing was
    merged. *)
Lemma handlers_never_panic form :
  pdfOutcome form ≠ Panic ∧ docxOutcome form ≠ Panic.
Proof.
  split.
  - pose proof (RunPdfPipeline_cases form) as Hrun.
    destruct (Validate ctx json_Unmarshal form).1 as [err|].
    + unfold pdfOutcome. by rewrite Hrun.
    + destruct Hrun as (ending & _ & -> & _). by destruct ending.
  - pose proof (RunDocxPipeline_cases form) as Hrun.
    destruct (Form.errors form) as [err|].
    + unfold docxOutcome. by rewrite Hrun.
    + destruct Hrun as (ending & _ & -> & _). by destruct ending.
Qed.

(** C10: when the "metadata" field is present, non-empty and not decodable
    as JSON, the PDF handler returns a form-validation error before any
    stage runs: no call is made to a collaborator and no output path is
    registered. *)
Theorem invalid_metadata_is_rejected form e :
  Form.metadata form ≠ "" →
  json_Unmarshal (Form.metadata form) = inl e →
  pdfOutcome form =
    Fail (Errorf "validate form data"
            (formValidate ctx
               (formAppend ctx (Form.errors form)
                  (Errorf "unmarshal metadata" e)))) ∧
  pdfTrace form = [] ∧
  pdfOutputs form = [].
Proof.
  intros Hne Hjson.
  pose proof (RunPdfPipeline_cases form) as Hrun.
  unfold Validate, metadataCallback in Hrun.
  destruct (Form.metadata form) as [|c value] eqn:Hm; [done|].
  rewrite decide_True in Hrun by (simpl; lia).
  rewrite Hjson in Hrun. cbn [fst fmap option_fmap option_map] in Hrun.
  unfold pdfOutcome, pdfTrace, pdfOutputs. by rewrite Hrun.
Qed.


(** The files a stage works on, one call per file. *)
Definition stageFiles (form : Form.t) (s : Stage) : list string :=
  match s with
  | StageConversion => Form.inputPaths form
  | StageNormalization => merged ctx form 0
  | StageMetadata => normalized ctx form 0
  | _ => []
  end.

(** The stages that call a collaborator once per file and whose failure the
    handler reports as the failure of the stage. *)
Definition perFile (s : Stage) : bool :=
  match s with
  | StageConversion | StageNormalization | StageMetadata => true
  | _ => false
  end.

(** C6: when a call of a per-file stage (conversion, normalization,
    metadata) fails on the file of index [k], this stage makes no call on
    a later file: its calls are exactly those on the files of index 0 to [k],
    in order (so a failure on the second of three inputs leaves the third
    unconverted).  The failed call is the last call of the whole run, the
    handler returns an error and no output path is handed to the
    response. *)
Theorem per_file_stage_failure_aborts form s k ev :
  calls_of s (pdfTrace form) !! k = Some ev → answer ev ≠ None →
  length (calls_of s (pdfTrace form)) = S k ∧
  (∃ pre, pdfTrace form = pre ++ [ev] ∧ Forall (λ c, answer c = None) pre) ∧
  (∃ err, pdfOutcome form = Fail err) ∧
  pdfOutputs form = [] ∧
  (perFile s = true →
   subject <$> calls_of s (pdfTrace form)
     = Some <$> take (S k) (stageFiles form s)).
Proof.
  intros Hk Hfail.
  assert (ev ∈ pdfTrace form) as Hin.
  { apply list_elem_of_lookup_2 in Hk. unfold calls_of in Hk.
    by apply list_elem_of_filter in Hk as [_ ?]. }
  apply list_elem_of_lookup in Hin as [i Hi].
  destruct (pdf_failed_call form i ev Hi Hfail)
    as (ending & Hp & Ho & Ht & Hr & Hev & _).
  assert (calls_of s (pdfTrace form) = segment ctx form (metadataOf form) 0 s ending) as Hcalls.
  { rewrite Ht, Hev. apply calls_of_trace. }
  rewrite Hcalls in *.
  assert (stage_of ev = s) as Hs.
  { pose proof (segment_stage ctx form (metadataOf form) 0 s ending) as Hst.
    rewrite Forall_lookup in Hst. exact (Hst k ev Hk). }
  rewrite Hev in Hfail.
  destruct (segment_of_failure ctx form (metadataOf form) 0 ending Hfail)
    as (oks & Hseg & Hoks).
  rewrite <- Hev, Hs in Hseg. rewrite Hseg in Hk |- *.
  rewrite <- Hev in Hfail.
  destruct (failed_is_last oks ev ev k Hoks Hk Hfail) as [-> _].
  split; [rewrite length_app; simpl; lia|].
  split; [exists (before ctx form (metadataOf form) 0 ending);
          split; [done|apply before_ok]|].
  split; [rewrite Ho; destruct ending; cbn [result]; eauto;
          by rewrite Hev in Hfail|].
  split; [rewrite Hr; destruct ending; cbn [registered]; try done;
          by rewrite Hev in Hfail|].
  intros Hper. rewrite <- Hseg. clear Hoks Hcalls Hk.
  destruct ending; rewrite Hev in Hs; cbn [final stage_of] in Hs; subst s;
    cbn [segment final stageFiles possible] in *;
    try discriminate Hper;
    rewrite Hev in Hseg; apply app_inj_tail in Hseg as [<- _].
  - rewrite length_pdfCalls, length_take_le
      by (apply lookup_lt_Some in Hp; lia).
    rewrite fmap_app, subject_pdfCalls, (take_S_r _ _ _ Hp), fmap_app.
    done.
  - destruct Hp as [_ Hp].
    rewrite length_convertCalls, length_take_le
      by (apply lookup_lt_Some in Hp; lia).
    rewrite fmap_app, subject_convertCalls, (take_S_r _ _ _ Hp), fmap_app.
    done.
  - destruct Hp as [_ Hp].
    rewrite length_metadataCalls, length_take_le
      by (apply lookup_lt_Some in Hp; lia).
    rewrite fmap_app, subject_metadataCalls, (take_S_r _ _ _ Hp), fmap_app.
    done.
Qed.

(** The two routes of the module. *)
Inductive Route := PdfRoute | DocxRoute.

Definition Run (route : Route) (form : Form.t) : outcome unit * State :=
  match route with
  | PdfRoute => RunPdfPipeline form
  | DocxRoute => RunDocxPipeline form
  end.

Lemma calls_of_app s l1 l2 :
  calls_of s (l1 ++ l2) = calls_of s l1 ++ calls_of s l2.
Proof. apply filter_app. Qed.

(** C8: in either pipeline, when the renaming of an output file fails, the
    handler returns the rename error and hands no output path to the
    response: [ctx.AddOutputPaths] is never called and the registered output
    paths stay empty, although every call before the failed renaming
    succeeded.  A renaming is only attempted for a request with several
    inputs. *)
Theorem rename_failure_aborts route form oldpath newpath e :
  ERename oldpath newpath (Some e) ∈ trace (Run route form).2 →
  (Run route form).1 = Fail (Errorf "rename output path" e) ∧
  ctx_outputPaths (Run route form).2 = [] ∧
  calls_of StageResponse (trace (Run route form).2) = [] ∧
  (∃ pre, trace (Run route form).2
            = pre ++ [ERename oldpath newpath (Some e)] ∧
          Forall (λ c, answer c = None) pre) ∧
  1 < length (Form.inputPaths form).
Proof.
  intros Hin. apply list_elem_of_lookup in Hin as [i Hi].
  destruct route; cbn [Run] in *.
  - destruct (pdf_failed_call form i _ Hi ltac:(done))
      as (ending & Hp & Ho & Ht & Hr & Hev & _).
    destruct ending; try discriminate Hev.
    cbn [final] in Hev. injection Hev as _ _ <-.
    fold (pdfOutcome form) (pdfTrace form) (pdfOutputs form).
    rewrite Ho, Hr. cbn [result registered]. repeat split.
    + pose proof (calls_of_trace ctx form (metadataOf form) 0 StageResponse
                    (NamingFailed k old inp e)) as Hcalls.
      cbn [final segment] in Hcalls. rewrite <- Hcalls, Ht.
      cbn [before]. by rewrite !calls_of_app.
    + eexists. split; [exact Ht|apply before_ok].
    + destruct Hp as (Hn & _ & _).
      pose proof (naming_lengths ctx form 0 Hn) as Hlen.
      unfold naming in Hn. apply bool_decide_eq_true in Hn. lia.
  - destruct (docx_failed_call form i _ Hi ltac:(done))
      as (ending & Hp & Ho & Ht & Hr & Hev).
    destruct ending; try discriminate Hev.
    cbn [docxFinal] in Hev. injection Hev as _ _ <-.
    fold (docxOutcome form) (docxTrace form) (docxOutputs form).
    rewrite Ho, Hr. cbn [docxResult docxRegistered]. repeat split.
    + rewrite Ht. cbn [docxBefore]. rewrite !calls_of_app.
      rewrite (calls_of_other _ _ _ (docxCalls_stage _ _ _)) by done.
      by rewrite (calls_of_other _ _ _ (renameCalls_stage _ _ _)) by done.
    + eexists. split; [exact Ht|apply docx_before_ok].
    + destruct Hp as (Hn & _ & _). unfold docxNaming in Hn.
      apply bool_decide_eq_true in Hn.
      by rewrite length_docxConverted in Hn.
Qed.

(** A run that returns nil completed every stage. *)
Lemma pdf_success form :
  pdfOutcome form = Return tt →
  pdfTrace form =
    before ctx form (metadataOf form) 0 Completed
      ++ [final ctx form (metadataOf form) 0 Completed] ∧
  pdfOutputs form = named ctx form 0 ∧
  pdfAllocated form = allocatedAfterNormalization ctx form 0.
Proof.
  intros Hok. pose proof (RunPdfPipeline_cases form) as Hrun.
  destruct (Validate ctx json_Unmarshal form).1 as [err|].
  - unfold pdfOutcome in Hok. by rewrite Hrun in Hok.
  - destruct Hrun as (ending & _ & Ho & Ht & Hr & Ha).
    rewrite Hok in Ho. by destruct ending.
Qed.

Lemma docx_success form :
  docxOutcome form = Return tt →
  docxTrace form =
    docxCalls ctx 0 (Form.inputPaths form) ++ docxNamingCalls ctx form 0
      ++ [EAddOutputPaths (docxNamed ctx form 0) None] ∧
  docxOutputs form = docxNamed ctx form 0.
Proof.
  intros Hok. pose proof (RunDocxPipeline_cases form) as Hrun.
  destruct (Form.errors form) as [err|].
  - unfold docxOutcome in Hok. by rewrite Hrun in Hok.
  - destruct Hrun as (ending & Hp & Ho & Ht & Hr).
    rewrite Hok in Ho. destruct ending; try done.
    rewrite Ht, Hr. cbn [docxBefore docxFinal docxRegistered].
    by rewrite <- app_assoc.
Qed.

Lemma docxNamingCalls_stage form :
  Forall (λ ev, stage_of ev = StageNaming) (docxNamingCalls ctx form 0).
Proof.
  unfold docxNamingCalls.
  destruct docxNaming; [apply renameCalls_stage|constructor].
Qed.

Lemma genPaths_app a n m ext :
  genPaths ctx a (n + m) ext = genPaths ctx a n ext ++ genPaths ctx (a + n) m ext.
Proof. unfold genPaths. by rewrite seq_app, fmap_app. Qed.

Lemma product_convertCalls formats a outs :
  product <$> convertCalls ctx formats a outs
    = Some <$> genPaths ctx a (length outs) ".pdf".
Proof.
  unfold convertCalls, genPaths. apply list_eq. intros i.
  rewrite !list_lookup_fmap, list_lookup_imap.
  destruct (outs !! i) as [p|] eqn:Hi; simpl.
  - apply lookup_lt_Some in Hi. by rewrite lookup_seq_lt.
  - apply lookup_ge_None in Hi. by rewrite lookup_seq_ge.
Qed.

Lemma subject_renameCalls suffix (olds ins : list string) :
  length olds = length ins →
  subject <$> renameCalls suffix olds ins = Some <$> olds.
Proof.
  revert ins. induction olds as [|old olds IH]; intros [|inp ins] Hlen;
    try done.
  cbn. f_equal. apply IH. by injection Hlen.
Qed.

Lemma product_renameCalls suffix (olds ins : list string) :
  length olds = length ins →
  product <$> renameCalls suffix olds ins = Some <$> renamed suffix ins.
Proof.
  revert ins. induction olds as [|old olds IH]; intros [|inp ins] Hlen;
    try done.
  cbn. f_equal. apply IH. by injection Hlen.
Qed.

Lemma convertCalls_nonempty formats a (outs : list string) :
  outs ≠ [] → convertCalls ctx formats a outs ≠ [].
Proof. by destruct outs. Qed.

Lemma length_renamed suffix ins : length (renamed suffix ins) = length ins.
Proof. apply length_fmap. Qed.

(** The output paths handed to the response by a successful run. *)
Lemma length_named form :
  length (named ctx form 0)
    = if merging form then 1 else length (Form.inputPaths form).
Proof.
  unfold named. pose proof (naming_lengths ctx form 0) as Hn.
  rewrite <- length_merged with (ctx := ctx) (a := 0).
  rewrite <- length_normalized.
  destruct (naming ctx form 0); [|done].
  rewrite length_renamed. symmetry. by apply Hn.
Qed.

Lemma naming_iff form :
  naming ctx form 0 = true ↔
  1 < length (Form.inputPaths form) ∧ merging form = false.
Proof.
  unfold naming. rewrite bool_decide_eq_true, length_normalized, length_merged.
  unfold merging.
  destruct (Form.merge form); rewrite ?andb_true_r, ?andb_false_r;
    [case_bool_decide|];
    (split; [intros ?|intros [? ?]]; try split; first [lia|done]).
Qed.

Lemma merging_iff form :
  merging form = true ↔
  1 < length (Form.inputPaths form) ∧ Form.merge form = true.
Proof.
  unfold merging. by rewrite andb_true_iff, bool_decide_eq_true.
Qed.

Lemma product_docxCalls a ins :
  product <$> docxCalls ctx a ins = Some <$> genPaths ctx a (length ins) ".docx".
Proof.
  unfold docxCalls, genPaths. apply list_eq. intros i.
  rewrite !list_lookup_fmap, list_lookup_imap.
  destruct (ins !! i) as [inp|] eqn:Hi; simpl.
  - apply lookup_lt_Some in Hi. by rewrite lookup_seq_lt.
  - apply lookup_ge_None in Hi. by rewrite lookup_seq_ge.
Qed.

(** The files left by the stages that write files: the products of the
    normalization calls when there are some, else of the merge call when
    there is one, else of the conversion calls. *)
Definition filesLeft (tr : list Event) : list (option string) :=
  match calls_of StageNormalization tr, calls_of StageMerge tr with
  | [], [] => product <$> calls_of StageConversion tr
  | [], merges => product <$> merges
  | normalizations, _ => product <$> normalizations
  end.

(** The calls of each stage in a successful run. *)
Lemma pdf_success_calls form :
  pdfOutcome form = Return tt →
  calls_of StageConversion (pdfTrace form) = conversionCalls ctx form 0 ∧
  calls_of StageMerge (pdfTrace form) = mergeCalls ctx form 0 ∧
  calls_of StageNormalization (pdfTrace form) = normalizationCalls ctx form 0 ∧
  calls_of StageMetadata (pdfTrace form)
    = stampingCalls ctx form (metadataOf form) 0 ∧
  calls_of StageNaming (pdfTrace form) = namingCalls ctx form 0 ∧
  pdfOutputs form = named ctx form 0 ∧
  Forall (λ ev, answer ev = None) (pdfTrace form).
Proof.
  intros Hok. destruct (pdf_success form Hok) as (Ht & Hr & _).
  rewrite Ht, !calls_of_trace. cbn [segment]. repeat split; [done|].
  rewrite Forall_app, Forall_singleton. split; [apply before_ok|done].
Qed.

Lemma filesLeft_success form :
  pdfOutcome form = Return tt →
  filesLeft (pdfTrace form) = Some <$> normalized ctx form 0.
Proof.
  intros Hok.
  destruct (pdf_success_calls form Hok) as (Hc & Hm & Hn & _).
  unfold filesLeft. rewrite Hc, Hm, Hn.
  unfold normalizationCalls, normalized, mergeCalls, conversionCalls.
  assert (product <$> pdfCalls ctx form 0 (Form.inputPaths form)
          = Some <$> converted ctx form 0) as Hconv
    by apply product_pdfCalls.
  destruct (normalizing form).
  - destruct (merged ctx form 0) as [|p l] eqn:Hmerged.
    + unfold merged in Hmerged. destruct (merging form); [done|].
      by rewrite Hconv, Hmerged.
    + rewrite convertCalls_cons. rewrite <- convertCalls_cons.
      by rewrite product_convertCalls.
  - unfold merged. by destruct (merging form).
Qed.

(** C9: in the DOCX pipeline every failure of the Converter, whatever its
    cause, makes the handler return the same kind of error: the cause wrapped
    as a conversion failure with the internal-server-error status and the
    fixed message, with no case distinction on the cause.  The pipeline has
    no merge, normalization or metadata call.  When the handler succeeds,
    the Converter was called once per input, in order, there is one output
    per input, and several outputs are named after their inputs with the
    ".docx" suffix: the k-th call of [ctx.Rename] moves the file the
    Converter wrote for the k-th input, and every call succeeded. *)
Theorem docx_pipeline_uniform form :
  (∀ inp out e,
     EDocx inp out (Some e) ∈ docxTrace form →
     docxOutcome form =
       Fail (WrapError (Errorf "convert to DOCX" e)
               StatusInternalServerError "Error")) ∧
  Forall (λ ev, stage_of ev = StageConversion ∨ stage_of ev = StageNaming
                ∨ stage_of ev = StageResponse) (docxTrace form) ∧
  (docxOutcome form = Return tt →
   subject <$> calls_of StageConversion (docxTrace form)
     = Some <$> Form.inputPaths form ∧
   Forall (λ ev, ∃ inp out, ev = EDocx inp out None)
     (calls_of StageConversion (docxTrace form)) ∧
   length (docxOutputs form) = length (Form.inputPaths form) ∧
   (1 < length (Form.inputPaths form) →
    docxOutputs form = (λ inp, inp +:+ ".docx") <$> Form.inputPaths form) ∧
   (length (Form.inputPaths form) ≤ 1 →
    calls_of StageNaming (docxTrace form) = [] ∧
    docxOutputs form
      = genPaths ctx 0 (length (Form.inputPaths form)) ".docx") ∧
   product <$> calls_of StageConversion (docxTrace form)
     = Some <$> genPaths ctx 0 (length (Form.inputPaths form)) ".docx" ∧
   (1 < length (Form.inputPaths form) →
    ∃ olds,
      length olds = length (Form.inputPaths form) ∧
      Some <$> olds = product <$> calls_of StageConversion (docxTrace form) ∧
      calls_of StageNaming (docxTrace form)
        = zip_with (λ old inp, ERename old (inp +:+ ".docx") None)
            olds (Form.inputPaths form)) ∧
   Forall (λ ev, answer ev = None) (docxTrace form)).
Proof.
  split; [|split].
  - intros inp out e Hin. apply list_elem_of_lookup in Hin as [i Hi].
    destruct (docx_failed_call form i _ Hi ltac:(done))
      as (ending & Hp & Ho & Ht & Hr & Hev).
    destruct ending; try discriminate Hev.
    cbn [docxFinal] in Hev. injection Hev as _ _ <-. by rewrite Ho.
  - pose proof (RunDocxPipeline_cases form) as Hrun.
    destruct (Form.errors form) as [err|].
    + unfold docxTrace. rewrite Hrun. constructor.
    + destruct Hrun as (ending & Hp & Ho & Ht & Hr). rewrite Ht.
      pose proof (docxNamingCalls_stage form) as Hnaming.
      destruct ending; cbn [docxBefore docxFinal docxPossible] in *;
        try done; rewrite ?Forall_app, ?Forall_singleton; repeat split;
        try (by auto);
        first [ eapply Forall_impl; [apply docxCalls_stage|by auto]
              | eapply Forall_impl; [apply renameCalls_stage|by auto]
              | eapply Forall_impl; [apply Hnaming|by auto] ].
  - intros Hok. destruct (docx_success form Hok) as [Ht Hr].
    pose proof (docxNamingCalls_stage form) as Hnaming.
    assert (calls_of StageConversion (docxTrace form)
            = docxCalls ctx 0 (Form.inputPaths form)) as Hconv.
    { rewrite Ht, !calls_of_app.
      rewrite (calls_of_same _ _ (docxCalls_stage _ _ _)).
      rewrite (calls_of_other _ _ _ Hnaming) by done.
      by rewrite app_nil_r. }
    assert (calls_of StageNaming (docxTrace form)
            = docxNamingCalls ctx form 0) as Hnam.
    { rewrite Ht, !calls_of_app.
      rewrite (calls_of_other _ _ _ (docxCalls_stage _ _ _)) by done.
      by rewrite (calls_of_same _ _ Hnaming), app_nil_r. }
    rewrite Hconv, Hnam, Hr. unfold docxNamed, docxNamingCalls, docxNaming.
    rewrite length_docxConverted.
    split; [apply subject_docxCalls|].
    split; [apply Forall_imap_intro; unfold docxCall; eauto|].
    split; [|split; [|split; [|split; [|split]]]].
    + case_bool_decide; [|apply length_docxConverted].
      unfold renamed. by rewrite length_fmap.
    + intros Hn. by rewrite bool_decide_eq_true_2.
    + intros Hn. by rewrite bool_decide_eq_false_2 by lia.
    + apply product_docxCalls.
    + intros Hn. rewrite bool_decide_eq_true_2 by done.
      exists (docxConverted ctx form 0).
      split; [apply length_docxConverted|].
      split; [by rewrite product_docxCalls|done].
    + rewrite Ht, !Forall_app, Forall_singleton.
      split; [apply Forall_imap_intro; by unfold docxCall|].
      split; [|done].
      unfold docxNamingCalls. destruct (docxNaming ctx form 0); [|done].
      unfold renameCalls. apply Forall_lookup_2. intros i ev Hi.
      apply lookup_zip_with_Some in Hi as (old & inp & -> & _ & _). done.
Qed.

(** C1: for a non-empty list of inputs, a successful run of the PDF pipeline
    hands to the response one output file per input, in the order of the
    inputs, unless merging was requested and there are at least two inputs,
    in which case it hands exactly one output file.  The outputs are the
    files the run produced: the Converter was called once on every input, in
    order; when merging, the converted files were merged in that order by
    one call; the engine, when it normalizes, was called on these files; and
    the files left are the outputs, each renamed after its input when there
    are several. *)
Theorem pdf_output_count form :
  Form.inputPaths form ≠ [] →
  pdfOutcome form = Return tt →
  (if bool_decide (1 < length (Form.inputPaths form)) && Form.merge form
   then length (pdfOutputs form) = 1
   else length (pdfOutputs form) = length (Form.inputPaths form) ∧
        (1 < length (Form.inputPaths form) →
         pdfOutputs form = (λ inp, inp +:+ ".pdf") <$> Form.inputPaths form)) ∧
  subject <$> calls_of StageConversion (pdfTrace form)
    = Some <$> Form.inputPaths form ∧
  Forall (λ ev, answer ev = None) (pdfTrace form) ∧
  (if bool_decide (1 < length (Form.inputPaths form)) && Form.merge form
   then ∃ converted merged,
          product <$> calls_of StageConversion (pdfTrace form)
            = Some <$> converted ∧
          calls_of StageMerge (pdfTrace form)
            = [EMerge converted merged None] ∧
          (calls_of StageNormalization (pdfTrace form) ≠ [] →
           subject <$> calls_of StageNormalization (pdfTrace form)
             = [Some merged])
   else calls_of StageMerge (pdfTrace form) = [] ∧
        (calls_of StageNormalization (pdfTrace form) ≠ [] →
         subject <$> calls_of StageNormalization (pdfTrace form)
           = product <$> calls_of StageConversion (pdfTrace form))) ∧
  length (filesLeft (pdfTrace form)) = length (pdfOutputs form) ∧
  (calls_of StageNaming (pdfTrace form) = [] →
   Some <$> pdfOutputs form = filesLeft (pdfTrace form)) ∧
  (calls_of StageNaming (pdfTrace form) ≠ [] →
   subject <$> calls_of StageNaming (pdfTrace form)
     = filesLeft (pdfTrace form) ∧
   product <$> calls_of StageNaming (pdfTrace form)
     = Some <$> pdfOutputs form).
Proof.
  intros _ Hok.
  destruct (pdf_success_calls form Hok) as (Hc & Hm & Hn & _ & Hr & Ho & Hall).
  rewrite (filesLeft_success form Hok), Hc, Hm, Hn, Hr, Ho.
  change (bool_decide (1 < length (Form.inputPaths form)) && Form.merge form)
    with (merging form).
  split.
  { rewrite length_named. destruct (merging form) eqn:Hmerge; [done|].
    split; [done|]. intros Hlen. unfold named.
    by rewrite (proj2 (naming_iff form) (conj Hlen Hmerge)). }
  unfold conversionCalls. rewrite subject_pdfCalls, product_pdfCalls.
  split; [done|]. split; [done|]. split.
  { unfold mergeCalls, normalizationCalls, merged.
    destruct (merging form).
    - exists (converted ctx form 0), (mergedPath ctx form 0).
      repeat split. destruct (normalizing form); [|done].
      intros _. apply subject_convertCalls.
    - split; [done|]. destruct (normalizing form); [|done].
      intros _. apply subject_convertCalls. }
  rewrite length_fmap, length_normalized, length_named, length_merged.
  split; [done|].
  unfold named, namingCalls.
  destruct (naming ctx form 0) eqn:Hnaming.
  - pose proof (naming_lengths ctx form 0 Hnaming) as Hlen.
    split.
    + intros Hnil. apply (f_equal length) in Hnil. unfold renameCalls in Hnil.
      rewrite length_zip_with, Hlen in Hnil.
      apply naming_iff in Hnaming as [Hnaming _].
      simpl in Hnil. lia.
    + intros _. by rewrite subject_renameCalls, product_renameCalls.
  - split; [done|]. by intros [].
Qed.

(** The calls of a stage in a run on a valid form. *)
Lemma pdf_calls_of form :
  (Validate ctx json_Unmarshal form).1 = None →
  ∃ ending,
    possible ctx form (metadataOf form) 0 ending ∧
    pdfOutcome form = result form ending ∧
    ∀ s, calls_of s (pdfTrace form)
         = segment ctx form (metadataOf form) 0 s ending.
Proof.
  intros Hv. pose proof (RunPdfPipeline_cases form) as Hrun.
  rewrite Hv in Hrun. destruct Hrun as (ending & Hp & Ho & Ht & _).
  exists ending. repeat split; [done..|].
  intros s. rewrite Ht. apply calls_of_trace.
Qed.

Lemma pdf_invalid_trace form err :
  (Validate ctx json_Unmarshal form).1 = Some err → pdfTrace form = [].
Proof.
  intros Hv. pose proof (RunPdfPipeline_cases form) as Hrun.
  rewrite Hv in Hrun. unfold pdfTrace. by rewrite Hrun.
Qed.

(** C2: the merge stage is never invoked for a request with exactly one
    input file, whatever the merge flag; it is invoked only for a request
    with at least two inputs and the merge flag set; and once the conversion
    stage has completed on such a request it is invoked exactly once, on all
    the converted files in order. *)
Theorem merge_invocation form :
  (length (Form.inputPaths form) = 1 →
   calls_of StageMerge (pdfTrace form) = []) ∧
  (calls_of StageMerge (pdfTrace form) ≠ [] →
   1 < length (Form.inputPaths form) ∧ Form.merge form = true) ∧
  ((Validate ctx json_Unmarshal form).1 = None →
   Forall (λ ev, answer ev = None) (calls_of StageConversion (pdfTrace form)) →
   1 < length (Form.inputPaths form) → Form.merge form = true →
   ∃ outs out res,
     calls_of StageMerge (pdfTrace form) = [EMerge outs out res] ∧
     Some <$> outs = product <$> calls_of StageConversion (pdfTrace form) ∧
     length outs = length (Form.inputPaths form)).
Proof.
  assert (calls_of StageMerge (pdfTrace form) ≠ [] → merging form = true)
    as Honly.
  { intros Hcalls.
    destruct (Validate ctx json_Unmarshal form).1 as [err|] eqn:Hv.
    - by rewrite (pdf_invalid_trace form err Hv) in Hcalls.
    - destruct (pdf_calls_of form Hv) as (ending & Hp & _ & Hseg).
      rewrite Hseg in Hcalls.
      destruct ending; cbn [segment possible] in *; try done;
        unfold mergeCalls in Hcalls; by destruct (merging form). }
  split; [|split].
  - intros Hone.
    destruct (calls_of StageMerge (pdfTrace form)) as [|ev l] eqn:Hcalls;
      [done|].
    specialize (Honly ltac:(done)). apply merging_iff in Honly. lia.
  - intros Hcalls. by apply merging_iff, Honly.
  - intros Hv Hconv Hlen Hmerge.
    destruct (pdf_calls_of form Hv) as (ending & Hp & _ & Hseg).
    rewrite !Hseg in *.
    assert (merging form = true) as Hm by by apply merging_iff.
    assert (segment ctx form (metadataOf form) 0 StageConversion ending
            = conversionCalls ctx form 0) as Hc.
    { destruct ending; try done. cbn [segment final] in Hconv.
      rewrite Forall_app, Forall_singleton in Hconv. by destruct Hconv. }
    rewrite Hc. unfold conversionCalls. rewrite product_pdfCalls.
    fold (converted ctx form 0).
    destruct ending; cbn [segment final possible] in *;
      unfold mergeCalls; rewrite ?Hm;
      try (by eexists _, _, _; split; [done|split; [done|apply length_converted]]).
    rewrite Forall_app, Forall_singleton in Hconv. by destruct Hconv.
Qed.

Lemma Forall2_imap_intro {A B} (P : A → B → Prop) (f : nat → A → B)
    (l : list A) :
  (∀ i x, P x (f i x)) → Forall2 P l (imap f l).
Proof.
  intros HP. apply Forall2_same_length_lookup_2; [by rewrite length_imap|].
  intros i x y Hx. rewrite list_lookup_imap, Hx. simpl.
  intros [= <-]. apply HP.
Qed.

(** Every call to the Converter of the PDF route carries the options of the
    request. *)
Lemma pdf_conversion_options form inp out options res :
  EPdf inp out options res ∈ pdfTrace form → options = optionsOf form.
Proof.
  intros Hin.
  destruct (Validate ctx json_Unmarshal form).1 as [err|] eqn:Hv.
  { rewrite (pdf_invalid_trace form err Hv) in Hin. by apply not_elem_of_nil in Hin. }
  destruct (pdf_calls_of form Hv) as (ending & _ & _ & Hseg).
  assert (EPdf inp out options res ∈ calls_of StageConversion (pdfTrace form))
    as Hc by by apply list_elem_of_filter.
  rewrite Hseg in Hc.
  assert (∀ l, EPdf inp out options res ∈ pdfCalls ctx form 0 l →
               options = optionsOf form) as Hcalls.
  { intros l Hl. apply list_elem_of_lookup in Hl as [i Hi].
    unfold pdfCalls in Hi. rewrite list_lookup_imap in Hi.
    destruct (l !! i); simpl in Hi; [|done].
    unfold pdfCall in Hi. by injection Hi as _ _ <-. }
  destruct ending; cbn [segment final] in Hc; try by eapply Hcalls.
  apply elem_of_app in Hc as [Hc|Hc]; [by eapply Hcalls|].
  apply list_elem_of_singleton in Hc. by injection Hc as _ _ ->.
Qed.

Lemma convertCalls_subjects ctx' formats a (outs l : list string) :
  l ⊆ outs →
  Forall (λ ev, ∃ p out res, ev = EConvert formats p out res ∧ p ∈ outs)
    (convertCalls ctx' formats a l).
Proof.
  intros Hsub. apply Forall_lookup. intros i ev.
  unfold convertCalls. rewrite list_lookup_imap.
  destruct (l !! i) as [p|] eqn:Hp; simpl; [|done]. intros [= <-].
  unfold convertCall. eexists _, _, _. split; [done|].
  apply Hsub. by eapply list_elem_of_lookup_2.
Qed.

Lemma merged_nonempty form :
  Form.inputPaths form ≠ [] → merged ctx form 0 ≠ [].
Proof.
  intros Hins Hm. apply (f_equal length) in Hm.
  rewrite length_merged in Hm. destruct (merging form); [done|].
  by destruct (Form.inputPaths form).
Qed.

Lemma conversion_carries form (l : list string) a :
  Forall (λ ev, ∃ inp out options,
              ev = EPdf inp out options None ∧
              libreofficeapi.PdfFormats options
                = if Form.nativePdfFormats form then pdfFormatsOf form
                  else zeroValued)
    (pdfCalls ctx form a l).
Proof.
  apply Forall_imap_intro. intros i inp. unfold pdfCall. by eexists _, _, _.
Qed.

(** C3: native normalization (the PDF formats given to the Converter) and
    engine normalization ([engine.Convert]) never both happen in a run.  For
    a non-empty PDF formats target, once the conversion and merge stages
    have completed exactly one of them happens: either every input was
    converted with the target and the engine normalizes nothing, or every
    input was converted without it and the engine is called on the files of
    the output set left by the merge stage; in a successful run it is called
    on every one of them, once, in order. *)
Theorem normalization_exclusive form :
  (∀ inp out options res,
     EPdf inp out options res ∈ pdfTrace form →
     libreofficeapi.PdfFormats options ≠ zeroValued →
     calls_of StageNormalization (pdfTrace form) = []) ∧
  ((Validate ctx json_Unmarshal form).1 = None →
   Forall (λ ev, answer ev = None) (calls_of StageConversion (pdfTrace form)) →
   Forall (λ ev, answer ev = None) (calls_of StageMerge (pdfTrace form)) →
   Form.inputPaths form ≠ [] → pdfFormatsOf form ≠ zeroValued →
   length (calls_of StageConversion (pdfTrace form))
     = length (Form.inputPaths form) ∧
   if Form.nativePdfFormats form then
     Forall (λ ev, ∃ inp out options,
                 ev = EPdf inp out options None ∧
                 libreofficeapi.PdfFormats options = pdfFormatsOf form)
       (calls_of StageConversion (pdfTrace form)) ∧
     calls_of StageNormalization (pdfTrace form) = []
   else
     Forall (λ ev, ∃ inp out options,
                 ev = EPdf inp out options None ∧
                 libreofficeapi.PdfFormats options = zeroValued)
       (calls_of StageConversion (pdfTrace form)) ∧
     calls_of StageNormalization (pdfTrace form) ≠ [] ∧
     Forall (λ ev, ∃ p out res,
                 ev = EConvert (pdfFormatsOf form) p out res ∧
                 p ∈ merged ctx form 0)
       (calls_of StageNormalization (pdfTrace form))) ∧
  (pdfOutcome form = Return tt → pdfFormatsOf form ≠ zeroValued →
   Form.nativePdfFormats form = false →
   Forall2 (λ p ev, ∃ out, ev = EConvert (pdfFormatsOf form) p out None)
     (merged ctx form 0) (calls_of StageNormalization (pdfTrace form))).
Proof.
  split; [|split].
  - intros inp out options res Hin Hformats.
    rewrite (pdf_conversion_options form _ _ _ _ Hin) in Hformats.
    assert (normalizing form = false) as Hn.
    { unfold normalizing. unfold optionsOf in Hformats. simpl in Hformats.
      by destruct (Form.nativePdfFormats form). }
    destruct (Validate ctx json_Unmarshal form).1 as [err|] eqn:Hv.
    { by rewrite (pdf_invalid_trace form err Hv). }
    destruct (pdf_calls_of form Hv) as (ending & Hp & _ & Hseg).
    rewrite Hseg.
    destruct ending; cbn [segment possible] in *; try done;
      try (unfold normalizationCalls; by rewrite Hn).
    destruct Hp as [Hp _]. congruence.
  - intros Hv Hconv Hmerge Hins Hformats.
    destruct (pdf_calls_of form Hv) as (ending & Hp & _ & Hseg).
    rewrite !Hseg in *.
    pose proof (conversion_carries form (Form.inputPaths form) 0) as Hcarry.
    pose proof (merged_nonempty form Hins) as Hne.
    assert (normalizing form = negb (Form.nativePdfFormats form)) as Hn.
    { unfold normalizing. by rewrite bool_decide_eq_true_2, andb_true_r. }
    assert (normalizationCalls ctx form 0 ≠ []
            ∨ Form.nativePdfFormats form = true) as Hcalls.
    { unfold normalizationCalls. rewrite Hn.
      destruct (Form.nativePdfFormats form); [by right|left]. simpl.
      intros Hnil. apply (f_equal length) in Hnil.
      rewrite length_convertCalls in Hnil.
      by destruct (merged ctx form 0). }
    assert (Forall (λ ev, ∃ p out res,
                        ev = EConvert (pdfFormatsOf form) p out res ∧
                        p ∈ merged ctx form 0)
              (normalizationCalls ctx form 0)) as Hsubj.
    { unfold normalizationCalls.
      destruct (normalizing form); [|constructor].
      by apply convertCalls_subjects. }
    destruct ending; cbn [segment final possible] in *.
    + rewrite Forall_app, Forall_singleton in Hconv. by destruct Hconv.
    + rewrite Forall_singleton in Hmerge. done.
    + destruct Hp as [Hnorm Hp]. rewrite Hnorm in Hn.
      unfold conversionCalls. rewrite length_pdfCalls. split; [done|].
      destruct (Form.nativePdfFormats form); [done|].
      split; [exact Hcarry|]. split; [by destruct (convertCalls _ _ _ _)|].
      rewrite Forall_app, Forall_singleton. split.
      * apply convertCalls_subjects, subseteq_take.
      * eexists _, _, _. split; [done|]. by eapply list_elem_of_lookup_2.
    + unfold conversionCalls. rewrite length_pdfCalls. split; [done|].
      destruct (Form.nativePdfFormats form).
      * split; [exact Hcarry|]. unfold normalizationCalls. by rewrite Hn.
      * split; [exact Hcarry|]. split; [by destruct Hcalls|done].
    + unfold conversionCalls. rewrite length_pdfCalls. split; [done|].
      destruct (Form.nativePdfFormats form).
      * split; [exact Hcarry|]. unfold normalizationCalls. by rewrite Hn.
      * split; [exact Hcarry|]. split; [by destruct Hcalls|done].
    + unfold conversionCalls. rewrite length_pdfCalls. split; [done|].
      destruct (Form.nativePdfFormats form).
      * split; [exact Hcarry|]. unfold normalizationCalls. by rewrite Hn.
      * split; [exact Hcarry|]. split; [by destruct Hcalls|done].
    + unfold conversionCalls. rewrite length_pdfCalls. split; [done|].
      destruct (Form.nativePdfFormats form).
      * split; [exact Hcarry|]. unfold normalizationCalls. by rewrite Hn.
      * split; [exact Hcarry|]. split; [by destruct Hcalls|done].
  - intros Hok Hformats Hnative.
    destruct (pdf_success form Hok) as (Ht & _ & _).
    rewrite Ht, !calls_of_trace. cbn [segment].
    unfold normalizationCalls, normalizing.
    rewrite Hnative, bool_decide_eq_true_2 by done. cbn [negb andb].
    apply Forall2_imap_intro. intros i p. unfold convertCall. eauto.
Qed.

(** The calls of a run are made in pipeline order. *)
Lemma pdf_trace_sorted form : StronglySorted stage_le (pdfTrace form).
Proof.
  pose proof (RunPdfPipeline_cases form) as Hrun.
  destruct (Validate ctx json_Unmarshal form).1 as [err|].
  - unfold pdfTrace. rewrite Hrun. constructor.
  - destruct Hrun as (ending & _ & _ & -> & _). apply trace_sorted.
Qed.

Lemma pdf_later_stage_later form i j x y :
  pdfTrace form !! i = Some x → pdfTrace form !! j = Some y →
  stage_rank (stage_of y) < stage_rank (stage_of x) → j < i.
Proof.
  intros Hi Hj Hrank. destruct (decide (j < i)) as [|Hge]; [done|].
  destruct (decide (i = j)) as [->|Hne].
  - rewrite Hi in Hj. injection Hj as ->. lia.
  - pose proof (sorted_lookup _ i j x y (pdf_trace_sorted form)
                  ltac:(lia) Hi Hj) as Hle.
    unfold stage_le in Hle. lia.
Qed.

(** The files stamped with metadata are the files left by the normalization
    stage, which completed. *)
Lemma stamped_is_normalized form ending metadata path res :
  possible ctx form (metadataOf form) 0 ending →
  EWriteMetadata metadata path res
    ∈ segment ctx form (metadataOf form) 0 StageMetadata ending →
  path ∈ normalized ctx form 0 ∧
  segment ctx form (metadataOf form) 0 StageNormalization ending
    = normalizationCalls ctx form 0.
Proof.
  intros Hp Hc.
  assert (∀ l, EWriteMetadata metadata path res
                 ∈ metadataCalls (metadataOf form) l → path ∈ l) as Hcalls.
  { intros l Hl. unfold metadataCalls in Hl.
    apply list_elem_of_fmap in Hl as (p & Heq & Hp').
    by injection Heq as _ ->. }
  destruct ending; cbn [segment final possible] in *;
    try (by apply not_elem_of_nil in Hc);
    try (unfold stampingCalls in Hc;
         destruct (stamping (metadataOf form));
         [by split; [apply Hcalls|]|by apply not_elem_of_nil in Hc]).
  apply elem_of_app in Hc as [Hc|Hc].
  - apply Hcalls in Hc. split; [|done]. by eapply subseteq_take.
  - apply list_elem_of_singleton in Hc. injection Hc as _ ->.
    destruct Hp as [_ Hp]. split; [|done]. by eapply list_elem_of_lookup_2.
Qed.

(** A file of the output set left by engine normalization is the product of
    a successful call to [engine.Convert]. *)
Lemma normalized_is_converted form path :
  normalizing form = true → path ∈ normalized ctx form 0 →
  ∃ src, EConvert (pdfFormatsOf form) src path None
           ∈ normalizationCalls ctx form 0.
Proof.
  unfold normalized, normalizationCalls. intros -> Hin.
  apply list_elem_of_lookup in Hin as [j Hj].
  pose proof (lookup_lt_Some _ _ _ Hj) as Hlt.
  rewrite length_genPaths in Hlt.
  rewrite lookup_genPaths in Hj by done. injection Hj as <-.
  destruct (lookup_lt_is_Some_2 (merged ctx form 0) j Hlt) as [src Hsrc].
  exists src. eapply list_elem_of_lookup_2 with (i := j).
  unfold convertCalls. by rewrite list_lookup_imap, Hsrc.
Qed.

(** C4: in every run, once [engine.WriteMetadata] is called no
    normalization follows: every call to the Converter and every call to
    [engine.Convert] comes strictly before it.  When the engine normalization
    stage runs, the file being stamped is the product of an earlier,
    successful call to [engine.Convert]. *)
Theorem metadata_follows_normalization form i metadata path res :
  pdfTrace form !! i = Some (EWriteMetadata metadata path res) →
  (∀ j ev,
     pdfTrace form !! j = Some ev →
     stage_of ev = StageNormalization ∨ stage_of ev = StageConversion →
     j < i) ∧
  (Form.nativePdfFormats form = false → pdfFormatsOf form ≠ zeroValued →
   ∃ j src,
     j < i ∧
     pdfTrace form !! j
       = Some (EConvert (pdfFormatsOf form) src path None)).
Proof.
  intros Hi. split.
  - intros j ev Hj Hstage. eapply pdf_later_stage_later; [exact Hi|exact Hj|].
    simpl. destruct Hstage as [-> | ->]; simpl; lia.
  - intros Hnative Hformats.
    assert (normalizing form = true) as Hn.
    { unfold normalizing. by rewrite Hnative, bool_decide_eq_true_2. }
    pose proof (list_elem_of_lookup_2 _ _ _ Hi) as Hin.
    destruct (Validate ctx json_Unmarshal form).1 as [err|] eqn:Hv.
    { rewrite (pdf_invalid_trace form err Hv) in Hin.
      by apply not_elem_of_nil in Hin. }
    destruct (pdf_calls_of form Hv) as (ending & Hp & _ & Hseg).
    assert (EWriteMetadata metadata path res
              ∈ calls_of StageMetadata (pdfTrace form))
      as Hc by by apply list_elem_of_filter.
    rewrite Hseg in Hc.
    destruct (stamped_is_normalized form ending _ _ _ Hp Hc) as [Hpath Hnorm].
    destruct (normalized_is_converted form path Hn Hpath) as [src Hsrc].
    rewrite <- Hnorm, <- Hseg in Hsrc.
    apply list_elem_of_filter in Hsrc as [_ Hsrc].
    apply list_elem_of_lookup in Hsrc as [j Hj].
    exists j, src. split; [|done].
    eapply pdf_later_stage_later; [exact Hi|exact Hj|simpl; lia].
Qed.

Lemma renameCalls_inputs suffix (olds ins : list string) :
  length olds = length ins →
  Forall2 (λ inp ev, ∃ old, ev = ERename old (inp +:+ suffix) None)
    ins (renameCalls suffix olds ins).
Proof.
  intros Hlen. unfold renameCalls.
  apply Forall2_same_length_lookup_2.
  - rewrite length_zip_with. lia.
  - intros i inp ev Hinp. rewrite lookup_zip_with, Hinp.
    destruct (olds !! i) as [old|]; simpl; [|done]. intros [= <-]. eauto.
Qed.

(** A single output is the last path allocated. *)
Lemma single_output_allocated form :
  naming ctx form 0 = false → length (normalized ctx form 0) = 1 →
  normalized ctx form 0
    = [GeneratePath ctx (allocatedAfterNormalization ctx form 0 - 1) ".pdf"].
Proof.
  intros _ Hlen. pose proof Hlen as Hm. rewrite length_normalized in Hm.
  unfold normalized, allocatedAfterNormalization in *.
  destruct (normalizing form).
  - rewrite Hm. cbn. do 3 f_equal. lia.
  - unfold merged, allocatedAfterMerge in *. destruct (merging form).
    + unfold mergedPath. do 3 f_equal. lia.
    + rewrite length_converted in Hm. unfold converted. rewrite Hm. done.
Qed.

(** C5: the naming of the outputs of a successful run of the PDF pipeline.
    A single output keeps the path given by [ctx.GeneratePath] (the last one
    allocated), which is the file the last producing call wrote, and
    nothing is renamed.  Several outputs are renamed, in the order of the
    inputs, each to the path of its input followed by ".pdf": the k-th call
    of [ctx.Rename] moves the file produced for the k-th input, the inputs
    having been converted one by one and nothing merged; so the inputs
    a.docx and b.xlsx yield a.docx.pdf and b.xlsx.pdf in that order. *)
Theorem output_naming form :
  pdfOutcome form = Return tt →
  (length (pdfOutputs form) = 1 →
   calls_of StageNaming (pdfTrace form) = [] ∧
   pdfOutputs form = [GeneratePath ctx (pdfAllocated form - 1) ".pdf"] ∧
   Some <$> pdfOutputs form = filesLeft (pdfTrace form)) ∧
  (1 < length (pdfOutputs form) →
   pdfOutputs form = (λ inp, inp +:+ ".pdf") <$> Form.inputPaths form ∧
   Forall2 (λ inp ev, ∃ old, ev = ERename old (inp +:+ ".pdf") None)
     (Form.inputPaths form) (calls_of StageNaming (pdfTrace form)) ∧
   (∃ olds,
      length olds = length (Form.inputPaths form) ∧
      Some <$> olds = filesLeft (pdfTrace form) ∧
      calls_of StageNaming (pdfTrace form)
        = zip_with (λ old inp, ERename old (inp +:+ ".pdf") None)
            olds (Form.inputPaths form)) ∧
   subject <$> calls_of StageConversion (pdfTrace form)
     = Some <$> Form.inputPaths form ∧
   calls_of StageMerge (pdfTrace form) = [] ∧
   (calls_of StageNormalization (pdfTrace form) ≠ [] →
    subject <$> calls_of StageNormalization (pdfTrace form)
      = product <$> calls_of StageConversion (pdfTrace form))) ∧
  (Form.inputPaths form = ["a.docx"; "b.xlsx"] →
   1 < length (pdfOutputs form) →
   pdfOutputs form = ["a.docx.pdf"; "b.xlsx.pdf"]).
Proof.
  intros Hok. destruct (pdf_success form Hok) as (Ht & Hr & Ha).
  destruct (pdf_success_calls form Hok) as (Hc & Hm & Hn & _ & Hnam & _ & _).
  rewrite (filesLeft_success form Hok), Hc, Hm, Hn, Hnam.
  rewrite Hr, Ha.
  unfold named, namingCalls.
  pose proof (naming_lengths ctx form 0) as Hlens.
  assert (1 < length (named ctx form 0) → naming ctx form 0 = true) as Hmany.
  { unfold named, naming. case_bool_decide; [done|]. intros. lia. }
  unfold named in Hmany.
  destruct (naming ctx form 0) eqn:Hnaming.
  - specialize (Hlens eq_refl).
    pose proof (proj1 (naming_iff form) Hnaming) as [_ Hmerge].
    rewrite length_renamed.
    unfold naming in Hnaming. apply bool_decide_eq_true in Hnaming.
    split; [intros; lia|]. split; [|by intros ->].
    intros _. split; [done|]. split; [by apply renameCalls_inputs|].
    split; [by exists (normalized ctx form 0)|].
    unfold conversionCalls, mergeCalls, normalizationCalls, merged.
    rewrite subject_pdfCalls, product_pdfCalls, Hmerge.
    split; [done|]. split; [done|].
    destruct (normalizing form); [|done].
    intros _. apply subject_convertCalls.
  - split; [|split; intros; by specialize (Hmany ltac:(done))].
    intros Hone. split; [done|]. split; [|done].
    by apply single_output_allocated.
Qed.

(** ** Further properties of the handlers *)

(** The error the PDF handler returns when a call fails is determined by the
    failed call: the error of the collaborator wrapped with the name of the
    step (lines 113, 132, 145, 157 and 168), or the error built for a Converter
    failure. *)
Theorem stage_failure_wrapping form ev e :
  ev ∈ pdfTrace form → answer ev = Some e →
  match stage_of ev with
  | StageMerge => pdfOutcome form = Fail (Errorf "merge PDFs" e)
  | StageNormalization => pdfOutcome form = Fail (Errorf "convert PDF" e)
  | StageMetadata => pdfOutcome form = Fail (Errorf "write metadata" e)
  | StageNaming => pdfOutcome form = Fail (Errorf "rename output path" e)
  | StageResponse => pdfOutcome form = Fail (Errorf "add output paths" e)
  | StageConversion => pdfOutcome form = Fail (pdfFailure form e)
  end.
Proof.
  intros Hin Hans. apply list_elem_of_lookup in Hin as [i Hi].
  destruct (pdf_failed_call form i ev Hi ltac:(by rewrite Hans))
    as (ending & _ & Ho & _ & _ & Hev & _).
  rewrite Ho. subst ev.
  destruct ending; cbn [final answer stage_of result] in *; congruence.
Qed.

(** Whatever call fails, the error returned by the PDF handler wraps the
    error of the collaborator: [errors.Is] finds in it exactly the sentinels
    of the cause. *)
Theorem returned_error_wraps_cause form ev e :
  ev ∈ pdfTrace form → answer ev = Some e →
  ∃ err, pdfOutcome form = Fail err ∧
         ∀ target, errors_Is err target = errors_Is e target.
Proof.
  intros Hin Hans. pose proof (stage_failure_wrapping form ev e Hin Hans) as Ho.
  destruct (stage_of ev); try (eexists; split; [exact Ho|done]).
  eexists. split; [exact Ho|]. intros target. unfold pdfFailure.
  by repeat case_match.
Qed.

(** The HTTP errors carried by the error the PDF handler returns.  The
    handler fails either because [form.Validate] returned an error, which it
    wraps as it is, or because a call failed, which is then the last call.
    It adds an HTTP error of its own in one situation only: a failure of the
    Converter whose cause is one of the two sentinels of the LibreOffice API;
    the status is then 400.  In every other situation the HTTP errors of the
    returned error are exactly those that the cause already carries. *)
Theorem http_error_only_for_sentinels form err :
  pdfOutcome form = Fail err →
  (∃ cause,
     (Validate ctx json_Unmarshal form).1 = Some cause ∧
     pdfTrace form = [] ∧
     err = Errorf "validate form data" cause ∧
     http_errors err = http_errors cause) ∨
  (∃ ev cause,
     last (pdfTrace form) = Some ev ∧ answer ev = Some cause ∧
     if bool_decide (stage_of ev = StageConversion)
        && (errors_Is cause ErrInvalidPdfFormats
            || errors_Is cause ErrMalformedPageRanges)
     then ∃ message,
            err = WrapError (Errorf "convert to PDF" cause)
                    StatusBadRequest message ∧
            http_errors err
              = http_errors cause ++ [(StatusBadRequest, message)]
     else (∃ prefix, err = Errorf prefix cause) ∧
          http_errors err = http_errors cause).
Proof.
  intros Hout. pose proof (RunPdfPipeline_cases form) as Hrun.
  destruct (Validate ctx json_Unmarshal form).1 as [cause|].
  { left. exists cause. unfold pdfOutcome, pdfTrace in *.
    rewrite Hrun in *. cbn in Hout. injection Hout as <-. by repeat split. }
  right. destruct Hrun as (ending & _ & Ho & Ht & _).
  rewrite Ho in Hout. rewrite Ht, last_snoc.
  destruct ending; cbn [result] in Hout; try done;
    injection Hout as <-; eexists _, e; (split; [reflexivity|]);
    (split; [reflexivity|]); cbn [final stage_of];
    try (rewrite bool_decide_eq_false_2 by done; cbn [andb];
         split; [by eexists|done]).
  rewrite bool_decide_eq_true_2 by done. cbn [andb]. unfold pdfFailure.
  destruct (errors_Is e ErrInvalidPdfFormats);
    [|destruct (errors_Is e ErrMalformedPageRanges)]; cbn [orb];
    first [ by eexists | split; [by eexists|done] ].
Qed.

(** A form on which a typed binder reported an error is rejected by both
    handlers before any call: nothing is converted and nothing is handed to
    the response (lines 60-62 and 194-196). *)
Theorem invalid_form_is_rejected form e :
  Form.errors form = Some e →
  (∃ err, pdfOutcome form = Fail (Errorf "validate form data" err)) ∧
  pdfTrace form = [] ∧ pdfOutputs form = [] ∧
  docxOutcome form
    = Fail (Errorf "validate form data" (formValidate ctx e)) ∧
  docxTrace form = [] ∧ docxOutputs form = [].
Proof.
  intros He.
  pose proof (RunPdfPipeline_cases form) as Hpdf.
  pose proof (RunDocxPipeline_cases form) as Hdocx.
  rewrite He in Hdocx.
  assert (∃ err, (Validate ctx json_Unmarshal form).1 = Some err) as [err Hv].
  { unfold Validate. destruct (metadataCallback _ _) as [[cb|] md];
      rewrite ?He; cbn; eauto. }
  rewrite Hv in Hpdf.
  unfold pdfOutcome, pdfTrace, pdfOutputs, docxOutcome, docxTrace, docxOutputs.
  rewrite Hpdf, Hdocx. cbn. eauto 10.
Qed.

(** The metadata stage makes no call when the decoded metadata is empty; in
    particular when the "metadata" field is empty or absent, in which case
    the JSON decoder is not consulted (lines 51 and 141). *)
Theorem empty_metadata_skips_stamping form :
  (Form.metadata form = "" → metadataOf form = ∅) ∧
  (size (metadataOf form) = 0 →
   calls_of StageMetadata (pdfTrace form) = []).
Proof.
  split.
  - intros Hm. unfold metadataOf, Validate, metadataCallback. by rewrite Hm.
  - intros Hsize.
    destruct (Validate ctx json_Unmarshal form).1 as [err|] eqn:Hv.
    { by rewrite (pdf_invalid_trace form err Hv). }
    destruct (pdf_calls_of form Hv) as (ending & Hp & _ & Hseg).
    rewrite Hseg.
    assert (stamping (metadataOf form) = false) as Hst.
    { unfold stamping. apply bool_decide_eq_false. lia. }
    destruct ending; cbn [segment possible] in *; try done;
      try (unfold stampingCalls; by rewrite Hst).
    destruct Hp as [Hp _]. congruence.
Qed.

(** In a successful run with non-empty metadata every file left by the
    normalization stage is stamped once, in order, with the decoded metadata:
    the stamped files are the output handed to the response when there is a
    single one, and the files that are then renamed when there are
    several. *)
Theorem every_output_is_stamped form :
  pdfOutcome form = Return tt → 0 < size (metadataOf form) →
  Forall (λ ev, ∃ p, ev = EWriteMetadata (metadataOf form) p None)
    (calls_of StageMetadata (pdfTrace form)) ∧
  (calls_of StageNaming (pdfTrace form) = [] →
   subject <$> calls_of StageMetadata (pdfTrace form)
     = Some <$> pdfOutputs form) ∧
  (calls_of StageNaming (pdfTrace form) ≠ [] →
   subject <$> calls_of StageMetadata (pdfTrace form)
     = subject <$> calls_of StageNaming (pdfTrace form)).
Proof.
  intros Hok Hsize. destruct (pdf_success form Hok) as (Ht & Hr & _).
  rewrite Ht, !calls_of_trace, Hr. cbn [segment].
  unfold stampingCalls, stamping, namingCalls, named.
  rewrite bool_decide_eq_true_2 by done.
  rewrite subject_metadataCalls.
  split; [|split].
  - unfold metadataCalls. rewrite Forall_fmap. apply Forall_true. eauto.
  - destruct (naming ctx form 0) eqn:Hn; [|done].
    pose proof (naming_lengths ctx form 0 Hn) as Hlen.
    apply naming_iff in Hn as [Hn _]. intros Hnil.
    apply (f_equal length) in Hnil. unfold renameCalls in Hnil.
    rewrite length_zip_with, Hlen in Hnil. simpl in Hnil. lia.
  - destruct (naming ctx form 0) eqn:Hn; [|done]. intros _.
    by rewrite subject_renameCalls by by apply naming_lengths.
Qed.

(** Every call to the Converter of the PDF route is made on an input file of
    the request and carries the options of the form unchanged; the PDF
    formats are passed only when native conversion is requested
    (lines 73-84). *)
Theorem converter_options form inp out options res :
  EPdf inp out options res ∈ pdfTrace form →
  inp ∈ Form.inputPaths form ∧
  libreofficeapi.Landscape options = Form.landscape form ∧
  libreofficeapi.PageRanges options = Form.nativePageRanges form ∧
  libreofficeapi.ExportFormFields options = Form.exportFormFields form ∧
  libreofficeapi.SinglePageSheets options = Form.singlePageSheets form ∧
  libreofficeapi.PdfFormats options
    = if Form.nativePdfFormats form then pdfFormatsOf form else zeroValued.
Proof.
  intros Hin. rewrite (pdf_conversion_options form _ _ _ _ Hin).
  split; [|done].
  destruct (Validate ctx json_Unmarshal form).1 as [err|] eqn:Hv.
  { rewrite (pdf_invalid_trace form err Hv) in Hin.
    by apply not_elem_of_nil in Hin. }
  destruct (pdf_calls_of form Hv) as (ending & Hp & _ & Hseg).
  assert (EPdf inp out options res ∈ calls_of StageConversion (pdfTrace form))
    as Hc by by apply list_elem_of_filter.
  apply (list_elem_of_fmap_2 subject) in Hc. rewrite Hseg in Hc. simpl in Hc.
  assert (∀ l, l ⊆ Form.inputPaths form →
               Some inp ∈ subject <$> pdfCalls ctx form 0 l →
               inp ∈ Form.inputPaths form) as Hcalls.
  { intros l Hl. rewrite subject_pdfCalls.
    intros (x & [= ->] & Hx)%list_elem_of_fmap. by apply Hl. }
  destruct ending; cbn [segment final possible] in *;
    try (by apply (Hcalls (Form.inputPaths form))).
  rewrite fmap_app in Hc. apply elem_of_app in Hc as [Hc|Hc].
  - eapply Hcalls; [apply subseteq_take|exact Hc].
  - apply list_elem_of_singleton in Hc. injection Hc as ->.
    by eapply list_elem_of_lookup_2.
Qed.

(** The calls of a run that write a PDF file: conversions, merge and
    normalizations. *)
Definition writes (tr : list Event) : list Event :=
  calls_of StageConversion tr ++ calls_of StageMerge tr
    ++ calls_of StageNormalization tr.

Lemma genPaths_snoc a n ext :
  genPaths ctx a (S n) ext
    = genPaths ctx a n ext ++ [GeneratePath ctx (a + n) ext].
Proof.
  replace (S n) with (n + 1) by lia. by rewrite genPaths_app.
Qed.

Lemma allocatedAfterMerge_paths form :
  product <$> (conversionCalls ctx form 0 ++ mergeCalls ctx form 0)
    = Some <$> genPaths ctx 0 (allocatedAfterMerge form 0) ".pdf".
Proof.
  unfold conversionCalls, mergeCalls, allocatedAfterMerge, mergedPath.
  rewrite fmap_app, product_pdfCalls.
  destruct (merging form).
  - rewrite genPaths_snoc, fmap_app. reflexivity.
  - rewrite app_nil_r. reflexivity.
Qed.

Lemma pdf_writes_paths form :
  product <$> writes (pdfTrace form)
    = Some <$> genPaths ctx 0 (pdfAllocated form) ".pdf".
Proof.
  unfold writes. pose proof (RunPdfPipeline_cases form) as Hrun.
  destruct (Validate ctx json_Unmarshal form).1 as [err|].
  { unfold pdfTrace, pdfAllocated. by rewrite Hrun. }
  destruct Hrun as (ending & Hp & _ & Ht & _ & ->).
  rewrite Ht, !calls_of_trace.
  pose proof (allocatedAfterMerge_paths form) as Hmerge.
  destruct ending; cbn [segment final allocations possible] in *.
  - rewrite !app_nil_r, fmap_app, product_pdfCalls.
    rewrite length_take_le by (apply lookup_lt_Some in Hp; lia).
    rewrite !Nat.add_0_l, genPaths_snoc, fmap_app. reflexivity.
  - unfold conversionCalls.
    rewrite app_nil_r, fmap_app, product_pdfCalls.
    rewrite genPaths_snoc, fmap_app. reflexivity.
  - destruct Hp as [_ Hp]. rewrite app_assoc, fmap_app, Hmerge.
    rewrite fmap_app, product_convertCalls.
    rewrite length_take_le by (apply lookup_lt_Some in Hp; lia).
    rewrite genPaths_app, genPaths_snoc, !fmap_app. reflexivity.
  - rewrite app_assoc, fmap_app, Hmerge.
    unfold normalizationCalls, allocatedAfterNormalization.
    destruct (normalizing form).
    + rewrite product_convertCalls, genPaths_app, fmap_app. reflexivity.
    + rewrite app_nil_r. reflexivity.
  - rewrite app_assoc, fmap_app, Hmerge.
    unfold normalizationCalls, allocatedAfterNormalization.
    destruct (normalizing form).
    + rewrite product_convertCalls, genPaths_app, fmap_app. reflexivity.
    + rewrite app_nil_r. reflexivity.
  - rewrite app_assoc, fmap_app, Hmerge.
    unfold normalizationCalls, allocatedAfterNormalization.
    destruct (normalizing form).
    + rewrite product_convertCalls, genPaths_app, fmap_app. reflexivity.
    + rewrite app_nil_r. reflexivity.
  - rewrite app_assoc, fmap_app, Hmerge.
    unfold normalizationCalls, allocatedAfterNormalization.
    destruct (normalizing form).
    + rewrite product_convertCalls, genPaths_app, fmap_app. reflexivity.
    + rewrite app_nil_r. reflexivity.
Qed.


(** In every run of the PDF handler the calls that write a file write to the
    paths given by [ctx.GeneratePath], one fresh path per call in the order of
    allocation, and every allocated path is used: the [j]-th writing call
    writes the [j]-th allocated path (lines 72, 109 and 128). *)
Theorem writes_use_allocated_paths form :
  product <$> writes (pdfTrace form)
    = Some <$> genPaths ctx 0 (pdfAllocated form) ".pdf".
Proof. apply pdf_writes_paths. Qed.

(** When the allocator never returns the same path twice, no two calls of a
    run write the same file: an intermediate result is never overwritten by
    a later conversion, merge or normalization. *)
Theorem writes_never_collide form :
  (∀ i j, GeneratePath ctx i ".pdf" = GeneratePath ctx j ".pdf" → i = j) →
  NoDup (product <$> writes (pdfTrace form)).
Proof.
  intros Hinj. rewrite pdf_writes_paths.
  apply NoDup_fmap; [by intros x y [=]|].
  unfold genPaths. apply NoDup_fmap_2_strong; [|apply NoDup_seq].
  intros i j _ _. apply Hinj.
Qed.

Lemma length_append (s t : string) :
  String.length (s +:+ t) = String.length s + String.length t.
Proof. induction s as [|c s IH]; simpl; [done|by rewrite IH]. Qed.

(** Appending a suffix to two different names gives two different names. *)
Lemma append_suffix_inj (suffix s1 s2 : string) :
  s1 +:+ suffix = s2 +:+ suffix → s1 = s2.
Proof.
  revert s2. induction s1 as [|c1 s1 IH]; intros [|c2 s2] Heq; simpl in Heq.
  - done.
  - apply (f_equal String.length) in Heq.
    rewrite !length_append in Heq. simpl in Heq. lia.
  - apply (f_equal String.length) in Heq.
    rewrite !length_append in Heq. simpl in Heq. lia.
  - injection Heq as -> Heq. f_equal. by apply IH.
Qed.

(** The names of the outputs of a successful run are pairwise different when
    the input paths are; and when several outputs are returned, two inputs
    with the same path give two outputs with the same name (the handler
    does not disambiguate them). *)
Theorem unique_inputs_unique_outputs form :
  pdfOutcome form = Return tt →
  (NoDup (Form.inputPaths form) → NoDup (pdfOutputs form)) ∧
  (1 < length (pdfOutputs form) →
   NoDup (pdfOutputs form) → NoDup (Form.inputPaths form)).
Proof.
  intros Hok. destruct (pdf_success form Hok) as (_ & -> & _).
  unfold named. destruct (naming ctx form 0) eqn:Hn.
  - unfold renamed. split; [intros Hnd|intros _ Hnd].
    + apply NoDup_fmap_2; [|done]. intros x y. apply append_suffix_inj.
    + by apply NoDup_fmap_1 in Hnd.
  - unfold naming in Hn. apply bool_decide_eq_false in Hn.
    split; [intros _|intros; lia].
    destruct (normalized ctx form 0) as [|x [|y l]]; simpl in Hn;
      [constructor|apply NoDup_singleton|lia].
Qed.

(** In the DOCX route a failure of the Converter on the input of index [k]
    ends the run: the Converter was called on the inputs of index 0 to [k]
    only, in order, nothing is renamed and nothing is handed to the
    response (lines 200-213). *)
Theorem docx_conversion_failure_aborts form k ev :
  calls_of StageConversion (docxTrace form) !! k = Some ev →
  answer ev ≠ None →
  subject <$> calls_of StageConversion (docxTrace form)
    = Some <$> take (S k) (Form.inputPaths form) ∧
  (∃ pre, docxTrace form = pre ++ [ev] ∧
          Forall (λ c, stage_of c = StageConversion ∧ answer c = None) pre) ∧
  docxOutputs form = [].
Proof.
  intros Hk Hfail.
  assert (ev ∈ docxTrace form) as Hin.
  { apply list_elem_of_lookup_2 in Hk. unfold calls_of in Hk.
    by apply list_elem_of_filter in Hk as [_ ?]. }
  assert (stage_of ev = StageConversion) as Hs.
  { apply list_elem_of_lookup_2 in Hk. unfold calls_of in Hk.
    by apply list_elem_of_filter in Hk as [? _]. }
  apply list_elem_of_lookup in Hin as [i Hi].
  destruct (docx_failed_call form i ev Hi Hfail)
    as (ending & Hp & Ho & Ht & Hr & Hev).
  destruct ending; rewrite Hev in Hs; cbn [docxFinal stage_of] in Hs;
    try discriminate Hs; cbn [docxPossible] in Hp; try done.
  cbn [docxBefore docxFinal docxRegistered] in *.
  rewrite Ht in Hk |- *. rewrite calls_of_app in Hk |- *.
  rewrite (calls_of_same _ _ (docxCalls_stage _ _ _)) in Hk |- *.
  assert (calls_of StageConversion [ev] = [ev]) as Hlast.
  { apply calls_of_same. rewrite Forall_singleton, Hev. done. }
  rewrite Hlast in Hk |- *.
  destruct (failed_is_last _ ev ev k (docxCalls_ok _ _ _) Hk Hfail) as [-> _].
  rewrite length_docxCalls, length_take_le
    by (apply lookup_lt_Some in Hp; lia).
  split; [|split; [|done]].
  - rewrite fmap_app, subject_docxCalls, (take_S_r _ _ _ Hp), fmap_app, Hev.
    done.
  - eexists. split; [done|]. apply Forall_lookup. intros j c Hc.
    pose proof (docxCalls_stage ctx 0 (take k0 (Form.inputPaths form))) as H1.
    pose proof (docxCalls_ok ctx 0 (take k0 (Form.inputPaths form))) as H2.
    rewrite Forall_lookup in H1, H2. split; eauto.
Qed.

(** Output paths reach the response only through the last call of a
    successful run: in either route, a run that registers some output
    returned nil; a run that returns nil made one call to
    [ctx.AddOutputPaths], its last call, with the paths that are registered;
    and no run calls [ctx.AddOutputPaths] twice. *)
Theorem outputs_only_on_success route form :
  (ctx_outputPaths (Run route form).2 ≠ [] →
   (Run route form).1 = Return tt) ∧
  ((Run route form).1 = Return tt →
   ∃ pre, trace (Run route form).2
            = pre ++ [EAddOutputPaths (ctx_outputPaths (Run route form).2)
                        None] ∧
          calls_of StageResponse pre = []) ∧
  length (calls_of StageResponse (trace (Run route form).2)) ≤ 1.
Proof.
  destruct route; cbn [Run].
  - fold (pdfOutcome form) (pdfTrace form) (pdfOutputs form).
    pose proof (RunPdfPipeline_cases form) as Hrun.
    destruct (Validate ctx json_Unmarshal form).1 as [err|].
    { unfold pdfOutcome, pdfTrace, pdfOutputs. rewrite Hrun. cbn.
      repeat split; try done. lia. }
    destruct Hrun as (ending & Hp & Ho & Ht & Hr & _).
    assert (calls_of StageResponse
              (before ctx form (metadataOf form) 0 ending) = []) as Hpre.
    { pose proof (calls_of_trace ctx form (metadataOf form) 0 StageResponse
                    ending) as Hc.
      rewrite calls_of_app in Hc.
      destruct ending; cbn [segment final] in Hc;
        first [ by apply app_eq_nil in Hc as [? _]
              | by apply app_inj_tail in Hc as [? _]
              | idtac ].
      - unfold calls_of at 2 in Hc. rewrite filter_cons_True, filter_nil in Hc
          by done.
        by apply (app_inj_tail _ []) in Hc as [? _].
      - unfold calls_of at 2 in Hc. rewrite filter_cons_True, filter_nil in Hc
          by done.
        by apply (app_inj_tail _ []) in Hc as [? _]. }
    rewrite Ho, Ht, Hr, calls_of_app, Hpre.
    split; [|split].
    + by destruct ending.
    + intros Hok. destruct ending; try done. by eexists.
    + unfold calls_of. destruct ending; cbn [final];
        rewrite ?filter_cons_True, ?filter_cons_False, ?filter_nil by done;
        simpl; lia.
  - fold (docxOutcome form) (docxTrace form) (docxOutputs form).
    pose proof (RunDocxPipeline_cases form) as Hrun.
    destruct (Form.errors form) as [err|].
    { unfold docxOutcome, docxTrace, docxOutputs. rewrite Hrun. cbn.
      repeat split; try done. lia. }
    destruct Hrun as (ending & Hp & Ho & Ht & Hr).
    assert (calls_of StageResponse (docxBefore ctx form 0 ending) = [])
      as Hpre.
    { pose proof (docxNamingCalls_stage form) as Hnaming.
      destruct ending; cbn [docxBefore]; rewrite ?calls_of_app;
        rewrite ?(calls_of_other _ _ _ (docxCalls_stage _ _ _)) by done;
        rewrite ?(calls_of_other _ _ _ (renameCalls_stage _ _ _)) by done;
        rewrite ?(calls_of_other _ _ _ Hnaming) by done; done. }
    rewrite Ho, Ht, Hr, calls_of_app, Hpre.
    split; [|split].
    + by destruct ending.
    + intros Hok. destruct ending; try done. by eexists.
    + unfold calls_of. destruct ending; cbn [docxFinal docxPossible] in *;
        try done;
        rewrite ?filter_cons_True, ?filter_cons_False, ?filter_nil by done;
        simpl; lia.
Qed.

(** The form with another value of the merge flag, or of the native
    conversion flag. *)
Definition withMerge (merge : bool) (form : Form.t) : Form.t :=
  {| Form.inputPaths := Form.inputPaths form;
     Form.landscape := Form.landscape form;
     Form.nativePageRanges := Form.nativePageRanges form;
     Form.exportFormFields := Form.exportFormFields form;
     Form.singlePageSheets := Form.singlePageSheets form;
     Form.pdfa := Form.pdfa form;
     Form.pdfua := Form.pdfua form;
     Form.nativePdfFormats := Form.nativePdfFormats form;
     Form.merge := merge;
     Form.metadata := Form.metadata form;
     Form.errors := Form.errors form |}.

Definition withNativePdfFormats (native : bool) (form : Form.t) : Form.t :=
  {| Form.inputPaths := Form.inputPaths form;
     Form.landscape := Form.landscape form;
     Form.nativePageRanges := Form.nativePageRanges form;
     Form.exportFormFields := Form.exportFormFields form;
     Form.singlePageSheets := Form.singlePageSheets form;
     Form.pdfa := Form.pdfa form;
     Form.pdfua := Form.pdfua form;
     Form.nativePdfFormats := native;
     Form.merge := Form.merge form;
     Form.metadata := Form.metadata form;
     Form.errors := Form.errors form |}.

(** The conversion loop reads the form through the options and the PDF
    formats only. *)
Lemma convertLoop_ext form1 form2 ins : ∀ i outs st,
  optionsOf form1 = optionsOf form2 →
  pdfFormatsOf form1 = pdfFormatsOf form2 →
  convertLoop libreOffice ctx form1 i ins outs st
    = convertLoop libreOffice ctx form2 i ins outs st.
Proof.
  induction ins as [|inp ins IH]; intros i outs st Hopts Hformats;
    cbn [convertLoop]; [done|].
  rewrite !bind_run. destruct (ctx_GeneratePath ctx ".pdf" st) as [[p| |] st1];
    [|done..].
  rewrite !bind_run. destruct (slice_set outs i p st1) as [[outs'| |] st2];
    [|done..].
  rewrite !bind_run. destruct (slice_get outs' i st2) as [[q| |] st3];
    [|done..].
  rewrite !bind_run, Hopts.
  destruct (libreOffice_Pdf libreOffice inp q (optionsOf form2) st3)
    as [[[e|]| |] st4]; [|by apply IH|done..].
  unfold pdfFailure. by rewrite Hopts, Hformats.
Qed.

(** The result of the conversion loop has one path per input. *)
Lemma convertLoop_length form st :
  match convertLoop libreOffice ctx form 0 (Form.inputPaths form)
          (make (length (Form.inputPaths form))) st with
  | (Return outs, _) => length outs = length (Form.inputPaths form)
  | _ => True
  end.
Proof.
  pose proof (convertLoop_run libreOffice ctx form (Form.inputPaths form) 0
                (make (length (Form.inputPaths form))) st
                ltac:(by rewrite length_make)) as Hrun.
  destruct (convertLoop _ _ _ _ _ _ _) as [[outs| |] st']; [|done..].
  destruct Hrun as [-> _]. rewrite take_0. apply length_genPaths.
Qed.

(** For a request with a single input file the merge flag has no effect at
    all: the handler makes the same calls, returns the same result and hands
    the same output to the response whatever its value (line 108). *)
Theorem single_input_ignores_merge form merge :
  length (Form.inputPaths form) ≤ 1 →
  RunPdfPipeline (withMerge merge form) = RunPdfPipeline form.
Proof.
  intros Hlen. unfold RunPdfPipeline, convertRoute.
  change (Validate ctx json_Unmarshal (withMerge merge form))
    with (Validate ctx json_Unmarshal form).
  destruct (Validate ctx json_Unmarshal form) as [[err|] metadata]; [done|].
  change (Form.inputPaths (withMerge merge form)) with (Form.inputPaths form).
  rewrite !bind_run.
  rewrite (convertLoop_ext (withMerge merge form) form) by done.
  pose proof (convertLoop_length form initial) as Houts.
  destruct (convertLoop _ _ _ _ _ _ _) as [[outs| |] st1]; [|done..].
  rewrite !bind_run. unfold mergeStage.
  rewrite !bool_decide_eq_false_2 by lia. cbn [andb]. rewrite !ret_run.
  done.
Qed.

(** When no PDF format is requested the native conversion flag has no effect
    at all: the Converter receives the zero formats and the engine
    normalizes nothing either way (lines 80 and 123). *)
Theorem no_target_ignores_native_flag form native :
  Form.pdfa form = "" → Form.pdfua form = false →
  RunPdfPipeline (withNativePdfFormats native form) = RunPdfPipeline form.
Proof.
  intros Hpdfa Hpdfua.
  assert (pdfFormatsOf form = zeroValued) as Hzero.
  { unfold pdfFormatsOf, zeroValued. by rewrite Hpdfa, Hpdfua. }
  assert (∀ b, optionsOf (withNativePdfFormats b form)
               = optionsOf (withNativePdfFormats true form)) as Hopts.
  { intros b. unfold optionsOf. cbn.
    change (pdfFormatsOf (withNativePdfFormats b form))
      with (pdfFormatsOf form).
    change (pdfFormatsOf (withNativePdfFormats true form))
      with (pdfFormatsOf form).
    rewrite Hzero. by destruct b. }
  assert (optionsOf form = optionsOf (withNativePdfFormats true form))
    as Hform.
  { rewrite <- (Hopts (Form.nativePdfFormats form)). by destruct form. }
  unfold RunPdfPipeline, convertRoute.
  change (Validate ctx json_Unmarshal (withNativePdfFormats native form))
    with (Validate ctx json_Unmarshal form).
  destruct (Validate ctx json_Unmarshal form) as [[err|] metadata]; [done|].
  change (Form.inputPaths (withNativePdfFormats native form))
    with (Form.inputPaths form).
  rewrite !bind_run.
  rewrite (convertLoop_ext (withNativePdfFormats native form) form)
    by (by rewrite ?Hopts, ?Hform).
  destruct (convertLoop _ _ _ _ _ _ _) as [[outs| |] st1]; [|done..].
  rewrite !bind_run.
  change (mergeStage engine ctx (withNativePdfFormats native form) outs st1)
    with (mergeStage engine ctx form outs st1).
  destruct (mergeStage engine ctx form outs st1) as [[outs2| |] st2];
    [|done..].
  rewrite !bind_run. unfold normalizeStage.
  change (pdfFormatsOf (withNativePdfFormats native form))
    with (pdfFormatsOf form).
  rewrite !(bool_decide_eq_false_2 (pdfFormatsOf form ≠ zeroValued))
    by (intros H; by apply H).
  by rewrite !andb_false_r.
Qed.

(** The history of each output of a successful run with several outputs:
    the input of index [i] is converted, the converted file is normalized by
    the engine when that stage runs, and the file left by these stages is
    the one renamed to the [i]-th output handed to the response. *)
Theorem multi_output_lineage form :
  pdfOutcome form = Return tt → 1 < length (pdfOutputs form) →
  subject <$> calls_of StageConversion (pdfTrace form)
    = Some <$> Form.inputPaths form ∧
  (calls_of StageNormalization (pdfTrace form) = [] →
   subject <$> calls_of StageNaming (pdfTrace form)
     = product <$> calls_of StageConversion (pdfTrace form)) ∧
  (calls_of StageNormalization (pdfTrace form) ≠ [] →
   subject <$> calls_of StageNormalization (pdfTrace form)
     = product <$> calls_of StageConversion (pdfTrace form) ∧
   subject <$> calls_of StageNaming (pdfTrace form)
     = product <$> calls_of StageNormalization (pdfTrace form)) ∧
  product <$> calls_of StageNaming (pdfTrace form)
    = Some <$> pdfOutputs form.
Proof.
  intros Hok Hmany. destruct (pdf_success form Hok) as (Ht & Hr & _).
  rewrite Hr in Hmany |- *. rewrite Ht, !calls_of_trace. cbn [segment].
  assert (naming ctx form 0 = true) as Hn.
  { unfold named, naming in *. case_bool_decide; [done|lia]. }
  pose proof (naming_lengths ctx form 0 Hn) as Hlen.
  destruct (proj1 (naming_iff form) Hn) as [Hins Hmerge].
  unfold named, namingCalls, conversionCalls. rewrite Hn.
  rewrite subject_pdfCalls, product_pdfCalls,
    subject_renameCalls, product_renameCalls by done.
  assert (merged ctx form 0 = converted ctx form 0) as Hm.
  { unfold merged. by rewrite Hmerge. }
  assert (allocatedAfterMerge form 0 = length (Form.inputPaths form)) as Ha.
  { unfold allocatedAfterMerge. by rewrite Hmerge. }
  unfold normalizationCalls, normalized. rewrite Hm.
  split; [done|]. split; [|split; [|done]].
  - destruct (normalizing form); [|done]. intros Hnil.
    apply convertCalls_nonempty in Hnil; [done|].
    intros Hc. apply (f_equal length) in Hc.
    rewrite length_converted in Hc. simpl in Hc. lia.
  - destruct (normalizing form); [|done]. intros _.
    by rewrite subject_convertCalls, product_convertCalls.
Qed.

(** The history of the output of a successful run that merges: the inputs
    are converted in order, the converted files are merged in that order into
    one file, which is normalized by the engine when that stage runs; the
    file left by these stages is the single output, and it is not
    renamed. *)
Theorem merged_output_lineage form :
  pdfOutcome form = Return tt →
  1 < length (Form.inputPaths form) → Form.merge form = true →
  ∃ converted merged,
    subject <$> calls_of StageConversion (pdfTrace form)
      = Some <$> Form.inputPaths form ∧
    product <$> calls_of StageConversion (pdfTrace form)
      = Some <$> converted ∧
    calls_of StageMerge (pdfTrace form) = [EMerge converted merged None] ∧
    calls_of StageNaming (pdfTrace form) = [] ∧
    ((calls_of StageNormalization (pdfTrace form) = [] ∧
      pdfOutputs form = [merged])
     ∨ ∃ normalized,
         calls_of StageNormalization (pdfTrace form)
           = [EConvert (pdfFormatsOf form) merged normalized None] ∧
         pdfOutputs form = [normalized]).
Proof.
  intros Hok Hins Hmerge. destruct (pdf_success form Hok) as (Ht & Hr & _).
  rewrite Hr. rewrite Ht, !calls_of_trace. cbn [segment].
  assert (merging form = true) as Hm by by apply merging_iff.
  assert (naming ctx form 0 = false) as Hn.
  { destruct (naming ctx form 0) eqn:Hn; [|done].
    apply naming_iff in Hn as [_ Hn]. congruence. }
  exists (converted ctx form 0), (mergedPath ctx form 0).
  unfold conversionCalls, mergeCalls, namingCalls, named, normalizationCalls,
    normalized, merged.
  rewrite Hm, Hn, subject_pdfCalls, product_pdfCalls.
  repeat split.
  destruct (normalizing form); [right|by left].
  exists (GeneratePath ctx (allocatedAfterMerge form 0) ".pdf").
  split; [|reflexivity].
  unfold convertCalls, convertCall. cbn. by rewrite Nat.add_0_r.
Qed.

(** With no input file (the form validation normally excludes it) the
    handlers convert nothing: their only call hands the empty list of output
    paths to the response. *)
Theorem empty_input_converts_nothing form :
  Form.inputPaths form = [] →
  ((Validate ctx json_Unmarshal form).1 = None →
   ∃ res, pdfTrace form = [EAddOutputPaths [] res] ∧ pdfOutputs form = []) ∧
  (Form.errors form = None →
   ∃ res, docxTrace form = [EAddOutputPaths [] res] ∧ docxOutputs form = []).
Proof.
  intros Hins. split.
  - intros Hv. pose proof (RunPdfPipeline_cases form) as Hrun.
    rewrite Hv in Hrun. destruct Hrun as (ending & Hp & _ & Ht & Hr & _).
    assert (merging form = false) as Hm.
    { unfold merging. by rewrite Hins. }
    assert (normalized ctx form 0 = []) as Hnorm.
    { apply length_zero_iff_nil.
      rewrite length_normalized, length_merged, Hm. by rewrite Hins. }
    assert (merged ctx form 0 = []) as Hmerged.
    { apply length_zero_iff_nil. rewrite length_merged, Hm. by rewrite Hins. }
    assert (naming ctx form 0 = false) as Hn.
    { unfold naming. by rewrite Hnorm. }
    assert (before ctx form (metadataOf form) 0 Completed = []) as Hbefore.
    { cbn [before].
      unfold conversionCalls, mergeCalls, normalizationCalls, stampingCalls,
        namingCalls.
      rewrite Hm, Hn, Hnorm, Hmerged, Hins.
      by destruct (normalizing form), (stamping (metadataOf form)). }
    rewrite Ht, Hr.
    destruct ending; cbn [possible] in Hp;
      rewrite ?Hins, ?Hnorm, ?Hmerged in Hp;
      try (by destruct Hp as (_ & ? & _)); try (by destruct Hp);
      try congruence; try done.
    + exists (Some e). cbn [final registered before] in *.
      rewrite Hbefore. unfold named. by rewrite Hn, Hnorm.
    + exists None. cbn [final registered] in *.
      rewrite Hbefore. unfold named. by rewrite Hn, Hnorm.
  - intros Hv. pose proof (RunDocxPipeline_cases form) as Hrun.
    rewrite Hv in Hrun. destruct Hrun as (ending & Hp & _ & Ht & Hr).
    assert (docxConverted ctx form 0 = []) as Hconv.
    { apply length_zero_iff_nil. rewrite length_docxConverted.
      by rewrite Hins. }
    assert (docxNaming ctx form 0 = false) as Hn.
    { unfold docxNaming. by rewrite Hconv. }
    rewrite Ht, Hr.
    destruct ending; cbn [docxPossible] in Hp; rewrite ?Hins in Hp;
      try (by destruct Hp as (_ & ? & _)); try done;
      cbn [docxBefore docxFinal docxRegistered];
      unfold docxNamingCalls, docxNamed; rewrite Hn, Hconv, Hins;
      by eexists.
Qed.

(** In a successful run of the DOCX route the input of index [i] is
    converted by the [i]-th call of the Converter into the [i]-th allocated
    path with the ".docx" extension.  When several files are returned, the
    [i]-th call of [ctx.Rename] moves that very file to the path of the
    input followed by ".docx", which is the [i]-th output; a single file is
    returned under the path it was converted to, and nothing is renamed. *)
Theorem docx_output_lineage form i inp :
  docxOutcome form = Return tt →
  Form.inputPaths form !! i = Some inp →
  calls_of StageConversion (docxTrace form) !! i
    = Some (EDocx inp (GeneratePath ctx i ".docx") None) ∧
  length (calls_of StageConversion (docxTrace form))
    = length (Form.inputPaths form) ∧
  length (docxOutputs form) = length (Form.inputPaths form) ∧
  (1 < length (Form.inputPaths form) →
   calls_of StageNaming (docxTrace form) !! i
     = Some (ERename (GeneratePath ctx i ".docx") (inp +:+ ".docx") None) ∧
   length (calls_of StageNaming (docxTrace form))
     = length (Form.inputPaths form) ∧
   docxOutputs form !! i = Some (inp +:+ ".docx")) ∧
  (length (Form.inputPaths form) ≤ 1 →
   calls_of StageNaming (docxTrace form) = [] ∧
   docxOutputs form !! i = Some (GeneratePath ctx i ".docx")).
Proof.
  intros Hok Hi. destruct (docx_success form Hok) as [Ht Hr].
  pose proof (docxNamingCalls_stage form) as Hnaming.
  pose proof (lookup_lt_Some _ _ _ Hi) as Hlt.
  assert (genPaths ctx 0 (length (Form.inputPaths form)) ".docx" !! i
          = Some (GeneratePath ctx i ".docx")) as Hgen.
  { unfold genPaths. by rewrite list_lookup_fmap, lookup_seq_lt. }
  rewrite Ht, Hr, !calls_of_app.
  rewrite (calls_of_same _ _ (docxCalls_stage _ _ _)).
  rewrite (calls_of_other _ _ _ (docxCalls_stage _ _ _)) by done.
  rewrite (calls_of_other _ _ _ Hnaming) by done.
  rewrite (calls_of_same _ _ Hnaming).
  cbn. rewrite !app_nil_r.
  unfold docxNamingCalls, docxNamed, docxNaming, docxConverted.
  rewrite length_genPaths.
  split. { unfold docxCalls. by rewrite list_lookup_imap, Hi. }
  split. { unfold docxCalls. by rewrite length_imap. }
  split.
  { case_bool_decide; [|apply length_genPaths].
    unfold renamed. by rewrite length_fmap. }
  split.
  - intros Hlen. rewrite bool_decide_eq_true_2 by done.
    unfold renameCalls, renamed.
    rewrite lookup_zip_with, Hgen, list_lookup_fmap, Hi.
    rewrite length_zip_with, length_genPaths.
    split; [done|]. split; [lia|done].
  - intros Hlen. by rewrite bool_decide_eq_false_2 by lia.
Qed.

End Pipelines.


(** ** Concrete runs *)

(** An environment in which every call succeeds, and variants in which one
    call fails. *)
Definition okUno : Uno :=
  {| Pdf := λ _ _ _ _, None; Docx := λ _ _ _, None |}.

Definition unoFailingOn (path : string) (e : error) : Uno :=
  {| Pdf := λ _ inputPath _ _, if decide (inputPath = path) then Some e else None;
     Docx := λ _ inputPath _, if decide (inputPath = path) then Some e else None |}.

Definition okEngine : PdfEngine :=
  {| Merge := λ _ _ _, None;
     Convert := λ _ _ _ _, None;
     WriteMetadata := λ _ _ _, None |}.

(** Paths "/tmp/0.pdf", "/tmp/1.pdf", ... for the first ten allocations. *)
Definition tmpPath (n : nat) (extension : string) : string :=
  "/tmp/" +:+ String (Ascii.ascii_of_nat (48 + n)) extension.

Definition okCtx : Context :=
  {| GeneratePath := tmpPath;
     Rename := λ _ _ _, None;
     AddOutputPaths := λ _ _, None;
     formAppend := λ _ e, e;
     formValidate := λ e, WrapError e StatusBadRequest "Invalid form data" |}.

Definition ctxRenameFailingOn (path : string) (e : error) : Context :=
  {| GeneratePath := tmpPath;
     Rename := λ _ _ newpath, if decide (newpath = path) then Some e else None;
     AddOutputPaths := λ _ _, None;
     formAppend := λ _ e, e;
     formValidate := λ e, WrapError e StatusBadRequest "Invalid form data" |}.

(** The JSON document with the single member Author, and a decoder that
    knows this document and the empty object only. *)
Definition quote : Ascii.ascii := Ascii.ascii_of_nat 34.

Definition authorJson : string :=
  "{" +:+ String quote "Author" +:+ String quote ":"
      +:+ String quote "me" +:+ String quote "}".

Definition decodeJson (value : string) : error + gmap string json :=
  if decide (value = authorJson) then inr {[ "Author" := JString "me" ]}
  else if decide (value = "{}") then inr ∅
  else inl (Opaque "invalid character").

Definition request (inputPaths : list string) (pdfa : string)
    (nativePdfFormats merge : bool) (metadata : string) : Form.t :=
  {| Form.inputPaths := inputPaths;
     Form.landscape := false;
     Form.nativePageRanges := "1-x";
     Form.exportFormFields := true;
     Form.singlePageSheets := false;
     Form.pdfa := pdfa;
     Form.pdfua := false;
     Form.nativePdfFormats := nativePdfFormats;
     Form.merge := merge;
     Form.metadata := metadata;
     Form.errors := None |}.

Lemma pdf_output_count_witness :
  Form.inputPaths (request ["a.docx"; "b.xlsx"] "" true true "") ≠ [] ∧
  pdfOutcome okUno okEngine okCtx decodeJson
    (request ["a.docx"; "b.xlsx"] "" true true "") = Return tt ∧
  length (pdfOutputs okUno okEngine okCtx decodeJson
            (request ["a.docx"; "b.xlsx"] "" true true "")) = 1.
Proof.
  assert (Form.inputPaths (request ["a.docx"; "b.xlsx"] "" true true "") ≠ [])
    as H1 by discriminate.
  assert (pdfOutcome okUno okEngine okCtx decodeJson
            (request ["a.docx"; "b.xlsx"] "" true true "") = Return tt)
    as H2 by (vm_compute; reflexivity).
  split; [exact H1|]. split; [exact H2|].
  exact (proj1 (pdf_output_count okUno okEngine okCtx decodeJson _ H1 H2)).
Defined.

Lemma merge_invocation_witness :
  (Validate okCtx decodeJson (request ["a.docx"; "b.xlsx"] "" true true "")).1
    = None ∧
  Forall (λ ev, answer ev = None)
    (calls_of StageConversion
       (pdfTrace okUno okEngine okCtx decodeJson
          (request ["a.docx"; "b.xlsx"] "" true true ""))) ∧
  1 < length (Form.inputPaths (request ["a.docx"; "b.xlsx"] "" true true "")) ∧
  Form.merge (request ["a.docx"; "b.xlsx"] "" true true "") = true ∧
  ∃ outs out res,
    calls_of StageMerge
      (pdfTrace okUno okEngine okCtx decodeJson
         (request ["a.docx"; "b.xlsx"] "" true true ""))
      = [EMerge outs out res] ∧
    Some <$> outs
      = product <$> calls_of StageConversion
                      (pdfTrace okUno okEngine okCtx decodeJson
                         (request ["a.docx"; "b.xlsx"] "" true true "")) ∧
    length outs
      = length (Form.inputPaths (request ["a.docx"; "b.xlsx"] "" true true "")).
Proof.
  assert ((Validate okCtx decodeJson
             (request ["a.docx"; "b.xlsx"] "" true true "")).1 = None)
    as H1 by reflexivity.
  assert (Forall (λ ev, answer ev = None)
            (calls_of StageConversion
               (pdfTrace okUno okEngine okCtx decodeJson
                  (request ["a.docx"; "b.xlsx"] "" true true ""))))
    as H2 by (vm_compute; repeat constructor).
  assert (1 < length (Form.inputPaths
                        (request ["a.docx"; "b.xlsx"] "" true true "")))
    as H3 by (simpl; lia).
  assert (Form.merge (request ["a.docx"; "b.xlsx"] "" true true "") = true)
    as H4 by reflexivity.
  repeat (split; [assumption|]).
  exact (proj2 (proj2 (merge_invocation okUno okEngine okCtx decodeJson _))
           H1 H2 H3 H4).
Defined.

Lemma normalization_exclusive_witness :
  pdfOutcome okUno okEngine okCtx decodeJson
    (request ["a.docx"; "b.xlsx"] "PDF/A-2b" false true "") = Return tt ∧
  pdfFormatsOf (request ["a.docx"; "b.xlsx"] "PDF/A-2b" false true "")
    ≠ zeroValued ∧
  Form.nativePdfFormats (request ["a.docx"; "b.xlsx"] "PDF/A-2b" false true "")
    = false ∧
  Forall2
    (λ p ev, ∃ out,
       ev = EConvert
              (pdfFormatsOf
                 (request ["a.docx"; "b.xlsx"] "PDF/A-2b" false true ""))
              p out None)
    (merged okCtx (request ["a.docx"; "b.xlsx"] "PDF/A-2b" false true "") 0)
    (calls_of StageNormalization
       (pdfTrace okUno okEngine okCtx decodeJson
          (request ["a.docx"; "b.xlsx"] "PDF/A-2b" false true ""))).
Proof.
  assert (pdfOutcome okUno okEngine okCtx decodeJson
            (request ["a.docx"; "b.xlsx"] "PDF/A-2b" false true "") = Return tt)
    as H1 by (vm_compute; reflexivity).
  assert (pdfFormatsOf (request ["a.docx"; "b.xlsx"] "PDF/A-2b" false true "")
            ≠ zeroValued) as H2 by discriminate.
  split; [exact H1|]. split; [exact H2|]. split; [reflexivity|].
  exact (proj2 (proj2 (normalization_exclusive okUno okEngine okCtx
                         decodeJson _)) H1 H2 eq_refl).
Defined.

Lemma metadata_follows_normalization_witness :
  pdfTrace okUno okEngine okCtx decodeJson
    (request ["a.docx"] "PDF/A-2b" false false authorJson) !! 2
    = Some (EWriteMetadata {[ "Author" := JString "me" ]} "/tmp/1.pdf" None) ∧
  (∀ j ev,
     pdfTrace okUno okEngine okCtx decodeJson
       (request ["a.docx"] "PDF/A-2b" false false authorJson) !! j = Some ev →
     stage_of ev = StageNormalization ∨ stage_of ev = StageConversion →
     j < 2).
Proof.
  assert (pdfTrace okUno okEngine okCtx decodeJson
            (request ["a.docx"] "PDF/A-2b" false false authorJson) !! 2
          = Some (EWriteMetadata {[ "Author" := JString "me" ]}
                    "/tmp/1.pdf" None))
    as H1 by (vm_compute; reflexivity).
  split; [exact H1|].
  exact (proj1 (metadata_follows_normalization okUno okEngine okCtx decodeJson
                  _ _ _ _ _ H1)).
Defined.

Lemma output_naming_witness :
  pdfOutcome okUno okEngine okCtx decodeJson
    (request ["a.docx"; "b.xlsx"] "" true false "") = Return tt ∧
  pdfOutputs okUno okEngine okCtx decodeJson
    (request ["a.docx"; "b.xlsx"] "" true false "")
    = ["a.docx.pdf"; "b.xlsx.pdf"].
Proof.
  assert (pdfOutcome okUno okEngine okCtx decodeJson
            (request ["a.docx"; "b.xlsx"] "" true false "") = Return tt)
    as H1 by (vm_compute; reflexivity).
  split; [exact H1|].
  apply (proj2 (proj2 (output_naming okUno okEngine okCtx decodeJson _ H1))).
  - reflexivity.
  - vm_compute. lia.
Defined.

Lemma per_file_stage_failure_aborts_witness :
  calls_of StageConversion
    (pdfTrace (unoFailingOn "b.docx" (Opaque "crash")) okEngine okCtx
       decodeJson (request ["a.docx"; "b.docx"; "c.docx"] "" true false ""))
    !! 1
    = Some (EPdf "b.docx" "/tmp/1.pdf"
              (optionsOf
                 (request ["a.docx"; "b.docx"; "c.docx"] "" true false ""))
              (Some (Opaque "crash"))) ∧
  subject <$>
    calls_of StageConversion
      (pdfTrace (unoFailingOn "b.docx" (Opaque "crash")) okEngine okCtx
         decodeJson (request ["a.docx"; "b.docx"; "c.docx"] "" true false ""))
    = [Some "a.docx"; Some "b.docx"] ∧
  pdfOutputs (unoFailingOn "b.docx" (Opaque "crash")) okEngine okCtx
    decodeJson (request ["a.docx"; "b.docx"; "c.docx"] "" true false "") = [].
Proof.
  assert (calls_of StageConversion
            (pdfTrace (unoFailingOn "b.docx" (Opaque "crash")) okEngine okCtx
               decodeJson
               (request ["a.docx"; "b.docx"; "c.docx"] "" true false ""))
            !! 1
          = Some (EPdf "b.docx" "/tmp/1.pdf"
                    (optionsOf
                       (request ["a.docx"; "b.docx"; "c.docx"] "" true false ""))
                    (Some (Opaque "crash"))))
    as H1 by (vm_compute; reflexivity).
  split; [exact H1|].
  destruct (per_file_stage_failure_aborts _ okEngine okCtx decodeJson _ _ _ _
              H1 ltac:(discriminate)) as (_ & _ & _ & Hout & Hfiles).
  split; [exact (Hfiles eq_refl)|exact Hout].
Defined.



Lemma rename_failure_aborts_witness :
  ERename "/tmp/1.pdf" "b.xlsx.pdf" (Some (Opaque "busy"))
    ∈ trace (Run okUno okEngine
               (ctxRenameFailingOn "b.xlsx.pdf" (Opaque "busy")) decodeJson
               PdfRoute (request ["a.docx"; "b.xlsx"] "" true false "")).2 ∧
  (Run okUno okEngine (ctxRenameFailingOn "b.xlsx.pdf" (Opaque "busy"))
     decodeJson PdfRoute (request ["a.docx"; "b.xlsx"] "" true false "")).1
    = Fail (Errorf "rename output path" (Opaque "busy")) ∧
  ctx_outputPaths
    (Run okUno okEngine (ctxRenameFailingOn "b.xlsx.pdf" (Opaque "busy"))
       decodeJson PdfRoute (request ["a.docx"; "b.xlsx"] "" true false "")).2
    = [].
Proof.
  assert (ERename "/tmp/1.pdf" "b.xlsx.pdf" (Some (Opaque "busy"))
            ∈ trace (Run okUno okEngine
                       (ctxRenameFailingOn "b.xlsx.pdf" (Opaque "busy"))
                       decodeJson PdfRoute
                       (request ["a.docx"; "b.xlsx"] "" true false "")).2)
    as H1 by (apply list_elem_of_lookup_2 with (i := 3); vm_compute; reflexivity).
  split; [exact H1|].
  destruct (rename_failure_aborts okUno okEngine _ decodeJson _ _ _ _ _ H1)
    as (Ho & Hr & _).
  split; [exact Ho|exact Hr].
Defined.

Lemma docx_pipeline_uniform_witness :
  EDocx "b.hwp" "/tmp/1.docx" (Some (Sentinel ErrMalformedPageRanges))
    ∈ docxTrace (unoFailingOn "b.hwp" (Sentinel ErrMalformedPageRanges)) okCtx
        (request ["a.hwp"; "b.hwp"] "" true false "") ∧
  docxOutcome (unoFailingOn "b.hwp" (Sentinel ErrMalformedPageRanges)) okCtx
    (request ["a.hwp"; "b.hwp"] "" true false "")
    = Fail (WrapError
              (Errorf "convert to DOCX" (Sentinel ErrMalformedPageRanges))
              StatusInternalServerError "Error") ∧
  docxOutcome okUno okCtx (request ["a.hwp"; "b.hwp"] "" true false "")
    = Return tt ∧
  subject <$>
    calls_of StageConversion
      (docxTrace okUno okCtx (request ["a.hwp"; "b.hwp"] "" true false ""))
    = Some <$> Form.inputPaths (request ["a.hwp"; "b.hwp"] "" true false "").
Proof.
  assert (EDocx "b.hwp" "/tmp/1.docx" (Some (Sentinel ErrMalformedPageRanges))
            ∈ docxTrace (unoFailingOn "b.hwp" (Sentinel ErrMalformedPageRanges))
                okCtx (request ["a.hwp"; "b.hwp"] "" true false ""))
    as H1 by (apply list_elem_of_lookup_2 with (i := 1); vm_compute; reflexivity).
  assert (docxOutcome okUno okCtx
            (request ["a.hwp"; "b.hwp"] "" true false "") = Return tt)
    as H2 by (vm_compute; reflexivity).
  split; [exact H1|].
  split; [exact (proj1 (docx_pipeline_uniform _ okCtx _) _ _ _ H1)|].
  split; [exact H2|].
  exact (proj1 (proj2 (proj2 (docx_pipeline_uniform okUno okCtx _)) H2)).
Defined.

Lemma invalid_metadata_is_rejected_witness :
  Form.metadata (request ["a.docx"] "" true false "{") ≠ "" ∧
  decodeJson (Form.metadata (request ["a.docx"] "" true false "{"))
    = inl (Opaque "invalid character") ∧
  pdfTrace okUno okEngine okCtx decodeJson
    (request ["a.docx"] "" true false "{") = [] ∧
  pdfOutputs okUno okEngine okCtx decodeJson
    (request ["a.docx"] "" true false "{") = [].
Proof.
  assert (Form.metadata (request ["a.docx"] "" true false "{") ≠ "")
    as H1 by discriminate.
  assert (decodeJson (Form.metadata (request ["a.docx"] "" true false "{"))
          = inl (Opaque "invalid character")) as H2 by (vm_compute; reflexivity).
  split; [exact H1|]. split; [exact H2|].
  exact (proj2 (invalid_metadata_is_rejected okUno okEngine okCtx decodeJson
                  _ _ H1 H2)).
Defined.


(** ** Concrete runs for the further properties *)

(** An engine whose calls of one stage fail. *)
Definition engineFailingAt (stage : Stage) (e : error) : PdfEngine :=
  {| Merge := λ _ _ _, if decide (stage = StageMerge) then Some e else None;
     Convert := λ _ _ _ _,
       if decide (stage = StageNormalization) then Some e else None;
     WriteMetadata := λ _ _ _,
       if decide (stage = StageMetadata) then Some e else None |}.

(** An allocator that never returns the same path twice: the [n]-th path
    carries [n] strokes. *)
Fixpoint strokes (n : nat) : string :=
  match n with
  | 0 => ""
  | S n => String (Ascii.ascii_of_nat 105) (strokes n)
  end.

Definition freshPath (n : nat) (extension : string) : string :=
  "/tmp/" +:+ strokes n +:+ extension.

Definition freshCtx : Context :=
  {| GeneratePath := freshPath;
     Rename := λ _ _ _, None;
     AddOutputPaths := λ _ _, None;
     formAppend := λ _ e, e;
     formValidate := λ e, WrapError e StatusBadRequest "Invalid form data" |}.

Lemma strokes_inj n m : strokes n = strokes m → n = m.
Proof.
  revert m. induction n as [|n IH]; intros [|m] Heq; try done.
  injection Heq as Heq. f_equal. by apply IH.
Qed.

Lemma freshPath_inj ext i j : freshPath i ext = freshPath j ext → i = j.
Proof.
  unfold freshPath. intros Heq. simpl in Heq. injection Heq as Heq.
  change ("" +:+ strokes i +:+ ext) with (strokes i +:+ ext) in Heq.
  change ("" +:+ strokes j +:+ ext) with (strokes j +:+ ext) in Heq.
  by apply append_suffix_inj, strokes_inj in Heq.
Qed.

(** A form on which a typed binder reported an error. *)
Definition badRequest : Form.t :=
  {| Form.inputPaths := ["a.docx"];
     Form.landscape := false;
     Form.nativePageRanges := "";
     Form.exportFormFields := true;
     Form.singlePageSheets := false;
     Form.pdfa := "";
     Form.pdfua := false;
     Form.nativePdfFormats := true;
     Form.merge := false;
     Form.metadata := "";
     Form.errors := Some (Opaque "form field 'merge' is invalid") |}.

Lemma stage_failure_wrapping_witness :
  EMerge ["/tmp/0.pdf"; "/tmp/1.pdf"] "/tmp/2.pdf" (Some (Opaque "qpdf"))
    ∈ pdfTrace okUno (engineFailingAt StageMerge (Opaque "qpdf")) okCtx
        decodeJson (request ["a.docx"; "b.xlsx"] "" true true "") ∧
  pdfOutcome okUno (engineFailingAt StageMerge (Opaque "qpdf")) okCtx
    decodeJson (request ["a.docx"; "b.xlsx"] "" true true "")
    = Fail (Errorf "merge PDFs" (Opaque "qpdf")).
Proof.
  assert (EMerge ["/tmp/0.pdf"; "/tmp/1.pdf"] "/tmp/2.pdf"
            (Some (Opaque "qpdf"))
            ∈ pdfTrace okUno (engineFailingAt StageMerge (Opaque "qpdf")) okCtx
                decodeJson (request ["a.docx"; "b.xlsx"] "" true true ""))
    as H1 by (apply list_elem_of_lookup_2 with (i := 2); vm_compute; reflexivity).
  split; [exact H1|].
  exact (stage_failure_wrapping okUno _ okCtx decodeJson _ _ _ H1 eq_refl).
Defined.

Lemma returned_error_wraps_cause_witness :
  EPdf "a.docx" "/tmp/0.pdf"
    (optionsOf (request ["a.docx"] "" true false ""))
    (Some (Errorf "uno" (Sentinel ErrInvalidPdfFormats)))
    ∈ pdfTrace
        (unoFailingOn "a.docx" (Errorf "uno" (Sentinel ErrInvalidPdfFormats)))
        okEngine okCtx decodeJson (request ["a.docx"] "" true false "") ∧
  ∃ err,
    pdfOutcome
      (unoFailingOn "a.docx" (Errorf "uno" (Sentinel ErrInvalidPdfFormats)))
      okEngine okCtx decodeJson (request ["a.docx"] "" true false "")
      = Fail err ∧
    ∀ target,
      errors_Is err target
        = errors_Is (Errorf "uno" (Sentinel ErrInvalidPdfFormats)) target.
Proof.
  assert (EPdf "a.docx" "/tmp/0.pdf"
            (optionsOf (request ["a.docx"] "" true false ""))
            (Some (Errorf "uno" (Sentinel ErrInvalidPdfFormats)))
            ∈ pdfTrace
                (unoFailingOn "a.docx"
                   (Errorf "uno" (Sentinel ErrInvalidPdfFormats)))
                okEngine okCtx decodeJson (request ["a.docx"] "" true false ""))
    as H1 by (apply list_elem_of_lookup_2 with (i := 0); vm_compute; reflexivity).
  split; [exact H1|].
  exact (returned_error_wraps_cause _ okEngine okCtx decodeJson _ _ _ H1
           eq_refl).
Defined.

Lemma http_error_only_for_sentinels_witness :
  pdfOutcome okUno
    (engineFailingAt StageMerge
       (WrapError (Opaque "busy") 503 "Service Unavailable"))
    okCtx decodeJson (request ["a.docx"; "b.docx"] "" true true "")
    = Fail (Errorf "merge PDFs"
              (WrapError (Opaque "busy") 503 "Service Unavailable")) ∧
  http_errors
    (Errorf "merge PDFs"
       (WrapError (Opaque "busy") 503 "Service Unavailable"))
    = [(503, "Service Unavailable")].
Proof.
  assert (pdfOutcome okUno
            (engineFailingAt StageMerge
               (WrapError (Opaque "busy") 503 "Service Unavailable"))
            okCtx decodeJson (request ["a.docx"; "b.docx"] "" true true "")
          = Fail (Errorf "merge PDFs"
                    (WrapError (Opaque "busy") 503 "Service Unavailable")))
    as H1 by (vm_compute; reflexivity).
  split; [exact H1|].
  destruct (http_error_only_for_sentinels okUno _ okCtx decodeJson _ _ H1)
    as [(cause & Hv & _)|(ev & cause & Hl & Ha & Hc)].
  - vm_compute in Hv. discriminate Hv.
  - vm_compute in Hl. injection Hl as <-. injection Ha as <-.
    cbn in Hc. exact (proj2 Hc).
Defined.

Lemma invalid_form_is_rejected_witness :
  Form.errors badRequest = Some (Opaque "form field 'merge' is invalid") ∧
  pdfTrace okUno okEngine okCtx decodeJson badRequest = [] ∧
  docxTrace okUno okCtx badRequest = [].
Proof.
  assert (Form.errors badRequest
          = Some (Opaque "form field 'merge' is invalid")) as H1 by reflexivity.
  split; [exact H1|].
  destruct (invalid_form_is_rejected okUno okEngine okCtx decodeJson _ _ H1)
    as (_ & Hpdf & _ & _ & Hdocx & _).
  split; [exact Hpdf|exact Hdocx].
Defined.

Lemma empty_metadata_skips_stamping_witness :
  size (metadataOf okCtx decodeJson (request ["a.docx"] "" true false "{}"))
    = 0 ∧
  calls_of StageMetadata
    (pdfTrace okUno okEngine okCtx decodeJson
       (request ["a.docx"] "" true false "{}")) = [].
Proof.
  assert (size (metadataOf okCtx decodeJson
                  (request ["a.docx"] "" true false "{}")) = 0)
    as H1 by (vm_compute; reflexivity).
  split; [exact H1|].
  exact (proj2 (empty_metadata_skips_stamping okUno okEngine okCtx decodeJson
                  _) H1).
Defined.

Lemma every_output_is_stamped_witness :
  pdfOutcome okUno okEngine okCtx decodeJson
    (request ["a.docx"; "b.xlsx"] "" true false authorJson) = Return tt ∧
  0 < size (metadataOf okCtx decodeJson
              (request ["a.docx"; "b.xlsx"] "" true false authorJson)) ∧
  Forall
    (λ ev, ∃ p,
       ev = EWriteMetadata
              (metadataOf okCtx decodeJson
                 (request ["a.docx"; "b.xlsx"] "" true false authorJson))
              p None)
    (calls_of StageMetadata
       (pdfTrace okUno okEngine okCtx decodeJson
          (request ["a.docx"; "b.xlsx"] "" true false authorJson))).
Proof.
  assert (pdfOutcome okUno okEngine okCtx decodeJson
            (request ["a.docx"; "b.xlsx"] "" true false authorJson)
          = Return tt) as H1 by (vm_compute; reflexivity).
  assert (0 < size (metadataOf okCtx decodeJson
                      (request ["a.docx"; "b.xlsx"] "" true false authorJson)))
    as H2 by (vm_compute; lia).
  split; [exact H1|]. split; [exact H2|].
  exact (proj1 (every_output_is_stamped okUno okEngine okCtx decodeJson _
                  H1 H2)).
Defined.

Lemma converter_options_witness :
  EPdf "b.xlsx" "/tmp/1.pdf"
    (optionsOf (request ["a.docx"; "b.xlsx"] "PDF/A-2b" false false "")) None
    ∈ pdfTrace okUno okEngine okCtx decodeJson
        (request ["a.docx"; "b.xlsx"] "PDF/A-2b" false false "") ∧
  "b.xlsx" ∈ Form.inputPaths
               (request ["a.docx"; "b.xlsx"] "PDF/A-2b" false false "").
Proof.
  assert (EPdf "b.xlsx" "/tmp/1.pdf"
            (optionsOf (request ["a.docx"; "b.xlsx"] "PDF/A-2b" false false ""))
            None
            ∈ pdfTrace okUno okEngine okCtx decodeJson
                (request ["a.docx"; "b.xlsx"] "PDF/A-2b" false false ""))
    as H1 by (apply list_elem_of_lookup_2 with (i := 1); vm_compute; reflexivity).
  split; [exact H1|].
  exact (proj1 (converter_options okUno okEngine okCtx decodeJson _ _ _ _ _
                  H1)).
Defined.

Lemma writes_never_collide_witness :
  (∀ i j, GeneratePath freshCtx i ".pdf" = GeneratePath freshCtx j ".pdf" →
          i = j) ∧
  NoDup (product <$>
           writes (pdfTrace okUno okEngine freshCtx decodeJson
                     (request ["a.docx"; "b.xlsx"] "PDF/A-2b" false true ""))).
Proof.
  assert (∀ i j, GeneratePath freshCtx i ".pdf" = GeneratePath freshCtx j ".pdf"
                 → i = j) as H1 by (intros i j; apply freshPath_inj).
  split; [exact H1|].
  exact (writes_never_collide okUno okEngine freshCtx decodeJson _ H1).
Defined.

Lemma unique_inputs_unique_outputs_witness :
  pdfOutcome okUno okEngine okCtx decodeJson
    (request ["a.docx"; "b.xlsx"] "" true false "") = Return tt ∧
  NoDup (Form.inputPaths (request ["a.docx"; "b.xlsx"] "" true false "")) ∧
  NoDup (pdfOutputs okUno okEngine okCtx decodeJson
           (request ["a.docx"; "b.xlsx"] "" true false "")).
Proof.
  assert (pdfOutcome okUno okEngine okCtx decodeJson
            (request ["a.docx"; "b.xlsx"] "" true false "") = Return tt)
    as H1 by (vm_compute; reflexivity).
  assert (NoDup (Form.inputPaths
                   (request ["a.docx"; "b.xlsx"] "" true false "")))
    as H2 by (simpl; apply NoDup_cons_2;
              [rewrite list_elem_of_singleton; discriminate
              |apply NoDup_singleton]).
  split; [exact H1|]. split; [exact H2|].
  exact (proj1 (unique_inputs_unique_outputs okUno okEngine okCtx decodeJson
                  _ H1) H2).
Defined.

Lemma docx_conversion_failure_aborts_witness :
  calls_of StageConversion
    (docxTrace (unoFailingOn "b.hwp" (Opaque "crash")) okCtx
       (request ["a.hwp"; "b.hwp"; "c.hwp"] "" true false "")) !! 1
    = Some (EDocx "b.hwp" "/tmp/1.docx" (Some (Opaque "crash"))) ∧
  subject <$>
    calls_of StageConversion
      (docxTrace (unoFailingOn "b.hwp" (Opaque "crash")) okCtx
         (request ["a.hwp"; "b.hwp"; "c.hwp"] "" true false ""))
    = [Some "a.hwp"; Some "b.hwp"].
Proof.
  assert (calls_of StageConversion
            (docxTrace (unoFailingOn "b.hwp" (Opaque "crash")) okCtx
               (request ["a.hwp"; "b.hwp"; "c.hwp"] "" true false "")) !! 1
          = Some (EDocx "b.hwp" "/tmp/1.docx" (Some (Opaque "crash"))))
    as H1 by (vm_compute; reflexivity).
  split; [exact H1|].
  exact (proj1 (docx_conversion_failure_aborts _ okCtx _ _ _ H1
                  ltac:(discriminate))).
Defined.

Lemma outputs_only_on_success_witness :
  ctx_outputPaths
    (Run okUno okEngine okCtx decodeJson DocxRoute
       (request ["a.hwp"; "b.hwp"] "" true false "")).2 ≠ [] ∧
  (Run okUno okEngine okCtx decodeJson DocxRoute
     (request ["a.hwp"; "b.hwp"] "" true false "")).1 = Return tt.
Proof.
  assert (ctx_outputPaths
            (Run okUno okEngine okCtx decodeJson DocxRoute
               (request ["a.hwp"; "b.hwp"] "" true false "")).2 ≠ [])
    as H1 by (vm_compute; discriminate).
  split; [exact H1|].
  exact (proj1 (outputs_only_on_success okUno okEngine okCtx decodeJson _ _)
           H1).
Defined.

Lemma single_input_ignores_merge_witness :
  length (Form.inputPaths (request ["a.docx"] "" true false "")) ≤ 1 ∧
  RunPdfPipeline okUno okEngine okCtx decodeJson
    (withMerge true (request ["a.docx"] "" true false ""))
    = RunPdfPipeline okUno okEngine okCtx decodeJson
        (request ["a.docx"] "" true false "").
Proof.
  assert (length (Form.inputPaths (request ["a.docx"] "" true false "")) ≤ 1)
    as H1 by (simpl; lia).
  split; [exact H1|].
  exact (single_input_ignores_merge okUno okEngine okCtx decodeJson _ true H1).
Defined.

Lemma no_target_ignores_native_flag_witness :
  Form.pdfa (request ["a.docx"; "b.xlsx"] "" true false "") = "" ∧
  Form.pdfua (request ["a.docx"; "b.xlsx"] "" true false "") = false ∧
  RunPdfPipeline okUno okEngine okCtx decodeJson
    (withNativePdfFormats false (request ["a.docx"; "b.xlsx"] "" true false ""))
    = RunPdfPipeline okUno okEngine okCtx decodeJson
        (request ["a.docx"; "b.xlsx"] "" true false "").
Proof.
  split; [reflexivity|]. split; [reflexivity|].
  exact (no_target_ignores_native_flag okUno okEngine okCtx decodeJson
           (request ["a.docx"; "b.xlsx"] "" true false "") false
           eq_refl eq_refl).
Defined.

Lemma multi_output_lineage_witness :
  pdfOutcome okUno okEngine okCtx decodeJson
    (request ["a.docx"; "b.xlsx"] "PDF/A-2b" false false "") = Return tt ∧
  1 < length (pdfOutputs okUno okEngine okCtx decodeJson
                (request ["a.docx"; "b.xlsx"] "PDF/A-2b" false false "")) ∧
  product <$>
    calls_of StageNaming
      (pdfTrace okUno okEngine okCtx decodeJson
         (request ["a.docx"; "b.xlsx"] "PDF/A-2b" false false ""))
    = Some <$>
        pdfOutputs okUno okEngine okCtx decodeJson
          (request ["a.docx"; "b.xlsx"] "PDF/A-2b" false false "").
Proof.
  assert (pdfOutcome okUno okEngine okCtx decodeJson
            (request ["a.docx"; "b.xlsx"] "PDF/A-2b" false false "")
          = Return tt) as H1 by (vm_compute; reflexivity).
  assert (1 < length (pdfOutputs okUno okEngine okCtx decodeJson
                        (request ["a.docx"; "b.xlsx"] "PDF/A-2b" false false "")))
    as H2 by (vm_compute; lia).
  split; [exact H1|]. split; [exact H2|].
  exact (proj2 (proj2 (proj2 (multi_output_lineage okUno okEngine okCtx
                                decodeJson _ H1 H2)))).
Defined.

Lemma merged_output_lineage_witness :
  pdfOutcome okUno okEngine okCtx decodeJson
    (request ["a.docx"; "b.xlsx"] "PDF/A-2b" false true "") = Return tt ∧
  1 < length (Form.inputPaths
                (request ["a.docx"; "b.xlsx"] "PDF/A-2b" false true "")) ∧
  Form.merge (request ["a.docx"; "b.xlsx"] "PDF/A-2b" false true "") = true ∧
  ∃ converted merged,
    calls_of StageMerge
      (pdfTrace okUno okEngine okCtx decodeJson
         (request ["a.docx"; "b.xlsx"] "PDF/A-2b" false true ""))
      = [EMerge converted merged None].
Proof.
  assert (pdfOutcome okUno okEngine okCtx decodeJson
            (request ["a.docx"; "b.xlsx"] "PDF/A-2b" false true "")
          = Return tt) as H1 by (vm_compute; reflexivity).
  assert (1 < length (Form.inputPaths
                        (request ["a.docx"; "b.xlsx"] "PDF/A-2b" false true "")))
    as H2 by (simpl; lia).
  split; [exact H1|]. split; [exact H2|]. split; [reflexivity|].
  destruct (merged_output_lineage okUno okEngine okCtx decodeJson
              (request ["a.docx"; "b.xlsx"] "PDF/A-2b" false true "") H1 H2
              eq_refl) as (converted & merged & _ & _ & Hm & _).
  by exists converted, merged.
Defined.

Lemma empty_input_converts_nothing_witness :
  Form.inputPaths (request [] "" true true authorJson) = [] ∧
  (Validate okCtx decodeJson (request [] "" true true authorJson)).1 = None ∧
  ∃ res,
    pdfTrace okUno okEngine okCtx decodeJson
      (request [] "" true true authorJson) = [EAddOutputPaths [] res] ∧
    pdfOutputs okUno okEngine okCtx decodeJson
      (request [] "" true true authorJson) = [].
Proof.
  split; [reflexivity|].
  assert ((Validate okCtx decodeJson
             (request [] "" true true authorJson)).1 = None)
    as H1 by (vm_compute; reflexivity).
  split; [exact H1|].
  exact (proj1 (empty_input_converts_nothing okUno okEngine okCtx decodeJson
                  (request [] "" true true authorJson) eq_refl) H1).
Defined.

Lemma docx_output_lineage_witness :
  docxOutcome okUno okCtx (request ["a.hwp"; "b.hwp"] "" true false "")
    = Return tt ∧
  Form.inputPaths (request ["a.hwp"; "b.hwp"] "" true false "") !! 1
    = Some "b.hwp" ∧
  calls_of StageConversion
    (docxTrace okUno okCtx (request ["a.hwp"; "b.hwp"] "" true false ""))
    !! 1
    = Some (EDocx "b.hwp" (GeneratePath okCtx 1 ".docx") None).
Proof.
  assert (docxOutcome okUno okCtx
            (request ["a.hwp"; "b.hwp"] "" true false "") = Return tt)
    as H1 by (vm_compute; reflexivity).
  assert (Form.inputPaths (request ["a.hwp"; "b.hwp"] "" true false "") !! 1
          = Some "b.hwp") as H2 by reflexivity.
  split; [exact H1|]. split; [exact H2|].
  exact (proj1 (docx_output_lineage okUno okCtx _ _ _ H1 H2)).
Defined.
